(** * qemu-compose: a shallow embedding of the orchestration core

    The development follows the Go sources file by file:
    [config.go], [image.go], [volume.go], [network.go], [vm.go],
    [cloudinit.go] and the command file that holds [loadComposeFile], the
    commands [destroy] and [stop] and [formatBytes].

    Conventions.
    - A Go [string] is a sequence of octets: Rocq's [string].
    - A Go [int] is a [Z]; no function below leaves the 64-bit range.
    - A function returning [(T, error)] returns [result T].
    - Functions that touch the project workspace, the host or the terminal
      thread a [World] explicitly and return the new one.
    - [logger.Printf] lines (debug log, discarded unless [--debug]) are not
      part of the model; [fmt.Printf] lines and external commands are
      recorded in the trace of the world.
    - An error carries the fixed text of the source; the text of an error
      of the operating system or of a command, which the sources append to
      it, is left out.
    - Reading and writing a file of the workspace succeeds; a file that
      does not parse is the one failure of a read that is modelled.  No
      function writes the JSON literal [null] to a metadata file, and a
      file holding it is not modelled.
    - Removing a directory and deleting a network interface can fail:
      the host decides, as it does for an external command. *)

From stdpp Require Import gmap strings pretty list fin_maps.
From Stdlib Require Import ZArith Lia.
From Stdlib Require Import Ascii.
From Stdlib Require String.

Set Default Proof Using "Type".
Local Open Scope Z_scope.

(* ===================================================================== *)
(** * Part I. Definitions                                                 *)
(* ===================================================================== *)

(** ** Results and errors *)

Inductive result (A : Type) : Type :=
| Ok (a : A)
| Err (msg : string).
Arguments Ok {A} a.
Arguments Err {A} msg.

Definition is_err {A} (r : result A) : bool :=
  match r with Ok _ => false | Err _ => true end.

(** ** The parts of Go's [strings], [fmt] and [crypto/md5] that the code uses *)

Module Go.

(** [len(s)] *)
Definition len (s : string) : Z := Z.of_nat (String.length s).

(** [s[:n]], used by the sources only under a guard [len(s) > n] or on a
    string of known length, so the bounds check of Go never fires. *)
Definition slice_to (n : nat) (s : string) : string := String.substring 0 n s.

(** [strings.HasPrefix(s, p)] *)
Definition HasPrefix (s p : string) : bool := String.prefix p s.

(** [strings.Contains(s, sub)] *)
Fixpoint Contains (s sub : string) : bool :=
  String.prefix sub s ||
  match s with
  | EmptyString => false
  | String _ s' => Contains s' sub
  end.

(** [strings.ReplaceAll(s, old, new)] for one-octet [old] and [new]. *)
Fixpoint ReplaceAll (s : string) (old new : ascii) : string :=
  match s with
  | EmptyString => EmptyString
  | String c s' =>
      String (if Ascii.eqb c old then new else c) (ReplaceAll s' old new)
  end.

(** [strings.Split(s, sep)] for a one-octet separator: [n] separators
    give [n + 1] parts, some of them possibly empty. *)
Fixpoint Split (s : string) (sep : ascii) : list string :=
  match s with
  | EmptyString => [EmptyString]
  | String c s' =>
      if Ascii.eqb c sep then EmptyString :: Split s' sep
      else match Split s' sep with
           | [] => [String c EmptyString]
           | p :: ps => String c p :: ps
           end
  end.

(** [strings.Join(parts, sep)] *)
Fixpoint Join (parts : list string) (sep : string) : string :=
  match parts with
  | [] => EmptyString
  | [p] => p
  | p :: ps => p +:+ sep +:+ Join ps sep
  end.

(** The UTF-8 encodings of the code points with the Unicode property
    White_Space, which is the set [strings.TrimSpace] removes. *)
Definition oct (n : N) : ascii := Ascii.ascii_of_N n.
Definition octets (l : list N) : string :=
  String.string_of_list_ascii (map oct l).

Definition white_space : list string :=
  map octets
    [ [0x09]; [0x0a]; [0x0b]; [0x0c]; [0x0d]; [0x20];
      [0xc2; 0x85]; [0xc2; 0xa0]; [0xe1; 0x9a; 0x80];
      [0xe2; 0x80; 0x80]; [0xe2; 0x80; 0x81]; [0xe2; 0x80; 0x82];
      [0xe2; 0x80; 0x83]; [0xe2; 0x80; 0x84]; [0xe2; 0x80; 0x85];
      [0xe2; 0x80; 0x86]; [0xe2; 0x80; 0x87]; [0xe2; 0x80; 0x88];
      [0xe2; 0x80; 0x89]; [0xe2; 0x80; 0x8a]; [0xe2; 0x80; 0xa8];
      [0xe2; 0x80; 0xa9]; [0xe2; 0x80; 0xaf]; [0xe2; 0x81; 0x9f];
      [0xe3; 0x80; 0x80] ]%N.

(** Drops one leading white-space code point, if there is one. *)
Definition drop_space (s : string) : option string :=
  match List.find (fun w => String.prefix w s) white_space with
  | Some w => Some (String.substring (String.length w)
                      (String.length s - String.length w) s)
  | None => None
  end.

Fixpoint TrimLeft_go (fuel : nat) (s : string) : string :=
  match fuel with
  | O => s
  | S fuel' =>
      match drop_space s with
      | Some s' => TrimLeft_go fuel' s'
      | None => s
      end
  end.

Definition TrimLeft (s : string) : string := TrimLeft_go (String.length s) s.

(** The trailing side works on the reversed octets, with the encodings
    reversed as well. *)
Definition drop_space_rev (r : string) : option string :=
  match List.find (fun w => String.prefix (String.rev w) r) white_space with
  | Some w => Some (String.substring (String.length w)
                      (String.length r - String.length w) r)
  | None => None
  end.

Fixpoint TrimRight_go (fuel : nat) (r : string) : string :=
  match fuel with
  | O => r
  | S fuel' =>
      match drop_space_rev r with
      | Some r' => TrimRight_go fuel' r'
      | None => r
      end
  end.

Definition TrimRight (s : string) : string :=
  String.rev (TrimRight_go (String.length s) (String.rev s)).

(** [strings.TrimSpace(s)] *)
Definition TrimSpace (s : string) : string := TrimRight (TrimLeft s).

(** [fmt.Sprintf("%d", n)]: stdpp's decimal printer, sign included. *)
Definition itoa (n : Z) : string := pretty n.

(** One lower-case hexadecimal digit. *)
Definition hex_digit (d : Z) : ascii :=
  match d with
  | 0 => "0" | 1 => "1" | 2 => "2" | 3 => "3" | 4 => "4" | 5 => "5"
  | 6 => "6" | 7 => "7" | 8 => "8" | 9 => "9" | 10 => "a" | 11 => "b"
  | 12 => "c" | 13 => "d" | 14 => "e" | _ => "f"
  end%char.

(** [fmt.Sprintf("%02x", b)] for an octet [b]. *)
Definition hex2 (b : Z) : string :=
  String (hex_digit (b / 16)) (String (hex_digit (b mod 16)) EmptyString).

(** [fmt.Sprintf("%x", bs)] for an octet array. *)
Fixpoint hex (bs : list Z) : string :=
  match bs with
  | [] => EmptyString
  | b :: bs' => hex2 b +:+ hex bs'
  end.

(** [[]byte(s)] *)
Definition bytes (s : string) : list Z :=
  map (fun c => Z.of_N (Ascii.N_of_ascii c)) (String.list_ascii_of_string s).

End Go.

(** [crypto/md5.Sum], after RFC 1321: 32-bit words are integers with the
    wrap-around written out. *)
Module MD5.

Definition mask32 (x : Z) : Z := Z.land x 0xffffffff.
Definition add32 (x y : Z) : Z := mask32 (x + y).
Definition not32 (x : Z) : Z := Z.lxor x 0xffffffff.
Definition rotl32 (x c : Z) : Z :=
  mask32 (Z.lor (Z.shiftl x c) (Z.shiftr x (32 - c))).

Definition K : list Z :=
[ 0xd76aa478; 0xe8c7b756; 0x242070db; 0xc1bdceee;
  0xf57c0faf; 0x4787c62a; 0xa8304613; 0xfd469501;
  0x698098d8; 0x8b44f7af; 0xffff5bb1; 0x895cd7be;
  0x6b901122; 0xfd987193; 0xa679438e; 0x49b40821;
  0xf61e2562; 0xc040b340; 0x265e5a51; 0xe9b6c7aa;
  0xd62f105d; 0x02441453; 0xd8a1e681; 0xe7d3fbc8;
  0x21e1cde6; 0xc33707d6; 0xf4d50d87; 0x455a14ed;
  0xa9e3e905; 0xfcefa3f8; 0x676f02d9; 0x8d2a4c8a;
  0xfffa3942; 0x8771f681; 0x6d9d6122; 0xfde5380c;
  0xa4beea44; 0x4bdecfa9; 0xf6bb4b60; 0xbebfbc70;
  0x289b7ec6; 0xeaa127fa; 0xd4ef3085; 0x04881d05;
  0xd9d4d039; 0xe6db99e5; 0x1fa27cf8; 0xc4ac5665;
  0xf4292244; 0x432aff97; 0xab9423a7; 0xfc93a039;
  0x655b59c3; 0x8f0ccc92; 0xffeff47d; 0x85845dd1;
  0x6fa87e4f; 0xfe2ce6e0; 0xa3014314; 0x4e0811a1;
  0xf7537e82; 0xbd3af235; 0x2ad7d2bb; 0xeb86d391 ].

Definition shifts : list Z :=
[ 7; 12; 17; 22; 7; 12; 17; 22; 7; 12; 17; 22; 7; 12; 17; 22;
  5;  9; 14; 20; 5;  9; 14; 20; 5;  9; 14; 20; 5;  9; 14; 20;
  4; 11; 16; 23; 4; 11; 16; 23; 4; 11; 16; 23; 4; 11; 16; 23;
  6; 10; 15; 21; 6; 10; 15; 21; 6; 10; 15; 21; 6; 10; 15; 21 ].

(** [n] octets of [x], least significant first. *)
Fixpoint le_bytes (n : nat) (x : Z) : list Z :=
  match n with
  | O => []
  | S n' => (x mod 256) :: le_bytes n' (x / 256)
  end.

(** Message, one [0x80], zeros up to 56 modulo 64, then the bit length
    in 8 octets. *)
Definition pad (msg : list Z) : list Z :=
  let l := Z.of_nat (length msg) in
  msg ++ [0x80] ++ replicate (Z.to_nat ((55 - l) mod 64)) 0
      ++ le_bytes 8 (8 * l).

Fixpoint words (bs : list Z) : list Z :=
  match bs with
  | b0 :: b1 :: b2 :: b3 :: r =>
      (b0 + 256 * (b1 + 256 * (b2 + 256 * b3))) :: words r
  | _ => []
  end.

Definition state : Type := Z * Z * Z * Z.

Definition step (M : list Z) (st : state) (i : nat) : state :=
  let '(a, b, c, d) := st in
  let iz := Z.of_nat i in
  let '(f, g) :=
    if iz <? 16 then (Z.lor (Z.land b c) (Z.land (not32 b) d), iz)
    else if iz <? 32 then
      (Z.lor (Z.land d b) (Z.land (not32 d) c), (5 * iz + 1) mod 16)
    else if iz <? 48 then (Z.lxor (Z.lxor b c) d, (3 * iz + 5) mod 16)
    else (Z.lxor c (Z.lor b (not32 d)), (7 * iz) mod 16) in
  let f' := add32 (add32 (add32 f a) (nth i K 0)) (nth (Z.to_nat g) M 0) in
  (d, add32 b (rotl32 f' (nth i shifts 0)), b, c).

Definition block (st : state) (M : list Z) : state :=
  let '(a0, b0, c0, d0) := st in
  let '(a, b, c, d) := fold_left (step M) (seq 0 64) st in
  (add32 a0 a, add32 b0 b, add32 c0 c, add32 d0 d).

Fixpoint blocks (fuel : nat) (ws : list Z) (st : state) : state :=
  match fuel with
  | O => st
  | S fuel' =>
      match ws with
      | [] => st
      | _ => blocks fuel' (drop 16 ws) (block st (take 16 ws))
      end
  end.

Definition init : state := (0x67452301, 0xefcdab89, 0x98badcfe, 0x10325476).

(** The 16 octets of the digest. *)
Definition Sum (msg : list Z) : list Z :=
  let ws := words (pad msg) in
  let '(a, b, c, d) := blocks (length ws) ws init in
  le_bytes 4 a ++ le_bytes 4 b ++ le_bytes 4 c ++ le_bytes 4 d.

End MD5.

(* --------------------------------------------------------------------- *)
(** ** config.go: the compose document                                    *)
(* --------------------------------------------------------------------- *)

Record Network := { Driver : string; Subnet : string }.

Record Volume := { Volume_Size : string }.

Record VolumeMount := {
  Source : string;
  Target : string;
  ReadOnly : bool;
  Automount : option bool;        (* [*bool]: [None] is [nil] *)
  MountOptions : string
}.

Record Provision := { Type_ : string; Inline : string }.

Record Disk := { Disk_Size : string }.

Record Healthcheck := {
  Test_ : list string; Interval : string; Timeout_ : string; Retries : Z
}.

Record SSH := { Port : Z }.

Record VM := {
  Image : string;
  CPU : Z;
  Memory : Z;
  Networks : list string;
  Ports : list string;
  DependsOn : list string;
  Volumes : list VolumeMount;
  Environment : list string;
  Provisions : list Provision;
  VM_Disk : option Disk;          (* [*Disk] *)
  VM_Healthcheck : option Healthcheck;
  VM_SSH : option SSH             (* [*SSH] *)
}.

Record ComposeConfig := {
  Version : string;
  Cfg_Networks : gmap string Network;
  Cfg_Volumes : gmap string Volume;
  VMs : gmap string VM
}.

(** The flag loop of [parseShortForm]: [ro] sets the read-only bit, any
    other flag stops the parse. *)
Fixpoint parseFlags (flags : list string) (ro : bool) : result bool :=
  match flags with
  | [] => Ok ro
  | flag :: rest =>
      if String.eqb flag "ro" then parseFlags rest true
      else Err ("unknown volume flag: " +:+ flag)
  end.

(** [VolumeMount.parseShortForm]. On success every field of the
    receiver has been assigned, so the result is the new receiver. *)
Definition parseShortForm (spec : string) : result VolumeMount :=
  match Go.Split spec ":" with
  | source :: target :: flags =>
      match parseFlags flags false with
      | Ok ro =>
          Ok {| Source := source; Target := target; ReadOnly := ro;
                Automount := None; MountOptions := "" |}
      | Err e => Err e
      end
  | _ =>
      Err ("invalid volume spec: " +:+ spec +:+
           " (expected format: source:target or source:target:flags)")
  end.

(** A YAML node in the place of a volume entry, as [yaml.v3] presents it
    to [UnmarshalYAML]: a scalar decodes into a Go string, a mapping that
    fits the struct decodes into it, a null decodes into the empty
    string, anything else fails both attempts with the decoder's
    message. *)
Inductive VolumeNode :=
| ScalarNode (text : string)
| MappingNode (long : VolumeMount)
| NullNode
| OtherNode (err : string).

(** [VolumeMount.UnmarshalYAML] *)
Definition UnmarshalYAML (n : VolumeNode) : result VolumeMount :=
  match n with
  | ScalarNode shortForm => parseShortForm shortForm
  | NullNode => parseShortForm ""
  | MappingNode longForm => Ok longForm
  | OtherNode err => Err err
  end.

(** The decoder of [yaml.v3] on one entry of the list: it calls the
    method, except on a null node, where it leaves the zero value. *)
Definition decodeVolume (n : VolumeNode) : result VolumeMount :=
  match n with
  | NullNode =>
      Ok {| Source := ""; Target := ""; ReadOnly := false;
            Automount := None; MountOptions := "" |}
  | _ => UnmarshalYAML n
  end.

(** The mapping of one VM as written in the document. A key that is
    absent leaves the field of the struct at Go's zero value. *)
Record VMNode := {
  n_image : option string;
  n_cpu : option Z;
  n_memory : option Z;
  n_networks : list string;
  n_ports : list string;
  n_depends_on : list string;
  n_volumes : list VolumeNode;
  n_environment : list string;
  n_provision : list Provision;
  n_disk : option Disk;
  n_healthcheck : option Healthcheck;
  n_ssh : option SSH
}.

Record Document := {
  d_version : string;
  d_networks : gmap string Network;
  d_volumes : gmap string Volume;
  d_vms : list (string * VMNode)   (* in document order, keys distinct *)
}.

(** What [os.ReadFile] and the YAML reader make of the compose file. *)
Inductive ComposeFile :=
| Unreadable (err : string)
| Malformed (err : string)
| Parsed (doc : Document).

Fixpoint decodeVolumes (ns : list VolumeNode) : result (list VolumeMount) :=
  match ns with
  | [] => Ok []
  | n :: rest =>
      match decodeVolume n with
      | Err e => Err e
      | Ok v =>
          match decodeVolumes rest with
          | Err e => Err e
          | Ok vs => Ok (v :: vs)
          end
      end
  end.

Definition decodeVM (n : VMNode) : result VM :=
  match decodeVolumes (n_volumes n) with
  | Err e => Err e
  | Ok vols =>
      Ok {| Image := default "" (n_image n);
            CPU := default 0 (n_cpu n);
            Memory := default 0 (n_memory n);
            Networks := n_networks n;
            Ports := n_ports n;
            DependsOn := n_depends_on n;
            Volumes := vols;
            Environment := n_environment n;
            Provisions := n_provision n;
            VM_Disk := n_disk n;
            VM_Healthcheck := n_healthcheck n;
            VM_SSH := n_ssh n |}
  end.

Fixpoint decodeVMs (ns : list (string * VMNode)) : result (gmap string VM) :=
  match ns with
  | [] => Ok ∅
  | (name, n) :: rest =>
      match decodeVM n with
      | Err e => Err e
      | Ok vm =>
          match decodeVMs rest with
          | Err e => Err e
          | Ok m => Ok (<[name := vm]> m)
          end
      end
  end.

(** [yaml.Unmarshal(data, &config)] on a well-formed document. *)
Definition decodeDocument (d : Document) : result ComposeConfig :=
  match decodeVMs (d_vms d) with
  | Err e => Err e
  | Ok vms =>
      Ok {| Version := d_version d;
            Cfg_Networks := d_networks d;
            Cfg_Volumes := d_volumes d;
            VMs := vms |}
  end.

(** [loadComposeFile]: reads and decodes, nothing else. *)
Definition loadComposeFile (f : ComposeFile) : result ComposeConfig :=
  match f with
  | Unreadable err => Err ("failed to read compose file: " +:+ err)
  | Malformed err => Err ("failed to parse compose file: " +:+ err)
  | Parsed doc =>
      match decodeDocument doc with
      | Err err => Err ("failed to parse compose file: " +:+ err)
      | Ok config => Ok config
      end
  end.

(** [filterVMs] *)
Fixpoint filterVMs_go (vms : gmap string VM) (vmNames : list string)
    (filtered : gmap string VM) : result (gmap string VM) :=
  match vmNames with
  | [] => Ok filtered
  | vmName :: rest =>
      match vms !! vmName with
      | None => Err ("VM not found in compose file: " +:+ vmName)
      | Some vm => filterVMs_go vms rest (<[vmName := vm]> filtered)
      end
  end.

Definition filterVMs (config : ComposeConfig) (vmNames : list string)
    : result (gmap string VM) :=
  match vmNames with
  | [] => Ok (VMs config)
  | _ => filterVMs_go (VMs config) vmNames ∅
  end.

(* --------------------------------------------------------------------- *)
(** ** [path/filepath]                                                    *)
(* --------------------------------------------------------------------- *)

(** [path/filepath] on a Unix host: [IsAbs], [Clean], [Dir], [Join]. *)
Module filepath.

Definition IsAbs (p : string) : bool := Go.HasPrefix p "/".

Fixpoint cleanStack (rooted : bool) (comps stack : list string) : list string :=
  match comps with
  | [] => rev stack
  | c :: rest =>
      if String.eqb c "" || String.eqb c "." then cleanStack rooted rest stack
      else if String.eqb c ".." then
        match stack with
        | top :: below =>
            if String.eqb top ".." then cleanStack rooted rest (c :: stack)
            else cleanStack rooted rest below
        | [] =>
            if rooted then cleanStack rooted rest []
            else cleanStack rooted rest [c]
        end
      else cleanStack rooted rest (c :: stack)
  end.

Definition cleanComps (rooted : bool) (comps : list string) : string :=
  let out := Go.Join (cleanStack rooted comps []) "/" in
  if rooted then "/" +:+ out
  else if String.eqb out "" then "." else out.

Definition Clean (p : string) : string :=
  cleanComps (IsAbs p) (Go.Split p "/").

(** [Dir(p)] is [Clean] of [p] up to and including its last separator. *)
Definition Dir (p : string) : string :=
  match Go.Split p "/" with
  | [] | [_] => "."
  | comps => cleanComps (IsAbs p) (removelast comps)
  end.

(** [Join(a, b)]: empty elements are skipped, the rest is cleaned. *)
Definition Join (a b : string) : string :=
  if String.eqb a "" then (if String.eqb b "" then "" else Clean b)
  else if String.eqb b "" then Clean a
  else Clean (a +:+ "/" +:+ b).

(** [Join(elem...)]: the elements from the first non-empty one on,
    separated by slashes, then cleaned. *)
Fixpoint JoinAll (elem : list string) : string :=
  match elem with
  | [] => ""
  | e :: rest =>
      if String.eqb e "" then JoinAll rest else Clean (Go.Join elem "/")
  end.

End filepath.

(* --------------------------------------------------------------------- *)
(** ** The world: workspace files, host state, terminal                   *)
(* --------------------------------------------------------------------- *)

(** [NetworkMetadata] (network.go) *)
Record NetworkMetadata := {
  Meta_Subnet : string;
  Meta_Driver : string;
  DnsmasqUnit : string;
  DnsmasqActive : bool
}.

(** [VolumeMetadata] (volume.go) *)
Record VolumeMetadata := {
  Vol_Name : string;
  Vol_Size : string;
  DiskPath : string;
  Created : string
}.

(** [DiskMetadata] and [PortMetadata] (image.go) *)
Record DiskMetadata := { Meta_Size : string }.
Record PortMetadata := { Meta_SSH : Z }.

(** What a file of the workspace holds. The JSON files are kept decoded;
    [Garbage] is a file that [json.Unmarshal] rejects. A disk image
    remembers its backing file ([""] for none), the virtual size given to
    it ([""] when it still has the size of its backing file) and whether
    it has been formatted. *)
Inductive content :=
| Qcow2 (backing size : string) (formatted : bool)
| Text (data : string)
| DiskJSON (m : DiskMetadata)
| PortsJSON (m : PortMetadata)
| NetworksJSON (m : gmap string NetworkMetadata)
| VolumesJSON (m : gmap string VolumeMetadata)
| Garbage.

Inductive event :=
| Printed (line : string)          (* a line of [fmt.Printf] or
                                      [fmt.Fprintf(os.Stderr)], without
                                      its line terminators *)
| Ran (argv : list string).        (* [exec.Command(...)] run to completion *)

(** The world.  The workspace maps a path below [<cwd>/.qemu-compose],
    given as its list of components, to what the file there holds.
    Directories are implicit: one exists when a file lies below it, so the
    [os.MkdirAll] calls of the sources leave no mark, and none of the
    functions below can tell an empty directory from an absent one.  A VM,
    volume or network name is taken to be a single path component, as the
    documentation asks (alphanumeric characters and dashes); the
    statements that depend on it say so with [plainName]. *)
Record World := {
  cwd : string;                               (* [os.Getwd()], which succeeds *)
  pid : Z;                                    (* [os.Getpid()] *)
  files : gmap (list string) content;         (* the workspace *)
  host_exists : string -> bool;               (* [os.Stat] outside of it *)
  port_free : Z -> bool;                      (* [net.Listen] on 127.0.0.1 *)
  run : list string -> option string;         (* a command: its output when
                                                 it exits with status 0; the
                                                 host answers alike during
                                                 one operation *)
  remove_all : list string -> option (list string -> bool);
                                              (* [os.RemoveAll] on a path of
                                                 the workspace: [None] when
                                                 it succeeds, else the files
                                                 below the path that it
                                                 leaves behind *)
  links : gset string;                        (* interfaces seen by netlink *)
  link_del : string -> bool;                  (* [netlink.LinkDel] on an
                                                 interface succeeds *)
  trace : list event
}.

Definition set_files (f : gmap (list string) content) (w : World) : World :=
  {| cwd := cwd w; pid := pid w; files := f; host_exists := host_exists w;
     port_free := port_free w; run := run w; remove_all := remove_all w;
     links := links w; link_del := link_del w; trace := trace w |}.

Definition set_links (l : gset string) (w : World) : World :=
  {| cwd := cwd w; pid := pid w; files := files w;
     host_exists := host_exists w; port_free := port_free w; run := run w;
     remove_all := remove_all w; links := l; link_del := link_del w;
     trace := trace w |}.

Definition emit (e : event) (w : World) : World :=
  {| cwd := cwd w; pid := pid w; files := files w;
     host_exists := host_exists w; port_free := port_free w; run := run w;
     remove_all := remove_all w; links := links w; link_del := link_del w;
     trace := trace w ++ [e] |}.

Definition print (line : string) (w : World) : World := emit (Printed line) w.

(** [exec.Command(argv...).CombinedOutput()] and its variants. *)
Definition exec (argv : list string) (w : World) : option string * World :=
  (run w argv, emit (Ran argv) w).

(** [os.WriteFile] *)
Definition writeFile (p : list string) (c : content) (w : World) : World :=
  set_files (<[p := c]> (files w)) w.

(** [os.Stat(p)] succeeds: a file at [p] or something below [p]. *)
Definition stat (p : list string) (w : World) : bool :=
  bool_decide (Exists (fun q => p `prefix_of` q) (elements (dom (files w)))).

(** [os.RemoveAll(p)], with whether it returned without an error.  When
    it succeeds nothing is left at [p] or below; when it fails, the files
    below [p] that the host names are left, and the others are gone. *)
Definition removeAll (p : list string) (w : World) : bool * World :=
  match remove_all w p with
  | None =>
      (true, set_files (filter (fun kv => ¬ p `prefix_of` kv.1) (files w)) w)
  | Some kept =>
      (false,
       set_files (filter (fun kv => ¬ p `prefix_of` kv.1 ∨ kept kv.1 = true)
                    (files w)) w)
  end.

(** The absolute name of a workspace path, as the sources build it with
    [filepath.Join(cwd, ".qemu-compose", ...)], in one call or in several:
    for the absolute [cwd] that [os.Getwd] returns, cleaning a path and
    joining more elements to it gives what joining all of them gives. *)
Definition abs (w : World) (p : list string) : string :=
  filepath.JoinAll (cwd w :: ".qemu-compose" :: p).

(** A name that is one path component: not empty, not [.] or [..], and
    without a slash.  Joined to a directory, such a name is the entry of
    that name in it; any other name is cleaned by [filepath.Join] into
    another path.  The workspace paths of this development are those of
    names of this kind. *)
Definition plainName (name : string) : bool :=
  negb (String.eqb name "") && negb (String.eqb name ".")
  && negb (String.eqb name "..") && negb (Go.Contains name "/").

(** [filepath.Base] *)
Definition Base (p : string) : string :=
  match rev (List.filter (fun c => negb (String.eqb c "")) (Go.Split p "/")) with
  | last :: _ => last
  | [] => if String.eqb p "" then "." else "/"
  end.

(** [getProjectName] (vm.go) *)
Definition getProjectName (w : World) : string := Base (cwd w).

(* --------------------------------------------------------------------- *)
(** ** image.go: instance disks, disk and port metadata                   *)
(* --------------------------------------------------------------------- *)

(** [getInstanceDir], for a name that is one path component
    ([plainName]): the directory is then the entry of that name in the
    workspace (lemma [abs_plainName]). *)
Definition getInstanceDir (vmName : string) : list string := [vmName].

Definition getDiskMetadataPath (vmName : string) : list string :=
  getInstanceDir vmName ++ ["disk.metadata.json"].

(** [loadDiskMetadata]: [Ok None] is the pair [(nil, nil)]. *)
Definition loadDiskMetadata (vmName : string) (w : World)
    : result (option DiskMetadata) :=
  match files w !! getDiskMetadataPath vmName with
  | None => Ok None
  | Some (DiskJSON m) => Ok (Some m)
  | Some _ => Err "failed to parse metadata file"
  end.

(** [saveDiskMetadata] *)
Definition saveDiskMetadata (vmName : string) (m : DiskMetadata) (w : World)
    : World :=
  writeFile (getDiskMetadataPath vmName) (DiskJSON m) w.

(** What [qemu-img resize] does to an image. *)
Definition resized (size : string) (c : content) : content :=
  match c with
  | Qcow2 backing _ formatted => Qcow2 backing size formatted
  | other => other
  end.

(** [resizeInstanceDisk] *)
Definition resizeInstanceDisk (disk : list string) (size : string) (w : World)
    : result unit * World :=
  match exec ["qemu-img"; "resize"; abs w disk; size] w with
  | (None, w1) => (Err "failed to resize instance disk", w1)
  | (Some _, w1) => (Ok tt, set_files (alter (resized size) disk (files w1)) w1)
  end.

(** The size [createInstanceDisk] works with after its defaulting step. *)
Definition declaredSize (diskConfig : option Disk) : string :=
  match diskConfig with
  | None => "10G"
  | Some d => if String.eqb (Disk_Size d) "" then "10G" else Disk_Size d
  end.

(** [createInstanceDisk].  After the defaulting step the size is never
    empty, so the guard of the sizing block always holds. *)
Definition createInstanceDisk (vmName baseImagePath : string)
    (diskConfig : option Disk) (w : World) : result string * World :=
  let instanceDiskPath := getInstanceDir vmName ++ ["disk.qcow2"] in
  let size := declaredSize diskConfig in
  if stat instanceDiskPath w then
    (* the disk already exists: compare with the metadata, never resize *)
    let w' :=
      match loadDiskMetadata vmName w with
      | Err _ =>
          print "  ⚠ Warning: could not verify disk size (metadata error)" w
      | Ok None => saveDiskMetadata vmName {| Meta_Size := size |} w
      | Ok (Some metadata) =>
          if negb (String.eqb (Meta_Size metadata) size) then
            let w1 :=
              print ("  ⚠ Warning: disk.size is set to " +:+ size
                       +:+ " but instance disk was created with size "
                       +:+ Meta_Size metadata) w in
            let w2 :=
              print "  ⚠ Disk size changes after first creation are not applied automatically"
                w1 in
            print ("  ⚠ To resize, stop the VM, delete .qemu-compose/"
                     +:+ vmName +:+ "/, and run 'up' again") w2
          else w
      end in
    (Ok (abs w instanceDiskPath), w')
  else
    match exec ["qemu-img"; "create"; "-f"; "qcow2"; "-F"; "qcow2";
                "-b"; baseImagePath; abs w instanceDiskPath] w with
    | (None, w1) => (Err "failed to create instance disk", w1)
    | (Some _, w1) =>
        let w2 := writeFile instanceDiskPath (Qcow2 baseImagePath "" false) w1 in
        match resizeInstanceDisk instanceDiskPath size w2 with
        | (Err e, w3) => (Err ("failed to resize instance disk: " +:+ e), w3)
        | (Ok _, w3) =>
            let w4 := print ("  ✓ Disk resized to " +:+ size) w3 in
            (Ok (abs w instanceDiskPath),
             saveDiskMetadata vmName {| Meta_Size := size |} w4)
        end
    end.

(** [removeInstanceDisk], which joins the path of the directory itself;
    as in [getInstanceDir], for a name that is one path component. *)
Definition removeInstanceDisk (vmName : string) (w : World)
    : result unit * World :=
  let instanceDir := [vmName] in
  if negb (stat instanceDir w) then (Ok tt, w)
  else
    match removeAll instanceDir w with
    | (false, w1) => (Err "failed to remove instance directory", w1)
    | (true, w1) => (Ok tt, w1)
    end.

Definition getPortMetadataPath (vmName : string) : list string :=
  getInstanceDir vmName ++ ["ports.json"].

(** [loadPortMetadata] *)
Definition loadPortMetadata (vmName : string) (w : World)
    : result (option PortMetadata) :=
  match files w !! getPortMetadataPath vmName with
  | None => Ok None
  | Some (PortsJSON m) => Ok (Some m)
  | Some _ => Err "failed to parse port metadata"
  end.

(** [savePortMetadata] *)
Definition savePortMetadata (vmName : string) (m : PortMetadata) (w : World)
    : World :=
  writeFile (getPortMetadataPath vmName) (PortsJSON m) w.

(* --------------------------------------------------------------------- *)
(** ** network.go: subnets, interface names, teardown                     *)
(* --------------------------------------------------------------------- *)

Definition getNetworkMetadataPath : list string := ["networks.json"].

(** [loadNetworkMetadata]: a missing file is the empty map. *)
Definition loadNetworkMetadata (w : World)
    : result (gmap string NetworkMetadata) :=
  match files w !! getNetworkMetadataPath with
  | None => Ok ∅
  | Some (NetworksJSON m) => Ok m
  | Some _ => Err "failed to parse network metadata"
  end.

(** [saveNetworkMetadata]: one [os.WriteFile] of the whole map. *)
Definition saveNetworkMetadata (m : gmap string NetworkMetadata) (w : World)
    : World :=
  writeFile getNetworkMetadataPath (NetworksJSON m) w.

(** The [i]-th /24 of the pool 172.16.0.0/12. *)
Definition subnet (i : Z) : string :=
  "172." +:+ Go.itoa (16 + i / 256) +:+ "." +:+ Go.itoa (i mod 256) +:+ ".0/24".

(** The set built by the first loop of [allocateSubnet]. *)
Definition allocatedSubnets (m : gmap string NetworkMetadata) : gset string :=
  map_to_set (fun _ net => Meta_Subnet net) m.

(** The second loop of [allocateSubnet], [n] indices starting from [i]. *)
Fixpoint firstFree (allocated : gset string) (n : nat) (i : Z) : option string :=
  match n with
  | O => None
  | S n' =>
      if bool_decide (subnet i ∈ allocated) then firstFree allocated n' (i + 1)
      else Some (subnet i)
  end.

(** [allocateSubnet]: it reads [networks.json]; the world it returns is
    the one it was given. *)
Definition allocateSubnet (w : World) : result string * World :=
  match loadNetworkMetadata w with
  | Err e => (Err e, w)
  | Ok metadata =>
      match firstFree (allocatedSubnets metadata) 4096 0 with
      | Some s => (Ok s, w)
      | None => (Err "no available subnets in pool (172.16.0.0/12)", w)
      end
  end.

(** [resolveNetworkSubnet] *)
Definition resolveNetworkSubnet (networkName : string) (network : Network)
    (w : World) : result string * World :=
  if negb (String.eqb (Subnet network) "auto")
     && negb (String.eqb (Subnet network) "")
  then (Ok (Subnet network), w)
  else
    match loadNetworkMetadata w with
    | Err e => (Err e, w)
    | Ok metadata =>
        match metadata !! networkName with
        | Some existing => (Ok (Meta_Subnet existing), w)
        | None =>
            match allocateSubnet w with
            | (Err e, w1) => (Err e, w1)
            | (Ok s, w1) =>
                (Ok s,
                 saveNetworkMetadata
                   (<[networkName :=
                        {| Meta_Subnet := s; Meta_Driver := Driver network;
                           DnsmasqUnit := ""; DnsmasqActive := false |}]>
                      metadata) w1)
            end
        end
    end.

(** [getDnsmasqUnitName] *)
Definition getDnsmasqUnitName (networkName : string) (w : World) : string :=
  "qemu-compose-dnsmasq-" +:+ Go.ReplaceAll (getProjectName w) " " "-"
    +:+ "-" +:+ Go.ReplaceAll networkName " " "-".

(** [getBridgeName] *)
Definition getBridgeName (networkName : string) (w : World) : string :=
  let sanitizedProject := Go.ReplaceAll (getProjectName w) " " "-" in
  let sanitizedNetwork := Go.ReplaceAll networkName " " "-" in
  let bridgeName := "qc-" +:+ sanitizedProject +:+ "-" +:+ sanitizedNetwork in
  if Go.len bridgeName >? 15 then Go.slice_to 15 bridgeName else bridgeName.

(** The identifier hashed by [getTAPName] and [generateMACAddress]. *)
Definition identifier (w : World) (vmName : string) (networkIndex : Z) : string :=
  getProjectName w +:+ "-" +:+ vmName +:+ "-" +:+ Go.itoa networkIndex.

(** [getTAPName] *)
Definition getTAPName (vmName : string) (networkIndex : Z) (w : World) : string :=
  let hash :=
    Go.slice_to 4 (Go.hex (MD5.Sum (Go.bytes (identifier w vmName networkIndex)))) in
  let sanitizedVM := Go.ReplaceAll vmName " " "-" in
  let maxVMLen := 6 in
  let sanitizedVM :=
    if Go.len sanitizedVM >? maxVMLen then Go.slice_to 6 sanitizedVM
    else sanitizedVM in
  "tap-" +:+ hash +:+ "-" +:+ sanitizedVM.

(** [stopDnsmasq] *)
Definition stopDnsmasq (networkName : string) (w : World) : result unit * World :=
  let unitName := getDnsmasqUnitName networkName w in
  let '(_, w1) := exec ["sudo"; "systemctl"; "stop"; unitName] w in
  match loadNetworkMetadata w1 with
  | Err e => (Err e, w1)
  | Ok metadata =>
      match metadata !! networkName with
      | Some netMeta =>
          (Ok tt,
           saveNetworkMetadata
             (<[networkName :=
                  {| Meta_Subnet := Meta_Subnet netMeta;
                     Meta_Driver := Meta_Driver netMeta;
                     DnsmasqUnit := DnsmasqUnit netMeta;
                     DnsmasqActive := false |}]> metadata) w1)
      | None => (Ok tt, w1)
      end
  end.

(** [cleanupNAT]: three deletions, none of them fatal. *)
Definition cleanupNAT (networkName subnetCIDR : string) (w : World) : World :=
  let bridgeName := getBridgeName networkName w in
  let '(_, w1) :=
    exec ["sudo"; "iptables"; "-t"; "nat"; "-D"; "POSTROUTING"; "-s";
          subnetCIDR; "-j"; "MASQUERADE"] w in
  let '(_, w2) :=
    exec ["sudo"; "iptables"; "-D"; "FORWARD"; "-i"; bridgeName; "-j"; "ACCEPT"] w1 in
  let '(_, w3) :=
    exec ["sudo"; "iptables"; "-D"; "FORWARD"; "-o"; bridgeName; "-j"; "ACCEPT"] w2 in
  w3.

(** [netlink.LinkByName], then [LinkSetDown] and [LinkDel]: [None] when
    no interface of that name is found; else whether the deletion
    succeeded, the interface being gone when it did and still there when
    it did not.  A failing [LinkSetDown] is logged and changes nothing. *)
Definition linkDel (name : string) (w : World) : option bool * World :=
  if bool_decide (name ∈ links w) then
    if link_del w name then (Some true, set_links (links w ∖ {[name]}) w)
    else (Some false, w)
  else (None, w).

(** [deleteBridge] *)
Definition deleteBridge (networkName : string) (w : World) : result unit * World :=
  let bridgeName := getBridgeName networkName w in
  let '(_, w1) := stopDnsmasq networkName w in
  let w2 :=
    match loadNetworkMetadata w1 with
    | Ok metadata =>
        match metadata !! networkName with
        | Some netMeta => cleanupNAT networkName (Meta_Subnet netMeta) w1
        | None => w1
        end
    | Err _ => w1
    end in
  match linkDel bridgeName w2 with
  | (Some false, w3) => (Err ("failed to delete bridge " +:+ bridgeName), w3)
  | (_, w3) => (Ok tt, w3)
  end.

(** [deleteTAPDevice] *)
Definition deleteTAPDevice (tapName : string) (w : World) : result unit * World :=
  match linkDel tapName w with
  | (Some false, w1) => (Err ("failed to delete TAP device " +:+ tapName), w1)
  | (_, w1) => (Ok tt, w1)
  end.

(** [cleanupVMNetworks]: the loop over the indices of [vm.Networks]. *)
Fixpoint cleanupTAPs (vmName : string) (nets : list string) (i : Z) (w : World)
    : World :=
  match nets with
  | [] => w
  | _ :: rest =>
      let '(_, w1) := deleteTAPDevice (getTAPName vmName i w) w in
      cleanupTAPs vmName rest (i + 1) w1
  end.

Definition cleanupVMNetworks (vmName : string) (vm : VM) (w : World)
    : result unit * World :=
  (Ok tt, cleanupTAPs vmName (Networks vm) 0 w).

(* --------------------------------------------------------------------- *)
(** ** volume.go: named volumes and bind mounts                           *)
(* --------------------------------------------------------------------- *)

Definition getVolumeMetadataPath : list string := ["volumes.json"].

(** [loadVolumeMetadata] *)
Definition loadVolumeMetadata (w : World) : result (gmap string VolumeMetadata) :=
  match files w !! getVolumeMetadataPath with
  | None => Ok ∅
  | Some (VolumesJSON m) => Ok m
  | Some _ => Err "failed to parse volume metadata"
  end.

(** [saveVolumeMetadata] *)
Definition saveVolumeMetadata (m : gmap string VolumeMetadata) (w : World)
    : World :=
  writeFile getVolumeMetadataPath (VolumesJSON m) w.

(** [isBindMount] *)
Definition isBindMount (source : string) : bool :=
  Go.Contains source "/" || Go.Contains source "\" || Go.HasPrefix source ".".

(** [resolveBindMountPath] *)
Definition resolveBindMountPath (hostPath composeFilePath : string) (w : World)
    : result string :=
  if filepath.IsAbs hostPath then
    if host_exists w hostPath then Ok hostPath
    else Err ("bind mount path does not exist: " +:+ hostPath)
  else
    let composeDir := filepath.Dir composeFilePath in
    let absPath := filepath.Join composeDir hostPath in
    if host_exists w absPath then Ok absPath
    else Err ("bind mount path does not exist: " +:+ hostPath
                +:+ " (resolved to: " +:+ absPath +:+ ")").

Definition formatted (c : content) : content :=
  match c with
  | Qcow2 backing size _ => Qcow2 backing size true
  | other => other
  end.

(** [formatVolumeDisk]: the deferred disconnect runs once the connect
    has succeeded, whatever [mkfs.ext4] returns. *)
Definition formatVolumeDisk (disk : list string) (w : World)
    : result unit * World :=
  let nbdDevice := "/dev/nbd0" in
  let '(_, w1) := exec ["sudo"; "modprobe"; "nbd"; "max_part=8"] w in
  match exec ["sudo"; "qemu-nbd"; "--connect"; nbdDevice; abs w disk] w1 with
  | (None, w2) => (Err "failed to connect qcow2 to nbd", w2)
  | (Some _, w2) =>
      let '(made, w3) := exec ["sudo"; "mkfs.ext4"; "-F"; nbdDevice] w2 in
      let '(_, w4) := exec ["sudo"; "qemu-nbd"; "--disconnect"; nbdDevice] w3 in
      match made with
      | None => (Err "failed to format volume with ext4", w4)
      | Some _ => (Ok tt, set_files (alter formatted disk (files w4)) w4)
      end
  end.

(** [createNamedVolume] *)
Definition createNamedVolume (volumeName size : string) (w : World)
    : result unit * World :=
  match loadVolumeMetadata w with
  | Err e => (Err e, w)
  | Ok metadata =>
      match metadata !! volumeName with
      | Some _ => (Ok tt, w)
      | None =>
          let diskPath := ["volumes"; volumeName; "volume.qcow2"] in
          match exec ["qemu-img"; "create"; "-f"; "qcow2"; abs w diskPath; size] w with
          | (None, w1) => (Err "failed to create volume disk", w1)
          | (Some _, w1) =>
              let w2 := writeFile diskPath (Qcow2 "" size false) w1 in
              match formatVolumeDisk diskPath w2 with
              | (Err e, w3) => (Err ("failed to format volume: " +:+ e), w3)
              | (Ok _, w3) =>
                  (Ok tt,
                   saveVolumeMetadata
                     (<[volumeName :=
                          {| Vol_Name := volumeName; Vol_Size := size;
                             DiskPath := abs w diskPath;
                             Created := Go.itoa (pid w) |}]> metadata) w3)
              end
          end
      end
  end.

(** [ensureVolumeExists] *)
Definition ensureVolumeExists (volumeName : string) (config : ComposeConfig)
    (w : World) : result unit * World :=
  match loadVolumeMetadata w with
  | Err e => (Err e, w)
  | Ok metadata =>
      match metadata !! volumeName with
      | Some _ => (Ok tt, w)
      | None =>
          match Cfg_Volumes config !! volumeName with
          | None =>
              (Err ("volume not defined in compose file: " +:+ volumeName), w)
          | Some volumeConfig =>
              let size :=
                if negb (String.eqb (Volume_Size volumeConfig) "")
                then Volume_Size volumeConfig else "10G" in
              createNamedVolume volumeName size w
          end
      end
  end.

(** [getVolumeDiskPath] *)
Definition getVolumeDiskPath (volumeName : string) (w : World) : result string :=
  match loadVolumeMetadata w with
  | Err e => Err e
  | Ok metadata =>
      match metadata !! volumeName with
      | None => Err ("volume not found: " +:+ volumeName)
      | Some volumeMeta => Ok (DiskPath volumeMeta)
      end
  end.

(* --------------------------------------------------------------------- *)
(** ** vm.go: ports, MAC addresses, volumes, QEMU command, status         *)
(* --------------------------------------------------------------------- *)

(** [getVMUnitName] *)
Definition getVMUnitName (vmName : string) (w : World) : string :=
  "qemu-compose-" +:+ Go.ReplaceAll (getProjectName w) " " "-"
    +:+ "-" +:+ Go.ReplaceAll vmName " " "-".


(** [isPortAvailable] *)
Definition isPortAvailable (port : Z) (w : World) : bool := port_free w port.

(** [os.ReadDir] of the workspace, restricted to the entries for which
    [IsDir] holds.  Go lists them by name; the order plays no role below
    beyond which name is kept for a port recorded twice. *)
Definition subdirs (w : World) : list string :=
  remove_dups
    (omap (fun p => match p with
                    | name :: _ :: _ => Some name
                    | _ => None
                    end) (elements (dom (files w)))).

(** One turn of the loop of [getAllocatedPorts]. *)
Definition recordPort (w : World) (allocatedPorts : gmap Z string)
    (vmName : string) : gmap Z string :=
  if String.eqb vmName "ssh" then allocatedPorts
  else match loadPortMetadata vmName w with
       | Ok (Some portMetadata) =>
           if Meta_SSH portMetadata >? 0
           then <[Meta_SSH portMetadata := vmName]> allocatedPorts
           else allocatedPorts
       | _ => allocatedPorts
       end.

(** [getAllocatedPorts] *)
Definition getAllocatedPorts (w : World) : gmap Z string :=
  foldl (recordPort w) ∅ (subdirs w).

(** The allocation loop of [allocateSSHPort]: [n] ports from [port] on. *)
Fixpoint firstFreePort (allocatedPorts : gmap Z string) (w : World)
    (n : nat) (port : Z) : option Z :=
  match n with
  | O => None
  | S n' =>
      match allocatedPorts !! port with
      | Some _ => firstFreePort allocatedPorts w n' (port + 1)
      | None =>
          if isPortAvailable port w then Some port
          else firstFreePort allocatedPorts w n' (port + 1)
      end
  end.

Definition startPort : Z := 2222.
Definition maxPort : Z := 2322.

(** The allocation of a new port at the end of [allocateSSHPort]. *)
Definition allocateFreshPort (vmName : string) (w : World) : result Z * World :=
  match firstFreePort (getAllocatedPorts w) w
          (Z.to_nat (maxPort - startPort + 1)) startPort with
  | Some port => (Ok port, savePortMetadata vmName {| Meta_SSH := port |} w)
  | None =>
      (Err ("no available ports in range " +:+ Go.itoa startPort +:+ "-"
              +:+ Go.itoa maxPort), w)
  end.

(** The part of [allocateSSHPort] that follows the test for a pinned port. *)
Definition allocateRecordedOrFresh (vmName : string) (w : World)
    : result Z * World :=
  match loadPortMetadata vmName w with
  | Ok (Some portMetadata) =>
      if (Meta_SSH portMetadata >? 0)
         && isPortAvailable (Meta_SSH portMetadata) w
      then (Ok (Meta_SSH portMetadata), w)
      else allocateFreshPort vmName w
  | _ => allocateFreshPort vmName w
  end.

(** [allocateSSHPort] *)
Definition allocateSSHPort (vmName : string) (vm : VM) (w : World)
    : result Z * World :=
  match VM_SSH vm with
  | Some ssh =>
      if Port ssh >? 0 then
        if negb (isPortAvailable (Port ssh) w) then
          (Err ("specified SSH port " +:+ Go.itoa (Port ssh)
                  +:+ " is already in use"), w)
        else (Ok (Port ssh), w)
      else allocateRecordedOrFresh vmName w
  | None => allocateRecordedOrFresh vmName w
  end.

(** [getSSHPort] *)
Definition getSSHPort (vmName : string) (w : World) : result Z :=
  match loadPortMetadata vmName w with
  | Err e => Err e
  | Ok None => Err "no SSH port allocated"
  | Ok (Some portMetadata) =>
      if Meta_SSH portMetadata =? 0 then Err "no SSH port allocated"
      else Ok (Meta_SSH portMetadata)
  end.

(** [generateMACAddress] *)
Definition generateMACAddress (vmName : string) (networkIndex : Z) (w : World)
    : string :=
  let hash := MD5.Sum (Go.bytes (identifier w vmName networkIndex)) in
  "52:54:00:" +:+ Go.hex2 (nth 0 hash 0) +:+ ":" +:+ Go.hex2 (nth 1 hash 0)
    +:+ ":" +:+ Go.hex2 (nth 2 hash 0).

Record VMVolumeMount := {
  VolumeName : string;
  MountPath : string;
  Mount_ReadOnly : bool;
  Mount_Automount : bool;
  Mount_Options : string;
  IsBindMount : bool;
  HostPath : string;
  Mount_DiskPath : string
}.

(** One turn of the loop of [parseVMVolumes]. *)
Definition parseVMVolume (vmName : string) (volumeMount : VolumeMount)
    (config : ComposeConfig) (composeFilePath : string) (w : World)
    : result VMVolumeMount * World :=
  if negb (Go.HasPrefix (Target volumeMount) "/") then
    (Err ("invalid mount path for VM " +:+ vmName +:+ ": "
            +:+ Target volumeMount +:+ " (must be absolute path)"), w)
  else
    let automount := default true (Automount volumeMount) in
    if isBindMount (Source volumeMount) then
      match resolveBindMountPath (Source volumeMount) composeFilePath w with
      | Err e => (Err ("failed to resolve bind mount path: " +:+ e), w)
      | Ok hostPath =>
          (Ok {| VolumeName := Source volumeMount;
                 MountPath := Target volumeMount;
                 Mount_ReadOnly := ReadOnly volumeMount;
                 Mount_Automount := automount;
                 Mount_Options := MountOptions volumeMount;
                 IsBindMount := true;
                 HostPath := hostPath;
                 Mount_DiskPath := "" |}, w)
      end
    else
      match ensureVolumeExists (Source volumeMount) config w with
      | (Err e, w1) => (Err ("failed to ensure volume exists: " +:+ e), w1)
      | (Ok _, w1) =>
          match getVolumeDiskPath (Source volumeMount) w1 with
          | Err e => (Err ("failed to get volume disk path: " +:+ e), w1)
          | Ok diskPath =>
              (Ok {| VolumeName := Source volumeMount;
                     MountPath := Target volumeMount;
                     Mount_ReadOnly := ReadOnly volumeMount;
                     Mount_Automount := true;
                     Mount_Options := "";
                     IsBindMount := false;
                     HostPath := "";
                     Mount_DiskPath := diskPath |}, w1)
          end
      end.

Fixpoint parseVolumeList (vmName : string) (volumes : list VolumeMount)
    (config : ComposeConfig) (composeFilePath : string) (w : World)
    : result (list VMVolumeMount) * World :=
  match volumes with
  | [] => (Ok [], w)
  | volumeMount :: rest =>
      match parseVMVolume vmName volumeMount config composeFilePath w with
      | (Err e, w1) => (Err e, w1)
      | (Ok mount, w1) =>
          match parseVolumeList vmName rest config composeFilePath w1 with
          | (Err e, w2) => (Err e, w2)
          | (Ok mounts, w2) => (Ok (mount :: mounts), w2)
          end
      end
  end.

(** [parseVMVolumes] *)
Definition parseVMVolumes (vmName : string) (vm : VM) (config : ComposeConfig)
    (composeFilePath : string) (w : World)
    : result (list VMVolumeMount) * World :=
  parseVolumeList vmName (Volumes vm) config composeFilePath w.

(** The volume loop of [buildQEMUCommand]. *)
Fixpoint volumeArgs (volumeMounts : list VMVolumeMount) (virtfsIndex : Z)
    : list string :=
  match volumeMounts with
  | [] => []
  | mount :: rest =>
      if IsBindMount mount then
        let mountTag := "mount" +:+ Go.itoa virtfsIndex in
        ["-virtfs";
         "local,path=" +:+ HostPath mount +:+ ",mount_tag=" +:+ mountTag
           +:+ ",security_model=passthrough,id=" +:+ mountTag]
          ++ volumeArgs rest (virtfsIndex + 1)
      else
        ["-drive";
         "file=" +:+ Mount_DiskPath mount +:+ ",format=qcow2,if=virtio"]
          ++ volumeArgs rest virtfsIndex
  end.

(** The [-device] argument of a NIC. *)
Definition nicDevice (netIndex : Z) (macAddr : string) : string :=
  "virtio-net-pci,netdev=net" +:+ Go.itoa netIndex +:+ ",mac=" +:+ macAddr.


Definition userNicArgs (vmName : string) (netIndex sshPort : Z) (w : World)
    : list string :=
  ["-netdev";
   "user,id=net" +:+ Go.itoa netIndex +:+ ",hostfwd=tcp:127.0.0.1:"
     +:+ Go.itoa sshPort +:+ "-:22";
   "-device"; nicDevice netIndex (generateMACAddress vmName netIndex w)].





(** The MAC loop of [startVM], from index [i] on. *)
Fixpoint bridgeMACs (vmName : string) (nets : list string) (i : Z) (w : World)
    : list string :=
  match nets with
  | [] => []
  | _ :: rest => generateMACAddress vmName i w :: bridgeMACs vmName rest (i + 1) w
  end.

(** The list [macAddresses] that [startVM] hands to the seed generator. *)
Definition macAddresses (vmName : string) (vm : VM) (sshPort : Z) (w : World)
    : list string :=
  bridgeMACs vmName (Networks vm) 0 w
    ++ (if sshPort >? 0
        then [generateMACAddress vmName (Z.of_nat (length (Networks vm))) w]
        else []).

(** [isVMRunning]: a failing [systemctl is-active] means not running. *)
Definition isVMRunning (vmName : string) (w : World) : bool * World :=
  match exec ["systemctl"; "--user"; "is-active"; getVMUnitName vmName w] w with
  | (None, w1) => (false, w1)
  | (Some output, w1) => (String.eqb (Go.TrimSpace output) "active", w1)
  end.

(** [stopVM] *)
Definition stopVM (vmName : string) (vm : VM) (w : World) : result unit * World :=
  match exec ["systemctl"; "--user"; "stop"; getVMUnitName vmName w] w with
  | (None, w1) => (Err "failed to stop VM", w1)
  | (Some _, w1) =>
      if Z.of_nat (length (Networks vm)) >? 0
      then (Ok tt, (cleanupVMNetworks vmName vm w1).2)
      else (Ok tt, w1)
  end.

(** [vmInstanceExists] *)
Definition vmInstanceExists (vmName : string) (w : World) : bool :=
  stat (getInstanceDir vmName ++ ["disk.qcow2"]) w.

(** [strings.ToLower] on a string of ASCII octets, which is what an
    image URL is: the letters A to Z are lowered.  Octets from 0x80 on,
    which Go maps code point by code point, are kept as they are. *)
Definition lowerAscii (c : ascii) : ascii :=
  let n := Ascii.N_of_ascii c in
  if ((65 <=? n) && (n <=? 90))%N then Ascii.ascii_of_N (n + 32) else c.

Fixpoint ToLower (s : string) : string :=
  match s with
  | EmptyString => EmptyString
  | String c s' => String (lowerAscii c) (ToLower s')
  end.

(** [detectOSFromImage] (cloudinit.go) *)
Definition detectOSFromImage (imageURL : string) : string :=
  let lowerURL := ToLower imageURL in
  if Go.Contains lowerURL "fedora" then "fedora"
  else if Go.Contains lowerURL "ubuntu" then "ubuntu"
  else if Go.Contains lowerURL "debian" then "debian"
  else if Go.Contains lowerURL "centos" then "centos"
  else if Go.Contains lowerURL "rhel" then "rhel"
  else "ubuntu".

(** [getDefaultUserForOS] (cloudinit.go) *)
Definition getDefaultUserForOS (osType : string) : string :=
  if String.eqb osType "fedora" then "fedora"
  else if String.eqb osType "ubuntu" then "ubuntu"
  else if String.eqb osType "debian" then "debian"
  else if String.eqb osType "centos" then "centos"
  else if String.eqb osType "rhel" then "cloud-user"
  else "ubuntu".

(** [isVMReady]: the SSH probe. *)
Definition isVMReady (vmName imageURL : string) (w : World) : bool * World :=
  match getSSHPort vmName w with
  | Err _ => (false, w)
  | Ok sshPort =>
      let sshKey := ["ssh"; "id_ed25519"] in
      match files w !! sshKey with
      | None => (false, w)
      | Some _ =>
          let defaultUser := getDefaultUserForOS (detectOSFromImage imageURL) in
          match exec ["ssh"; "-i"; abs w sshKey; "-p"; Go.itoa sshPort;
                      "-o"; "ConnectTimeout=2"; "-o"; "BatchMode=yes";
                      "-o"; "StrictHostKeyChecking=no";
                      "-o"; "UserKnownHostsFile=/dev/null";
                      defaultUser +:+ "@localhost"; "exit"] w with
          | (None, w1) => (false, w1)
          | (Some _, w1) => (true, w1)
          end
      end
  end.

(** The supervisor query of [getVMStatus]. *)
Definition showActiveState (vmName : string) (w : World) : option string * World :=
  exec ["systemctl"; "--user"; "show"; getVMUnitName vmName w;
        "--property=ActiveState"; "--value"] w.

(** [getVMStatus]; its error result is always [nil]. *)
Definition getVMStatus (vmName imageURL : string) (w : World) : string * World :=
  if negb (vmInstanceExists vmName w) then ("not-created", w)
  else
    match showActiveState vmName w with
    | (None, w1) => ("unknown", w1)
    | (Some output, w1) =>
        let status := Go.TrimSpace output in
        if String.eqb status "inactive" then ("stopped", w1)
        else if String.eqb status "active" then
          match isVMReady vmName imageURL w1 with
          | (true, w2) => ("ready", w2)
          | (false, w2) => ("starting", w2)
          end
        else (status, w1)
    end.

(* --------------------------------------------------------------------- *)
(** ** The command file: [destroy]                                        *)
(* --------------------------------------------------------------------- *)

(** The body of the loop over the selected VMs in [destroyCmd]; the
    boolean is [hasError]. *)
Definition destroyVM (acc : bool * World) (entry : string * VM) : bool * World :=
  let '(hasError, w) := acc in
  let '(vmName, vm) := entry in
  let w := print ("VM: " +:+ vmName) w in
  let '(running, w) := isVMRunning vmName w in
  let stopped :=
    if running then
      match stopVM vmName vm w with
      | (Err e, w1) => (false, print ("  ✗ Error stopping VM: " +:+ e) w1)
      | (Ok _, w1) => (true, print "  ✓ Stopped" w1)
      end
    else (true, print "  ⚠ VM was not running" w) in
  match stopped with
  | (false, w1) => (true, w1)
  | (true, w1) =>
      let w2 :=
        if Z.of_nat (length (Networks vm)) >? 0
        then print "  ✓ Network infrastructure cleaned up"
               (cleanupVMNetworks vmName vm w1).2
        else w1 in
      match removeInstanceDisk vmName w2 with
      | (Err e, w3) =>
          (true, print ("  ✗ Error removing instance disk: " +:+ e) w3)
      | (Ok _, w3) => (hasError, print "  ✓ Instance disk removed" w3)
      end
  end.

(** The bridge loop of [destroyCmd]. *)
Definition destroyBridge (acc : bool * World) (networkName : string)
    : bool * World :=
  let '(hasError, w) := acc in
  match deleteBridge networkName w with
  | (Err e, w1) =>
      (true, print ("  ✗ Failed to delete bridge for network " +:+ networkName
                      +:+ ": " +:+ e) w1)
  | (Ok _, w1) =>
      (hasError,
       print ("  ✓ Deleted bridge: " +:+ getBridgeName networkName w1
                +:+ " (network: " +:+ networkName +:+ ")") w1)
  end.

(** The cleanup of [destroyCmd] that runs when no VM name was given. *)
Definition destroyNetworks (config : ComposeConfig) (acc : bool * World)
    : bool * World :=
  let '(hasError, w) := acc in
  let w := print "Cleaning up project network infrastructure..." w in
  let networksToCleanup := elements (dom (Cfg_Networks config)) in
  let '(hasError, w) := foldl destroyBridge (hasError, w) networksToCleanup in
  match loadNetworkMetadata w with
  | Err _ => (hasError, w)
  | Ok metadata =>
      let metadata := foldl (fun m name => delete name m) metadata networksToCleanup in
      (hasError, print "  ✓ Removed network metadata" (saveNetworkMetadata metadata w))
  end.

(** [destroyCmd.Run]: the exit status and the world it leaves.  Go ranges
    over its maps in no fixed order; the model takes the order of
    [map_to_list]. *)
Definition destroyCmd (composeFile : string) (f : ComposeFile)
    (args : list string) (w : World) : Z * World :=
  match loadComposeFile f with
  | Err e => (1, print ("Error: " +:+ e) w)
  | Ok config =>
      match filterVMs config args with
      | Err e => (1, print ("Error: " +:+ e) w)
      | Ok vms =>
          let w := print ("Using compose file: " +:+ composeFile) w in
          let w := print ("Project: " +:+ getProjectName w) w in
          let w :=
            print ("Stopping and removing "
                     +:+ Go.itoa (Z.of_nat (size vms)) +:+ " VM(s)"
                     +:+ (match args with
                          | [] => "..."
                          | _ => ": " +:+ Go.Join args ", "
                          end)) w in
          let acc := foldl destroyVM (false, w) (map_to_list vms) in
          let '(hasError, w) :=
            match args with
            | [] => destroyNetworks config acc
            | _ => acc
            end in
          if hasError then (1, w)
          else (0, print "✓ All VMs stopped and removed successfully" w)
      end
  end.

(* --------------------------------------------------------------------- *)
(** ** The statements of the specification that the code does not meet,  *)
(**    written after its words                                            *)
(* --------------------------------------------------------------------- *)

(** The bridge name as the specification words it: [qc-<project>-<network>]
    cut to 15 octets. *)
Definition spec_bridgeName (project network : string) : string :=
  Go.slice_to 15 ("qc-" +:+ project +:+ "-" +:+ network).

(** The TAP name as the specification words it: [tap-<h>-<v>], [h] the
    first four hexadecimal characters of the digest of the identifier,
    [v] the VM name cut to 6 octets. *)
Definition spec_tapName (project vmName : string) (index : Z) : string :=
  "tap-"
    +:+ Go.slice_to 4
          (Go.hex (MD5.Sum (Go.bytes (project +:+ "-" +:+ vmName +:+ "-"
                                        +:+ Go.itoa index))))
    +:+ "-" +:+ Go.slice_to 6 vmName.

(** The three lines printed when the declared size has drifted. *)
Definition driftWarning (vmName declared stored : string) : list event :=
  [ Printed ("  ⚠ Warning: disk.size is set to " +:+ declared
               +:+ " but instance disk was created with size " +:+ stored);
    Printed "  ⚠ Disk size changes after first creation are not applied automatically";
    Printed ("  ⚠ To resize, stop the VM, delete .qemu-compose/"
               +:+ vmName +:+ "/, and run 'up' again") ].

(** The values that follow a [-device] flag in a list of flag and value
    pairs. *)
Fixpoint deviceArgs (args : list string) : list string :=
  match args with
  | flag :: value :: rest =>
      if String.eqb flag "-device" then value :: deviceArgs rest
      else deviceArgs rest
  | _ => []
  end.


(* --------------------------------------------------------------------- *)
(** ** Sample inputs                                                      *)
(* --------------------------------------------------------------------- *)

Definition bare_world (dir : string) : World :=
  {| cwd := dir; pid := 4242; files := ∅;
     host_exists := fun _ => false;
     port_free := fun _ => true;
     run := fun _ => Some "";
     remove_all := fun _ => None;
     links := ∅; link_del := fun _ => true; trace := [] |}.

Definition w_demo : World := bare_world "/home/dev/demo".

(** A project directory with a space in its name. *)
Definition w_spaced : World := bare_world "/home/dev/my lab".

Definition plain_vm : VM :=
  {| Image := "https://example/cloud.img"; CPU := 2; Memory := 2048;
     Networks := []; Ports := []; DependsOn := []; Volumes := [];
     Environment := []; Provisions := []; VM_Disk := None;
     VM_Healthcheck := None; VM_SSH := None |}.

Definition net_meta (cidr : string) : NetworkMetadata :=
  {| Meta_Subnet := cidr; Meta_Driver := "bridge";
     DnsmasqUnit := ""; DnsmasqActive := false |}.

(* --------------------------------------------------------------------- *)
(** ** Predicates used in the statements                                  *)
(* --------------------------------------------------------------------- *)

(** No octet of [s] is [c]. *)
Fixpoint free_of (c : ascii) (s : string) : bool :=
  match s with
  | EmptyString => true
  | String c' s' => negb (Ascii.eqb c' c) && free_of c s'
  end.

(** A part of a short-form volume entry: a string without a colon. *)
Definition colon_free (s : string) : bool := free_of ":" s.

Definition space_free (s : string) : bool := free_of " " s.

(** [s] is the subnet of some network recorded in [networks.json]. *)
Definition recorded (m : gmap string NetworkMetadata) (s : string) : Prop :=
  exists name net, m !! name = Some net /\ Meta_Subnet net = s.

(** A workspace in which the VM [web] has its overlay disk and whose
    supervisor answers every query with the state [failed]. *)
Definition w_failed_unit : World :=
  {| cwd := "/home/dev/demo"; pid := 4242;
     files := {[ ["web"; "disk.qcow2"] := Qcow2 "/images/cloud.img" "10G" false ]};
     host_exists := fun _ => false;
     port_free := fun _ => true;
     run := fun _ => Some "failed
";
     remove_all := fun _ => None;
     links := ∅; link_del := fun _ => true; trace := [] |}.

(** [port] is recorded in the [ports.json] of a workspace directory other
    than that of [vmName] and other than the key directory [ssh]. *)
Definition recordedElsewhere (w : World) (vmName : string) (port : Z) : Prop :=
  exists other m,
    other <> vmName /\ other <> "ssh"
    /\ loadPortMetadata other w = Ok (Some m) /\ Meta_SSH m = port.

(** [port] can be given to [vmName]: it is free on the host and no other
    directory records it. *)
Definition eligible (w : World) (vmName : string) (port : Z) : Prop :=
  isPortAvailable port w = true /\ ~ recordedElsewhere w vmName port.

(** The configuration of [vm] pins the SSH port [port]. *)
Definition pinned (vm : VM) (port : Z) : Prop :=
  exists ssh, VM_SSH vm = Some ssh /\ Port ssh = port /\ port > 0.

(** The [ports.json] of [vmName] records [port], and [port] is free. *)
Definition reusable (w : World) (vmName : string) (port : Z) : Prop :=
  exists m,
    loadPortMetadata vmName w = Ok (Some m) /\ Meta_SSH m = port
    /\ port > 0 /\ isPortAvailable port w = true.

(** A VM whose configuration pins the SSH port 2200. *)
Definition pinned_vm : VM :=
  {| Image := "https://example/cloud.img"; CPU := 2; Memory := 2048;
     Networks := []; Ports := []; DependsOn := []; Volumes := [];
     Environment := []; Provisions := []; VM_Disk := None;
     VM_Healthcheck := None; VM_SSH := Some {| Port := 2200 |} |}.

(** The workspace after a first [up] of the VM [web] with a 5G disk. *)
Definition w_disk_5G : World :=
  {| cwd := "/home/dev/demo"; pid := 4242;
     files := {[ ["web"; "disk.qcow2"] := Qcow2 "/images/cloud.img" "5G" false;
                 ["web"; "disk.metadata.json"] := DiskJSON {| Meta_Size := "5G" |} ]};
     host_exists := fun _ => false;
     port_free := fun _ => true;
     run := fun _ => Some "";
     remove_all := fun _ => None;
     links := ∅; link_del := fun _ => true; trace := [] |}.


(** The same project name under another parent directory. *)
Definition w_demo_moved : World := bare_world "/srv/demo".

(** A document whose only VM gives no image, cpu or memory and mounts the
    undeclared volume [ghost] on the relative target [data/dir]. *)
Definition doc_loose : Document :=
  {| d_version := "1.0"; d_networks := ∅; d_volumes := ∅;
     d_vms :=
       [("web",
         {| n_image := None; n_cpu := None; n_memory := None;
            n_networks := []; n_ports := []; n_depends_on := [];
            n_volumes := [ScalarNode "ghost:data/dir"];
            n_environment := []; n_provision := []; n_disk := None;
            n_healthcheck := None; n_ssh := None |})] |}.

(** A document with an unknown flag on a short-form volume entry. *)
Definition node_bad_flag : VMNode :=
  {| n_image := Some "https://example/cloud.img";
     n_cpu := Some 2; n_memory := Some 2048;
     n_networks := []; n_ports := []; n_depends_on := [];
     n_volumes := [ScalarNode "./cfg:/etc/app:rw"];
     n_environment := []; n_provision := []; n_disk := None;
     n_healthcheck := None; n_ssh := None |}.

Definition doc_bad_flag : Document :=
  {| d_version := "1.0"; d_networks := ∅; d_volumes := ∅;
     d_vms := [("web", node_bad_flag)] |}.

(** The volume [source] has no entry in a readable [volumes.json]. *)
Definition unrecorded (source : string) (w : World) : Prop :=
  forall m, loadVolumeMetadata w = Ok m -> m !! source = None.

(** A project whose only VM is called [volumes] and mounts the named
    volume [data]. *)
Definition node_volumes_vm : VMNode :=
  {| n_image := Some "https://example/cloud.img";
     n_cpu := Some 2; n_memory := Some 2048;
     n_networks := []; n_ports := []; n_depends_on := [];
     n_volumes := [ScalarNode "data:/var/lib/db"];
     n_environment := []; n_provision := []; n_disk := None;
     n_healthcheck := None; n_ssh := None |}.

Definition doc_vm_named_volumes : Document :=
  {| d_version := "1.0"; d_networks := ∅;
     d_volumes := {[ "data" := {| Volume_Size := "5G" |} ]};
     d_vms := [("volumes", node_volumes_vm)] |}.

Definition config_vm_named_volumes : ComposeConfig :=
  {| Version := "1.0"; Cfg_Networks := ∅;
     Cfg_Volumes := {[ "data" := {| Volume_Size := "5G" |} ]};
     VMs := {[ "volumes" :=
                 {| Image := "https://example/cloud.img"; CPU := 2;
                    Memory := 2048; Networks := []; Ports := [];
                    DependsOn := [];
                    Volumes := [ {| Source := "data"; Target := "/var/lib/db";
                                    ReadOnly := false; Automount := None;
                                    MountOptions := "" |} ];
                    Environment := []; Provisions := []; VM_Disk := None;
                    VM_Healthcheck := None; VM_SSH := None |} ]} |}.

(** The workspace after the first steps of [up] for that VM: the overlay
    has been created and [parseVMVolumes] has made the volume. *)
Definition w_after_up : World :=
  let w1 :=
    (createInstanceDisk "volumes" "/images/cloud.img" None w_demo).2 in
  match VMs config_vm_named_volumes !! "volumes" with
  | Some vm =>
      (parseVMVolumes "volumes" vm config_vm_named_volumes
         "/home/dev/demo/qemu-compose.yaml" w1).2
  | None => w1
  end.

(** A path of the volume manager: [volumes.json] or a path below
    [volumes/]. *)
Definition volume_path (q : list string) : Prop :=
  q = ["volumes.json"] \/ exists rest, q = "volumes" :: rest.

(* --------------------------------------------------------------------- *)
(** ** The command file: [stop]                                           *)
(* --------------------------------------------------------------------- *)

(** The body of the loop over the selected VMs in [stopCmd]; the boolean
    is [hasError]. *)
Definition stopOne (acc : bool * World) (entry : string * VM) : bool * World :=
  let '(hasError, w) := acc in
  let '(vmName, vm) := entry in
  let w := print ("VM: " +:+ vmName) w in
  let '(running, w) := isVMRunning vmName w in
  if negb running then (hasError, print "  ⚠ VM is not running" w)
  else
    match stopVM vmName vm w with
    | (Err e, w1) => (true, print ("  ✗ Error stopping VM: " +:+ e) w1)
    | (Ok _, w1) => (hasError, print "  ✓ Stopped" w1)
    end.

(** [stopCmd.Run]: the exit status and the world it leaves, with the
    order of [map_to_list] for the range over the VMs. *)
Definition stopCmd (composeFile : string) (f : ComposeFile)
    (args : list string) (w : World) : Z * World :=
  match loadComposeFile f with
  | Err e => (1, print ("Error: " +:+ e) w)
  | Ok config =>
      match filterVMs config args with
      | Err e => (1, print ("Error: " +:+ e) w)
      | Ok vms =>
          let w := print ("Using compose file: " +:+ composeFile) w in
          let w := print ("Project: " +:+ getProjectName w) w in
          let w :=
            print ("Stopping " +:+ Go.itoa (Z.of_nat (size vms)) +:+ " VM(s)"
                     +:+ (match args with
                          | [] => "..."
                          | _ => ": " +:+ Go.Join args ", "
                          end)) w in
          let '(hasError, w) := foldl stopOne (false, w) (map_to_list vms) in
          if hasError then (1, w)
          else (0, print "✓ All VMs stopped successfully" w)
      end
  end.

(* --------------------------------------------------------------------- *)
(** ** cloudinit.go: the mounts of the seed                               *)
(* --------------------------------------------------------------------- *)

(** The double quote, which the template writes around the mount
    options. *)
Definition dquote : string := String (Ascii.ascii_of_nat 34) EmptyString.

Definition newline : string := String (Ascii.ascii_of_nat 10) EmptyString.

(** What the loop of [generateCloudInitISOWithVolumes] over the MAC
    addresses writes to [network-config] for the interface of index [i]. *)
Definition networkConfigEntry (i : Z) (macAddr : string) : string :=
  let ifName := "net" +:+ Go.itoa i in
  "    " +:+ ifName +:+ ":" +:+ newline
    +:+ "      match:" +:+ newline
    +:+ "        macaddress: " +:+ dquote +:+ macAddr +:+ dquote +:+ newline
    +:+ "      dhcp4: true" +:+ newline
    +:+ "      set-name: " +:+ ifName +:+ newline.

Fixpoint networkConfigEntries (i : Z) (macAddresses : list string)
    : list string :=
  match macAddresses with
  | [] => []
  | macAddr :: rest =>
      networkConfigEntry i macAddr :: networkConfigEntries (i + 1) rest
  end.

(** The content of the file [network-config] of the seed; [None] when
    there is no MAC address and the file is not written. *)
Definition networkConfig (macAddresses : list string) : option string :=
  if Z.of_nat (length macAddresses) >? 0 then
    Some ("network:" +:+ newline +:+ "  version: 2" +:+ newline
            +:+ "  ethernets:" +:+ newline
            +:+ String.concat "" (networkConfigEntries 0 macAddresses))
  else None.

(** [string(r)] for an integer [r]: the UTF-8 encoding of the code point,
    or of U+FFFD when [r] is not a valid one. *)
Definition utf8 (r : Z) : string :=
  if (r <? 0) || (0x10FFFF <? r) || ((0xD800 <=? r) && (r <=? 0xDFFF))
  then Go.octets [0xEF; 0xBF; 0xBD]%N
  else if r <? 0x80 then Go.octets [Z.to_N r]
  else if r <? 0x800 then
    Go.octets [Z.to_N (0xC0 + r / 64); Z.to_N (0x80 + r mod 64)]
  else if r <? 0x10000 then
    Go.octets [Z.to_N (0xE0 + r / 4096); Z.to_N (0x80 + (r / 64) mod 64);
               Z.to_N (0x80 + r mod 64)]
  else
    Go.octets [Z.to_N (0xF0 + r / 262144); Z.to_N (0x80 + (r / 4096) mod 64);
               Z.to_N (0x80 + (r / 64) mod 64); Z.to_N (0x80 + r mod 64)].

(** The template function [indexToLetter]: [string('b' + i)]. *)
Definition indexToLetter (i : Z) : string := utf8 (98 + i).

(** The entry of [mounts:] that the template renders for a bind mount,
    with the 9p tag it is given. *)
Definition bindMountLine (mountTag : string) (mount : VMVolumeMount) : string :=
  "  - [" +:+ mountTag +:+ ", " +:+ MountPath mount +:+ ", 9p, " +:+ dquote
    +:+ (if negb (String.eqb (Mount_Options mount) "") then Mount_Options mount
         else "trans=virtio,version=9p2000.L"
                +:+ (if Mount_ReadOnly mount then ",ro" else ""))
    +:+ dquote +:+ ", " +:+ dquote +:+ "0" +:+ dquote
    +:+ ", " +:+ dquote +:+ "0" +:+ dquote +:+ "]".

(** The entry of [mounts:] that the template renders for a named
    volume, with the index of its device. *)
Definition namedMountLine (namedIdx : Z) (mount : VMVolumeMount) : string :=
  "  - [/dev/vd" +:+ indexToLetter namedIdx +:+ ", " +:+ MountPath mount
    +:+ ", ext4, " +:+ dquote
    +:+ (if Mount_ReadOnly mount then "ro" else "defaults")
    +:+ dquote +:+ ", " +:+ dquote +:+ "0" +:+ dquote
    +:+ ", " +:+ dquote +:+ "2" +:+ dquote +:+ "]".

(** The range over [.VolumeMounts] below [mounts:] in [cloudInitTemplate],
    with the two counters [$namedIdx] and [$bindIdx] of the template: the
    lines it renders, each of which the template starts on a new line.
    A bind mount that is not mounted automatically renders nothing and
    leaves [$bindIdx] as it is. *)
Fixpoint mountLines (volumeMounts : list VMVolumeMount) (namedIdx bindIdx : Z)
    : list string :=
  match volumeMounts with
  | [] => []
  | mount :: rest =>
      if IsBindMount mount then
        if Mount_Automount mount then
          bindMountLine ("mount" +:+ Go.itoa bindIdx) mount
            :: mountLines rest namedIdx (bindIdx + 1)
        else mountLines rest namedIdx bindIdx
      else
        namedMountLine namedIdx mount :: mountLines rest (namedIdx + 1) bindIdx
  end.

(* --------------------------------------------------------------------- *)
(** ** The command file: [formatBytes]                                    *)
(* --------------------------------------------------------------------- *)

(** [float64(x)] for an integer [x >= 0], as the integer it denotes: [x]
    itself up to 53 bits, beyond that [x] rounded to 53 significant bits,
    ties to even. *)
Definition round53 (x : Z) : Z :=
  let bits := Z.log2 x + 1 in
  if bits <=? 53 then x
  else
    let shift := bits - 53 in
    let m := x / 2 ^ shift in
    let r := x mod 2 ^ shift in
    let half := 2 ^ (shift - 1) in
    (if (half <? r) || ((r =? half) && Z.odd m) then m + 1 else m) * 2 ^ shift.

(** [fmt.Sprintf("%.1f", v)] for the float [v = num / den], with
    [num >= 0] and [den] a power of two, so that the division of the two
    floats is exact: the decimal expansion of [v] rounded to one digit
    after the point, ties to even. *)
Definition fixed1 (num den : Z) : string :=
  let q := (10 * num) / den in
  let r := (10 * num) mod den in
  let q' := if (den <? 2 * r) || ((2 * r =? den) && Z.odd q) then q + 1 else q in
  Go.itoa (q' / 10) +:+ "." +:+ Go.itoa (q' mod 10).

(** The loop of [formatBytes]: [n] is divided by 1024 as long as it is at
    least 1024.  [None] stands for a loop that has not ended when the
    fuel is used up. *)
Fixpoint unitLoop (fuel : nat) (n div exp : Z) : option (Z * Z) :=
  match fuel with
  | O => None
  | S fuel' =>
      if n >=? 1024 then unitLoop fuel' (Z.quot n 1024) (div * 1024) (exp + 1)
      else Some (div, exp)
  end.

(** [formatBytes].  [None] is the run-time panic of an index out of the
    range of ["KMGTPE"] (or a loop that does not end). *)
Definition formatBytes (bytes : Z) : option string :=
  if bytes <? 1024 then Some (Go.itoa bytes +:+ " B")
  else
    match unitLoop 64 (Z.quot bytes 1024) 1024 0 with
    | None => None
    | Some (div, exp) =>
        match String.get (Z.to_nat exp) "KMGTPE" with
        | None => None
        | Some unit =>
            Some (fixed1 (round53 bytes) div +:+ " "
                    +:+ String unit (String "B" EmptyString))
        end
    end.

(* --------------------------------------------------------------------- *)
(** ** Further predicates and sample inputs                               *)
(* --------------------------------------------------------------------- *)

(** The decimal number at the head of a string, and what follows it. *)
Fixpoint leadingNumber (s : string) (acc : Z) : Z * string :=
  match s with
  | EmptyString => (acc, s)
  | String c s' =>
      let d := Z.of_N (Ascii.N_of_ascii c) - 48 in
      if (0 <=? d) && (d <=? 9) then leadingNumber s' (10 * acc + d)
      else (acc, s)
  end.

(** The index of the pool read back from the text of one of its subnets
    [172.<a>.<b>.0/24]. *)
Definition subnetIndex (s : string) : Z :=
  let '(a, rest) := leadingNumber (String.substring 4 (String.length s - 4) s) 0 in
  let '(b, _) := leadingNumber (String.substring 1 (String.length rest - 1) rest) 0 in
  (a - 16) * 256 + b.

(** No two networks of [networks.json] record the same subnet. *)
Definition distinctSubnets (m : gmap string NetworkMetadata) : Prop :=
  forall name1 name2 net1 net2,
    m !! name1 = Some net1 -> m !! name2 = Some net2 ->
    Meta_Subnet net1 = Meta_Subnet net2 -> name1 = name2.

(** The network asks for a subnet of the pool. *)
Definition automatic (network : Network) : Prop :=
  Subnet network = "auto" \/ Subnet network = "".

(** A workspace whose [networks.json] records the first subnet of the
    pool for the network [frontend]. *)
Definition w_one_network : World :=
  {| cwd := "/home/dev/demo"; pid := 4242;
     files := {[ ["networks.json"]
                 := NetworksJSON {[ "frontend" := net_meta "172.16.0.0/24" ]} ]};
     host_exists := fun _ => false;
     port_free := fun _ => true;
     run := fun _ => Some "";
     remove_all := fun _ => None;
     links := ∅; link_del := fun _ => true; trace := [] |}.

Definition auto_network : Network := {| Driver := "bridge"; Subnet := "auto" |}.

(** A workspace whose [networks.json] records the first and the third
    subnet of the pool. *)
Definition w_two_networks : World :=
  {| cwd := "/home/dev/demo"; pid := 4242;
     files := {[ ["networks.json"]
                 := NetworksJSON {[ "frontend" := net_meta "172.16.0.0/24";
                                    "storage" := net_meta "172.16.2.0/24" ]} ]};
     host_exists := fun _ => false;
     port_free := fun _ => true;
     run := fun _ => Some "";
     remove_all := fun _ => None;
     links := ∅; link_del := fun _ => true; trace := [] |}.

(** A network whose subnet is pinned to the first subnet of the pool. *)
Definition pinned_network : Network :=
  {| Driver := "bridge"; Subnet := "172.16.0.0/24" |}.

(** The workspace of [w_demo] once the overlay of the VM [web] exists,
    with a supervisor that reports every unit as [active]. *)
Definition w_active_unit : World :=
  {| cwd := "/home/dev/demo"; pid := 4242;
     files := {[ ["web"; "disk.qcow2"] := Qcow2 "/images/cloud.img" "10G" false ]};
     host_exists := fun _ => false;
     port_free := fun _ => true;
     run := fun _ => Some "active
";
     remove_all := fun _ => None;
     links := ∅; link_del := fun _ => true; trace := [] |}.

(** A host on which [qemu-img resize] fails and every other command
    succeeds. *)
Definition w_no_resize : World :=
  {| cwd := "/home/dev/demo"; pid := 4242; files := ∅;
     host_exists := fun _ => false;
     port_free := fun _ => true;
     run := fun argv =>
              match argv with
              | _ :: "resize" :: _ => None
              | _ => Some ""
              end;
     remove_all := fun _ => None;
     links := ∅; link_del := fun _ => true; trace := [] |}.

(** A host on which the directory [/srv/app/cfg] exists. *)
Definition w_host_cfg : World :=
  {| cwd := "/home/dev/demo"; pid := 4242; files := ∅;
     host_exists := fun p => String.eqb p "/srv/app/cfg";
     port_free := fun _ => true;
     run := fun _ => Some "";
     remove_all := fun _ => None;
     links := ∅; link_del := fun _ => true; trace := [] |}.

(** A VM that mounts the named volume [data], asking for no automatic
    mount, and the directory [cfg] next to the compose file. *)
Definition mounting_vm : VM :=
  {| Image := "https://example/cloud.img"; CPU := 2; Memory := 2048;
     Networks := []; Ports := []; DependsOn := [];
     Volumes := [ {| Source := "data"; Target := "/var/lib/db";
                     ReadOnly := false; Automount := Some false;
                     MountOptions := "noatime" |};
                  {| Source := "./cfg"; Target := "/etc/app";
                     ReadOnly := true; Automount := None;
                     MountOptions := "" |} ];
     Environment := []; Provisions := []; VM_Disk := None;
     VM_Healthcheck := None; VM_SSH := None |}.

(** What [parseVMVolumes] guarantees about one mount it returns, in the
    workspace [w] it leaves. *)
Definition resolvedMount (w : World) (mount : VMVolumeMount) : Prop :=
  if IsBindMount mount
  then host_exists w (HostPath mount) = true /\ Mount_DiskPath mount = ""
  else Mount_Automount mount = true /\ Mount_Options mount = ""
       /\ HostPath mount = ""
       /\ getVolumeDiskPath (VolumeName mount) w = Ok (Mount_DiskPath mount).

(** The names of the TAP devices of a VM with [n] networks. *)
Definition tapNames (vmName : string) (n : nat) (w : World) : list string :=
  (fun i => getTAPName vmName (Z.of_nat i) w) <$> seq 0 n.

(** A VM on two bridge networks, and a host on which its two TAP devices,
    one bridge and a TAP device of another project exist and systemd
    reports every unit as [active]. *)
Definition bridged_vm : VM :=
  {| Image := "https://example/cloud.img"; CPU := 2; Memory := 2048;
     Networks := ["frontend"; "backend"]; Ports := []; DependsOn := [];
     Volumes := []; Environment := []; Provisions := []; VM_Disk := None;
     VM_Healthcheck := None; VM_SSH := None |}.

Definition w_bridged : World :=
  {| cwd := "/home/dev/demo"; pid := 4242;
     files := {[ ["web"; "disk.qcow2"] := Qcow2 "/images/cloud.img" "10G" false;
                 ["networks.json"]
                 := NetworksJSON {[ "frontend" := net_meta "172.16.0.0/24" ]} ]};
     host_exists := fun _ => false;
     port_free := fun _ => true;
     run := fun _ => Some "active
";
     remove_all := fun _ => None;
     links := {[ "qc-demo-fronten"; "tap-f855-web"; "tap-8407-web"; "tap-other" ]};
     link_del := fun _ => true;
     trace := [] |}.

Definition config_bridged : ComposeConfig :=
  {| Version := "1.0";
     Cfg_Networks := {[ "frontend" := auto_network ]};
     Cfg_Volumes := ∅;
     VMs := {[ "web" := bridged_vm ]} |}.

Definition doc_bridged : Document :=
  {| d_version := "1.0";
     d_networks := {[ "frontend" := auto_network ]};
     d_volumes := ∅;
     d_vms :=
       [("web",
         {| n_image := Some "https://example/cloud.img";
            n_cpu := Some 2; n_memory := Some 2048;
            n_networks := ["frontend"; "backend"]; n_ports := [];
            n_depends_on := []; n_volumes := []; n_environment := [];
            n_provision := []; n_disk := None; n_healthcheck := None;
            n_ssh := None |})] |}.

(** The host of [w_bridged] when the kernel refuses to delete the first
    TAP device of [web] and the bridge of [frontend]. *)
Definition w_stuck_links : World :=
  {| cwd := "/home/dev/demo"; pid := 4242;
     files := {[ ["web"; "disk.qcow2"] := Qcow2 "/images/cloud.img" "10G" false;
                 ["networks.json"]
                 := NetworksJSON {[ "frontend" := net_meta "172.16.0.0/24" ]} ]};
     host_exists := fun _ => false;
     port_free := fun _ => true;
     run := fun _ => Some "active
";
     remove_all := fun _ => None;
     links := {[ "qc-demo-fronten"; "tap-f855-web"; "tap-8407-web"; "tap-other" ]};
     link_del := fun name => negb (String.eqb name "tap-f855-web")
                             && negb (String.eqb name "qc-demo-fronten");
     trace := [] |}.

(** The interfaces among [names] that the kernel lets go. *)
Definition deletable (w : World) (names : list string) : list string :=
  filter (fun name => link_del w name = true) names.

(** The bridges of the networks [names]. *)
Definition bridgeNames (names : list string) (w : World) : list string :=
  (fun name => getBridgeName name w) <$> names.

(** The number of mounts of a list that satisfy [p]. *)
Fixpoint countMounts (p : VMVolumeMount -> bool) (mounts : list VMVolumeMount) : Z :=
  match mounts with
  | [] => 0
  | mount :: rest => (if p mount then 1 else 0) + countMounts p rest
  end.

(** The bind mounts, the bind mounts that are mounted automatically and
    the named volumes of a list. *)
Definition bound (mounts : list VMVolumeMount) : Z := countMounts IsBindMount mounts.
Definition automounted (mounts : list VMVolumeMount) : Z :=
  countMounts (fun mount => IsBindMount mount && Mount_Automount mount) mounts.
Definition named (mounts : list VMVolumeMount) : Z :=
  countMounts (fun mount => negb (IsBindMount mount)) mounts.

(** [mount] with another read-only flag. *)
Definition withReadOnly (ro : bool) (mount : VMVolumeMount) : VMVolumeMount :=
  {| VolumeName := VolumeName mount; MountPath := MountPath mount;
     Mount_ReadOnly := ro; Mount_Automount := Mount_Automount mount;
     Mount_Options := Mount_Options mount; IsBindMount := IsBindMount mount;
     HostPath := HostPath mount; Mount_DiskPath := Mount_DiskPath mount |}.

(** Two bind mounts, the first of which is not mounted automatically. *)
Definition manual_bind : VMVolumeMount :=
  {| VolumeName := "./secrets"; MountPath := "/run/secrets";
     Mount_ReadOnly := true; Mount_Automount := false;
     Mount_Options := ""; IsBindMount := true;
     HostPath := "/srv/app/secrets"; Mount_DiskPath := "" |}.

Definition auto_bind : VMVolumeMount :=
  {| VolumeName := "./cfg"; MountPath := "/etc/app";
     Mount_ReadOnly := true; Mount_Automount := true;
     Mount_Options := "trans=virtio"; IsBindMount := true;
     HostPath := "/srv/app/cfg"; Mount_DiskPath := "" |}.

(** The values that follow a [-drive] flag in a list of flag and value
    pairs. *)
Fixpoint driveArgs (args : list string) : list string :=
  match args with
  | flag :: value :: rest =>
      if String.eqb flag "-drive" then value :: driveArgs rest
      else driveArgs rest
  | _ => []
  end.

(** A named volume as [parseVMVolumes] returns it, and a bind mount that
    is mounted automatically. *)
Definition data_volume : VMVolumeMount :=
  {| VolumeName := "data"; MountPath := "/var/lib/db";
     Mount_ReadOnly := false; Mount_Automount := true;
     Mount_Options := ""; IsBindMount := false; HostPath := "";
     Mount_DiskPath := "/home/dev/demo/.qemu-compose/volumes/data/volume.qcow2" |}.

(** A host on which [mkfs.ext4] fails and every other command succeeds. *)
Definition w_no_mkfs : World :=
  {| cwd := "/home/dev/demo"; pid := 4242; files := ∅;
     host_exists := fun _ => false;
     port_free := fun _ => true;
     run := fun argv =>
              match argv with
              | _ :: "mkfs.ext4" :: _ => None
              | _ => Some ""
              end;
     remove_all := fun _ => None;
     links := ∅; link_del := fun _ => true; trace := [] |}.

(* ===================================================================== *)
(** * Part II. Properties                                                 *)
(* ===================================================================== *)

(** ** Strings *)

Section strings.

Lemma length_append (s t : string) :
  String.length (s +:+ t) = (String.length s + String.length t)%nat.
Proof. induction s as [|c s IH]; simpl; [done | by rewrite IH]. Qed.

Lemma length_slice_to (n : nat) (s : string) :
  String.length (Go.slice_to n s) = (n `min` String.length s)%nat.
Proof.
  unfold Go.slice_to. revert s.
  induction n as [|n IH]; intros [|c s]; simpl; try done.
  by rewrite IH.
Qed.

Lemma slice_to_all (n : nat) (s : string) :
  (String.length s <= n)%nat -> Go.slice_to n s = s.
Proof.
  unfold Go.slice_to. revert s.
  induction n as [|n IH]; intros [|c s]; simpl; intros Hlen;
    try done; try lia.
  f_equal. apply IH. lia.
Qed.

Lemma length_ReplaceAll (s : string) (old new : ascii) :
  String.length (Go.ReplaceAll s old new) = String.length s.
Proof. induction s as [|c s IH]; simpl; [done | by rewrite IH]. Qed.

Lemma length_hex (bs : list Z) :
  String.length (Go.hex bs) = (2 * length bs)%nat.
Proof.
  induction bs as [|b bs IH]; [done |].
  cbn [Go.hex]. rewrite length_append, IH. simpl. lia.
Qed.

Lemma length_le_bytes (n : nat) (x : Z) : length (MD5.le_bytes n x) = n.
Proof. revert x. induction n as [|n IH]; intros x; simpl; [done | by rewrite IH]. Qed.

(** A digest has 16 octets, whatever the message. *)
Lemma length_Sum (msg : list Z) : length (MD5.Sum msg) = 16%nat.
Proof.
  unfold MD5.Sum.
  destruct (MD5.blocks _ _ _) as [[[a b] c] d].
  by rewrite !length_app, !length_le_bytes.
Qed.

(** The embedding of MD5 on the test suite of RFC 1321, and on an
    identifier of the kind the code hashes. *)
Example md5_empty :
  Go.hex (MD5.Sum (Go.bytes "")) = "d41d8cd98f00b204e9800998ecf8427e".
Proof. by vm_compute. Qed.

Example md5_abc :
  Go.hex (MD5.Sum (Go.bytes "abc")) = "900150983cd24fb0d6963f7d28e17f72".
Proof. by vm_compute. Qed.

Example md5_message_digest :
  Go.hex (MD5.Sum (Go.bytes "message digest"))
  = "f96b697d7cb7938d525a2f31aaf161d0".
Proof. by vm_compute. Qed.

Example md5_two_blocks :
  Go.hex (MD5.Sum (Go.bytes
    "12345678901234567890123456789012345678901234567890123456789012345678901234567890"))
  = "57edf4a22be3c955ac49da2e2107b67a".
Proof. by vm_compute. Qed.

Example md5_identifier :
  Go.hex (MD5.Sum (Go.bytes "proj-vm1-0")) = "7cd5ee446ea6594eaf2146924572274c".
Proof. by vm_compute. Qed.

Example Split_flags : Go.Split "data:/var/lib:ro" ":" = ["data"; "/var/lib"; "ro"].
Proof. done. Qed.

Example Split_trailing : Go.Split "a:" ":" = ["a"; ""].
Proof. done. Qed.

Example TrimSpace_state : Go.TrimSpace "  inactive
" = "inactive".
Proof. by vm_compute. Qed.

Example Base_cwd : Base "/home/dev/my lab/" = "my lab".
Proof. by vm_compute. Qed.

(** Scenario S5 of the specification: a relative bind-mount source is
    resolved against the directory of the compose file. *)
Example Join_compose_dir :
  filepath.Join (filepath.Dir "/tmp/proj/qemu-compose.yaml") "./cfg"
  = "/tmp/proj/cfg".
Proof. by vm_compute. Qed.

End strings.


(** ** config.go: the short form of a volume entry *)

Section short_form.

Lemma Split_colon_free (s : string) :
  colon_free s = true -> Go.Split s ":" = [s].
Proof.
  unfold colon_free. induction s as [|c s IH]; simpl; [done |].
  intros [Hc Hs]%andb_true_iff. apply negb_true_iff in Hc.
  rewrite Hc. by rewrite IH.
Qed.

Lemma Split_cons (s t : string) :
  colon_free s = true ->
  Go.Split (s +:+ ":" +:+ t) ":" = s :: Go.Split t ":".
Proof.
  unfold colon_free. induction s as [|c s IH]; simpl; [done |].
  intros [Hc Hs]%andb_true_iff. apply negb_true_iff in Hc.
  rewrite Hc. by rewrite IH.
Qed.

(** Splitting undoes joining when no part holds a colon. *)
Lemma Split_Join (p : string) (ps : list string) :
  Forall (fun q => colon_free q = true) (p :: ps) ->
  Go.Split (Go.Join (p :: ps) ":") ":" = p :: ps.
Proof.
  revert p. induction ps as [|q ps IH]; intros p Hall.
  - apply Split_colon_free. by inversion Hall.
  - inversion Hall as [|? ? Hp Hrest]; subst.
    change (Go.Join (p :: q :: ps) ":") with (p +:+ ":" +:+ Go.Join (q :: ps) ":").
    rewrite Split_cons by done. by rewrite IH.
Qed.

Lemma parseFlags_all_ro (n : nat) (ro : bool) :
  parseFlags (replicate n "ro") ro = Ok (ro || bool_decide (n ≠ 0%nat)).
Proof.
  revert ro. induction n as [|n IH]; intros ro; simpl.
  - by rewrite orb_false_r.
  - rewrite IH. by rewrite orb_true_r.
Qed.

(** The loop stops at the first flag that is not [ro]. *)
Lemma parseFlags_unknown (flags : list string) (ro : bool) :
  (exists f, f ∈ flags /\ f <> "ro") ->
  exists f, f ∈ flags /\ f <> "ro"
            /\ parseFlags flags ro = Err ("unknown volume flag: " +:+ f).
Proof.
  revert ro. induction flags as [|g flags IH]; intros ro [f [Hin Hne]].
  - by apply elem_of_nil in Hin.
  - simpl. destruct (String.eqb_spec g "ro") as [->|Hg].
    + apply elem_of_cons in Hin as [->|Hin]; [done |].
      destruct (IH true) as [f' (? & ? & ?)]; [by exists f |].
      exists f'. split_and!; [by right | done | done].
    + exists g. split_and!; [by left | done | done].
Qed.

End short_form.

(** C8. For colon-free [source] and [target], [source:target] parses to
    those two fields with [ReadOnly = false], the default automount
    ([nil]) and no mount options; [source:target:ro] is the same with
    [ReadOnly = true]; a flag list holding a flag other than [ro] is
    rejected with the message naming that flag; a string with no colon,
    that is with fewer than two parts, is rejected. *)
Theorem parseShortForm_spec (source target : string) :
  colon_free source = true ->
  colon_free target = true ->
  parseShortForm (source +:+ ":" +:+ target)
    = Ok {| Source := source; Target := target; ReadOnly := false;
            Automount := None; MountOptions := "" |}
  /\ parseShortForm (source +:+ ":" +:+ target +:+ ":" +:+ "ro")
     = Ok {| Source := source; Target := target; ReadOnly := true;
             Automount := None; MountOptions := "" |}
  /\ (forall flags : list string,
        Forall (fun f => colon_free f = true) flags ->
        (exists f, f ∈ flags /\ f <> "ro") ->
        exists f, f ∈ flags /\ f <> "ro"
          /\ parseShortForm (Go.Join (source :: target :: flags) ":")
             = Err ("unknown volume flag: " +:+ f))
  /\ (forall spec : string,
        colon_free spec = true ->
        parseShortForm spec
          = Err ("invalid volume spec: " +:+ spec +:+
                 " (expected format: source:target or source:target:flags)")).
Proof.
  intros Hs Ht. split_and!.
  - unfold parseShortForm.
    change (source +:+ ":" +:+ target) with (Go.Join [source; target] ":").
    rewrite (Split_Join source [target]) by (by repeat constructor).
    done.
  - unfold parseShortForm.
    change (source +:+ ":" +:+ target +:+ ":" +:+ "ro")
      with (Go.Join [source; target; "ro"] ":").
    rewrite (Split_Join source [target; "ro"]) by (by repeat constructor).
    done.
  - intros flags Hflags Hex. unfold parseShortForm.
    rewrite (Split_Join source (target :: flags)) by (by repeat constructor).
    destruct (parseFlags_unknown flags false Hex) as [f (Hin & Hne & Hpf)].
    exists f. by rewrite Hpf.
  - intros spec Hspec. unfold parseShortForm.
    by rewrite Split_colon_free.
Qed.

Lemma parseShortForm_spec_witness :
  parseShortForm "data:/var/lib"
    = Ok {| Source := "data"; Target := "/var/lib"; ReadOnly := false;
            Automount := None; MountOptions := "" |}.
Proof.
  exact (proj1 (parseShortForm_spec "data" "/var/lib" eq_refl eq_refl)).
Defined.


(** ** network.go: interface names *)

Section names.

Lemma ReplaceAll_space_free (s : string) :
  space_free s = true -> Go.ReplaceAll s " " "-" = s.
Proof.
  unfold space_free. induction s as [|c s IH]; simpl; [done |].
  intros [Hc Hs]%andb_true_iff. apply negb_true_iff in Hc.
  rewrite Hc. by rewrite IH.
Qed.

(** The guarded slice of [getBridgeName] and [getTAPName] is a plain cut. *)
Lemma guarded_slice (n : nat) (s : string) :
  (if Go.len s >? Z.of_nat n then Go.slice_to n s else s) = Go.slice_to n s.
Proof.
  unfold Go.len. destruct (Z.gtb_spec (Z.of_nat (String.length s)) (Z.of_nat n)).
  - done.
  - symmetry. apply slice_to_all. lia.
Qed.

Lemma getBridgeName_cut (networkName : string) (w : World) :
  getBridgeName networkName w
  = Go.slice_to 15 ("qc-" +:+ Go.ReplaceAll (getProjectName w) " " "-" +:+ "-"
                      +:+ Go.ReplaceAll networkName " " "-").
Proof. unfold getBridgeName. apply (guarded_slice 15). Qed.

Lemma getTAPName_cut (vmName : string) (networkIndex : Z) (w : World) :
  getTAPName vmName networkIndex w
  = "tap-"
      +:+ Go.slice_to 4
            (Go.hex (MD5.Sum (Go.bytes (identifier w vmName networkIndex))))
      +:+ "-" +:+ Go.slice_to 6 (Go.ReplaceAll vmName " " "-").
Proof. unfold getTAPName. cbv zeta. by rewrite (guarded_slice 6). Qed.

End names.

(** C9, as the code has it.  Both names are built from the names with
    every space replaced by a dash: the bridge name is
    [qc-<project>-<network>] cut to 15 octets, the TAP name is
    [tap-<h>-<v>] with [h] the first four hexadecimal characters of the
    MD5 digest of [<project>-<vm>-<index>] (names as given) and [v] the
    VM name cut to 6 octets; neither is longer than 15 octets.  For
    names without a space they are the names of the specification. *)
Theorem interface_names_bounded
    (w : World) (networkName vmName : string) (networkIndex : Z) :
  getBridgeName networkName w
  = Go.slice_to 15
      ("qc-" +:+ Go.ReplaceAll (getProjectName w) " " "-" +:+ "-"
         +:+ Go.ReplaceAll networkName " " "-")
  /\ (String.length (getBridgeName networkName w) <= 15)%nat
  /\ getTAPName vmName networkIndex w
     = "tap-"
         +:+ Go.slice_to 4
               (Go.hex (MD5.Sum (Go.bytes
                  (getProjectName w +:+ "-" +:+ vmName +:+ "-"
                     +:+ Go.itoa networkIndex))))
         +:+ "-" +:+ Go.slice_to 6 (Go.ReplaceAll vmName " " "-")
  /\ (String.length (getTAPName vmName networkIndex w) <= 15)%nat
  /\ (space_free (getProjectName w) = true ->
      space_free networkName = true ->
      getBridgeName networkName w
      = spec_bridgeName (getProjectName w) networkName)
  /\ (space_free vmName = true ->
      getTAPName vmName networkIndex w
      = spec_tapName (getProjectName w) vmName networkIndex).
Proof.
  split_and!.
  - apply getBridgeName_cut.
  - rewrite getBridgeName_cut, length_slice_to. lia.
  - apply getTAPName_cut.
  - rewrite getTAPName_cut, !length_append, !length_slice_to.
    rewrite length_hex, length_Sum. cbn [String.length]. lia.
  - intros Hp Hn. rewrite getBridgeName_cut.
    by rewrite !ReplaceAll_space_free.
  - intros Hv. rewrite getTAPName_cut.
    by rewrite ReplaceAll_space_free.
Qed.

Lemma interface_names_bounded_witness :
  getBridgeName "frontend" w_demo = spec_bridgeName "demo" "frontend"
  /\ getTAPName "web" 0 w_demo = spec_tapName "demo" "web" 0.
Proof.
  destruct (interface_names_bounded w_demo "frontend" "web" 0)
    as (_ & _ & _ & _ & Hb & Ht).
  split; [exact (Hb eq_refl eq_refl) | exact (Ht eq_refl)].
Defined.

(** C9 as the specification states it fails for a project directory whose
    name holds a space: the code writes a dash where the specification
    keeps the space. *)
Lemma bridge_name_with_space :
  getProjectName w_spaced = "my lab"
  /\ getBridgeName "lan" w_spaced = "qc-my-lab-lan"
  /\ spec_bridgeName "my lab" "lan" = "qc-my lab-lan"
  /\ getBridgeName "lan" w_spaced
     <> spec_bridgeName (getProjectName w_spaced) "lan".
Proof. split_and!; [by vm_compute.. | by vm_compute]. Qed.


(** ** network.go: subnet allocation *)

Section subnets.

Lemma elem_of_allocatedSubnets (m : gmap string NetworkMetadata) (s : string) :
  s ∈ allocatedSubnets m <-> recorded m s.
Proof. unfold allocatedSubnets, recorded. apply elem_of_map_to_set. Qed.

(** The scan returns the first index, counted from [i], whose subnet is
    not in the set. *)
Lemma firstFree_Some (allocated : gset string) (n : nat) (i : Z) (s : string) :
  firstFree allocated n i = Some s <->
  exists k : nat,
    (k < n)%nat /\ s = subnet (i + Z.of_nat k)
    /\ (subnet (i + Z.of_nat k) ∉ allocated)
    /\ forall j : nat, (j < k)%nat -> subnet (i + Z.of_nat j) ∈ allocated.
Proof.
  revert i. induction n as [|n IH]; intros i; simpl.
  - split; [done | intros (k & ? & _); lia].
  - case_bool_decide as Hi.
    + rewrite IH. split.
      * intros (k & Hk & -> & Hfree & Hbelow). exists (S k).
        replace (i + Z.of_nat (S k)) with (i + 1 + Z.of_nat k) by lia.
        split_and!; [lia | done | done |].
        intros [|j] Hj.
        -- by replace (i + Z.of_nat 0) with i by lia.
        -- replace (i + Z.of_nat (S j)) with (i + 1 + Z.of_nat j) by lia.
           apply Hbelow. lia.
      * intros ([|k] & Hk & -> & Hfree & Hbelow).
        -- exfalso. apply Hfree. by replace (i + Z.of_nat 0) with i by lia.
        -- exists k.
           replace (i + 1 + Z.of_nat k) with (i + Z.of_nat (S k)) by lia.
           split_and!; [lia | done | done |].
           intros j Hj.
           replace (i + 1 + Z.of_nat j) with (i + Z.of_nat (S j)) by lia.
           apply Hbelow. lia.
    + split.
      * intros [= <-]. exists 0%nat.
        replace (i + Z.of_nat 0) with i by lia.
        split_and!; [lia | done | done | intros j; lia].
      * intros ([|k] & Hk & -> & Hfree & Hbelow).
        -- by replace (i + Z.of_nat 0) with i by lia.
        -- exfalso. apply Hi.
           specialize (Hbelow 0%nat ltac:(lia)).
           by replace (i + Z.of_nat 0) with i in Hbelow by lia.
Qed.

(** The scan finds nothing exactly when every index is taken. *)
Lemma firstFree_None (allocated : gset string) (n : nat) (i : Z) :
  firstFree allocated n i = None <->
  forall k : nat, (k < n)%nat -> subnet (i + Z.of_nat k) ∈ allocated.
Proof.
  revert i. induction n as [|n IH]; intros i; simpl.
  - split; [intros _ k; lia | done].
  - case_bool_decide as Hi.
    + rewrite IH. split.
      * intros H [|k] Hk.
        -- by replace (i + Z.of_nat 0) with i by lia.
        -- replace (i + Z.of_nat (S k)) with (i + 1 + Z.of_nat k) by lia.
           apply H. lia.
      * intros H k Hk.
        replace (i + 1 + Z.of_nat k) with (i + Z.of_nat (S k)) by lia.
        apply H. lia.
    + split; [done |]. intros H. exfalso. apply Hi.
      specialize (H 0%nat ltac:(lia)).
      by replace (i + Z.of_nat 0) with i in H by lia.
Qed.

Lemma allocateSubnet_loaded (w : World) (m : gmap string NetworkMetadata) :
  loadNetworkMetadata w = Ok m ->
  allocateSubnet w
  = (match firstFree (allocatedSubnets m) 4096 0 with
     | Some s => Ok s
     | None => Err "no available subnets in pool (172.16.0.0/12)"
     end, w).
Proof.
  intros Hload. unfold allocateSubnet. rewrite Hload.
  by destruct (firstFree _ _ _).
Qed.

Lemma allocateSubnet_Ok (w : World) (m : gmap string NetworkMetadata) (s : string) :
  loadNetworkMetadata w = Ok m ->
  (allocateSubnet w).1 = Ok s <->
  exists i : Z,
    0 <= i < 4096 /\ s = subnet i /\ ~ recorded m (subnet i)
    /\ forall j : Z, 0 <= j < i -> recorded m (subnet j).
Proof.
  intros Hload. rewrite (allocateSubnet_loaded w m Hload). cbn [fst].
  destruct (firstFree _ _ _) as [s'|] eqn:Hff.
  - apply firstFree_Some in Hff as (k & Hk & -> & Hfree & Hbelow).
    rewrite Z.add_0_l in Hfree.
    setoid_rewrite Z.add_0_l in Hbelow. rewrite Z.add_0_l.
    split.
    + intros [= <-]. exists (Z.of_nat k).
      split; [lia |]. split_and!; [done | by rewrite <-elem_of_allocatedSubnets |].
      intros j Hj. apply elem_of_allocatedSubnets.
      replace j with (Z.of_nat (Z.to_nat j)) by lia. apply Hbelow. lia.
    + intros (i & Hi & -> & Hifree & Hibelow). f_equal.
      destruct (Z.lt_trichotomy i (Z.of_nat k)) as [Hlt|[->|Hgt]]; [|done|].
      * exfalso. apply Hifree, elem_of_allocatedSubnets.
        replace i with (Z.of_nat (Z.to_nat i)) by lia. apply Hbelow. lia.
      * exfalso. apply Hfree, elem_of_allocatedSubnets, Hibelow. lia.
  - split; [done |].
    intros (i & Hi & _ & Hifree & _). exfalso.
    apply Hifree, elem_of_allocatedSubnets.
    pose proof (proj1 (firstFree_None _ _ _) Hff (Z.to_nat i) ltac:(lia)) as H.
    by replace (0 + Z.of_nat (Z.to_nat i)) with i in H by lia.
Qed.

Lemma allocateSubnet_Err (w : World) (m : gmap string NetworkMetadata) :
  loadNetworkMetadata w = Ok m ->
  (exists e, (allocateSubnet w).1 = Err e) <->
  forall i : Z, 0 <= i < 4096 -> recorded m (subnet i).
Proof.
  intros Hload. rewrite (allocateSubnet_loaded w m Hload). cbn [fst].
  destruct (firstFree _ _ _) as [s'|] eqn:Hff.
  - split; [by intros [e ?] |]. intros Hall. exfalso.
    apply firstFree_Some in Hff as (k & Hk & _ & Hfree & _).
    apply Hfree, elem_of_allocatedSubnets, Hall. lia.
  - split; [| by eexists].
    intros _ i Hi. apply elem_of_allocatedSubnets.
    pose proof (proj1 (firstFree_None _ _ _) Hff (Z.to_nat i) ltac:(lia)) as H.
    by replace (0 + Z.of_nat (Z.to_nat i)) with i in H by lia.
Qed.

Lemma allocateSubnet_same_world (w : World) (m : gmap string NetworkMetadata) :
  loadNetworkMetadata w = Ok m -> exists r, allocateSubnet w = (r, w).
Proof. intros Hload. eexists. by apply allocateSubnet_loaded. Qed.

(** What [saveNetworkMetadata] has written is what [loadNetworkMetadata]
    reads. *)
Lemma loadNetworkMetadata_save (m : gmap string NetworkMetadata) (w : World) :
  loadNetworkMetadata (saveNetworkMetadata m w) = Ok m.
Proof.
  unfold loadNetworkMetadata, saveNetworkMetadata, writeFile. cbn.
  by rewrite lookup_insert_eq.
Qed.

Lemma subnet_0 : subnet 0 = "172.16.0.0/24".
Proof. by vm_compute. Qed.

Lemma subnet_1 : subnet 1 = "172.16.1.0/24".
Proof. by vm_compute. Qed.

Lemma subnet_2 : subnet 2 = "172.16.2.0/24".
Proof. by vm_compute. Qed.

End subnets.

(** C1, as the code has it.  With [networks.json] readable as the map
    [m]: [allocateSubnet] returns the CIDR of the smallest index in
    [0, 4095] whose subnet is not recorded in [m], fails exactly when all
    4096 are recorded, and leaves the world as it found it; with nothing
    recorded it returns 172.16.0.0/24, with exactly 172.16.0.0/24 and
    172.16.2.0/24 recorded it returns 172.16.1.0/24.  The assignment is
    persisted by the caller, [resolveNetworkSubnet]: for a network with
    subnet [auto] (or none) that has no entry yet it returns that subnet
    and changes the world by one write of [networks.json], which then
    reads back as [m] extended with the network, its subnet and its
    driver; no other file changes, and the next allocation returns
    another subnet. *)
Theorem allocateSubnet_first_free (w : World) (m : gmap string NetworkMetadata) :
  loadNetworkMetadata w = Ok m ->
  (allocateSubnet w).2 = w
  /\ (forall s : string,
        (allocateSubnet w).1 = Ok s <->
        exists i : Z,
          0 <= i < 4096 /\ s = subnet i /\ ~ recorded m (subnet i)
          /\ forall j : Z, 0 <= j < i -> recorded m (subnet j))
  /\ ((exists e, (allocateSubnet w).1 = Err e) <->
      forall i : Z, 0 <= i < 4096 -> recorded m (subnet i))
  /\ ((forall s, ~ recorded m s) ->
      (allocateSubnet w).1 = Ok "172.16.0.0/24")
  /\ ((forall s, recorded m s <-> s = "172.16.0.0/24" \/ s = "172.16.2.0/24") ->
      (allocateSubnet w).1 = Ok "172.16.1.0/24")
  /\ (forall (networkName : string) (network : Network) (s : string),
        Subnet network = "auto" \/ Subnet network = "" ->
        m !! networkName = None ->
        (allocateSubnet w).1 = Ok s ->
        (resolveNetworkSubnet networkName network w).1 = Ok s
        /\ (resolveNetworkSubnet networkName network w).2
           = writeFile ["networks.json"]
               (NetworksJSON
                  (<[networkName :=
                       {| Meta_Subnet := s; Meta_Driver := Driver network;
                          DnsmasqUnit := ""; DnsmasqActive := false |}]> m)) w
        /\ loadNetworkMetadata (resolveNetworkSubnet networkName network w).2
           = Ok (<[networkName :=
                     {| Meta_Subnet := s; Meta_Driver := Driver network;
                        DnsmasqUnit := ""; DnsmasqActive := false |}]> m)
        /\ (forall q, q <> ["networks.json"] ->
              files (resolveNetworkSubnet networkName network w).2 !! q
              = files w !! q)
        /\ (forall s' : string,
              (allocateSubnet (resolveNetworkSubnet networkName network w).2).1
              = Ok s' ->
              s' <> s)).
Proof.
  intros Hload. split_and!.
  - destruct (allocateSubnet_same_world w m Hload) as [r Hr]. by rewrite Hr.
  - intros s. by apply allocateSubnet_Ok.
  - by apply allocateSubnet_Err.
  - intros Hnone. apply (allocateSubnet_Ok w m _ Hload). exists 0.
    split; [lia |]. split_and!; [by rewrite subnet_0 | apply Hnone | intros j; lia].
  - intros Hm. apply (allocateSubnet_Ok w m _ Hload). exists 1.
    split; [lia |]. rewrite subnet_1. split_and!; [done | |].
    + rewrite Hm. intros [?|?]; discriminate.
    + intros j Hj. replace j with 0 by lia. rewrite subnet_0.
      apply Hm. by left.
  - intros networkName network s Hauto Hfresh Hs.
    set (net := {| Meta_Subnet := s; Meta_Driver := Driver network;
                   DnsmasqUnit := ""; DnsmasqActive := false |}).
    assert (resolveNetworkSubnet networkName network w
            = (Ok s, saveNetworkMetadata (<[networkName := net]> m) w))
      as Hresolve.
    { unfold resolveNetworkSubnet.
      assert (negb (String.eqb (Subnet network) "auto")
              && negb (String.eqb (Subnet network) "") = false) as ->.
      { destruct Hauto as [-> | ->]; done. }
      rewrite Hload, Hfresh.
      destruct (allocateSubnet_same_world w m Hload) as [r Hr].
      rewrite Hr in Hs |- *. cbn [fst] in Hs. by subst r. }
    rewrite Hresolve. cbn [fst snd].
    pose proof (loadNetworkMetadata_save (<[networkName := net]> m) w) as Hsaved.
    split_and!; [done | done | exact Hsaved | |].
    + intros q Hq. unfold saveNetworkMetadata, writeFile, getNetworkMetadataPath.
      cbn [files set_files]. by rewrite lookup_insert_ne.
    + intros s' Hs' ->.
      apply (allocateSubnet_Ok _ _ _ Hsaved) in Hs' as (i & _ & Hi & Hfree & _).
      apply Hfree. exists networkName, net. rewrite lookup_insert_eq.
      by rewrite <- Hi.
Qed.

Lemma allocateSubnet_first_free_witness :
  (allocateSubnet w_two_networks).1 = Ok "172.16.1.0/24"
  /\ loadNetworkMetadata
       (resolveNetworkSubnet "backend" auto_network w_two_networks).2
     = Ok (<["backend" := net_meta "172.16.1.0/24"]>
             {[ "frontend" := net_meta "172.16.0.0/24";
                "storage" := net_meta "172.16.2.0/24" ]}).
Proof.
  destruct (allocateSubnet_first_free w_two_networks
              {[ "frontend" := net_meta "172.16.0.0/24";
                 "storage" := net_meta "172.16.2.0/24" ]} eq_refl)
    as (_ & _ & _ & _ & Hgap & Hpersist).
  assert ((allocateSubnet w_two_networks).1 = Ok "172.16.1.0/24") as Hfirst.
  { apply Hgap. intros s. split.
    - intros (name & net & Hlookup & <-).
      apply lookup_insert_Some in Hlookup as [[_ <-] | [_ Hlookup]]; [by left |].
      apply lookup_singleton_Some in Hlookup as [_ <-]. by right.
    - intros [-> | ->].
      + exists "frontend", (net_meta "172.16.0.0/24").
        split; vm_compute; reflexivity.
      + exists "storage", (net_meta "172.16.2.0/24").
        split; vm_compute; reflexivity. }
  split; [exact Hfirst |].
  destruct (Hpersist "backend" auto_network "172.16.1.0/24"
              ltac:(by left) eq_refl Hfirst) as (_ & _ & Hread & _).
  exact Hread.
Defined.

(** C1 as the specification states it fails on the persistence: after
    [allocateSubnet] has returned 172.16.0.0/24, [networks.json] records
    no subnet, and a second call returns the same subnet again. *)
Lemma allocateSubnet_does_not_persist :
  (allocateSubnet w_demo).1 = Ok "172.16.0.0/24"
  /\ loadNetworkMetadata (allocateSubnet w_demo).2 = Ok ∅
  /\ (allocateSubnet (allocateSubnet w_demo).2).1 = Ok "172.16.0.0/24".
Proof. by vm_compute. Qed.


(** ** vm.go: the status of a VM *)

(** C4, as the code has it.  Without the overlay disk the status is
    [not-created].  With it: [unknown] when the supervisor query fails;
    [stopped] when the reported state, trimmed, is [inactive]; [ready] or
    [starting] when it is [active], after the SSH probe succeeds or
    fails; and any other reported state is returned as it is. *)
Theorem getVMStatus_table (w : World) (vmName imageURL : string) :
  (vmInstanceExists vmName w = false ->
   getVMStatus vmName imageURL w = ("not-created", w))
  /\ (vmInstanceExists vmName w = true ->
      ((showActiveState vmName w).1 = None ->
       (getVMStatus vmName imageURL w).1 = "unknown")
      /\ (forall output : string,
            (showActiveState vmName w).1 = Some output ->
            (Go.TrimSpace output = "inactive" ->
             (getVMStatus vmName imageURL w).1 = "stopped")
            /\ (Go.TrimSpace output = "active" ->
                (isVMReady vmName imageURL (showActiveState vmName w).2).1 = true ->
                (getVMStatus vmName imageURL w).1 = "ready")
            /\ (Go.TrimSpace output = "active" ->
                (isVMReady vmName imageURL (showActiveState vmName w).2).1 = false ->
                (getVMStatus vmName imageURL w).1 = "starting")
            /\ (Go.TrimSpace output <> "inactive" ->
                Go.TrimSpace output <> "active" ->
                (getVMStatus vmName imageURL w).1 = Go.TrimSpace output))).
Proof.
  unfold getVMStatus. split.
  - by intros ->.
  - intros ->. cbn [negb].
    destruct (showActiveState vmName w) as [[output|] w1]; cbn [fst snd].
    + split; [done |]. intros ? [= <-]. split_and!.
      * by intros ->.
      * intros -> Hready. cbn.
        by destruct (isVMReady vmName imageURL w1) as [[] ?]; simplify_eq/=.
      * intros -> Hready. cbn.
        by destruct (isVMReady vmName imageURL w1) as [[] ?]; simplify_eq/=.
      * intros Hi Ha.
        apply String.eqb_neq in Hi, Ha. by rewrite Hi, Ha.
    + split; [done |]. by intros.
Qed.

Lemma getVMStatus_table_witness :
  getVMStatus "web" "https://example/cloud.img" w_demo = ("not-created", w_demo)
  /\ (getVMStatus "web" "https://example/cloud.img" w_failed_unit).1 = "failed".
Proof.
  split.
  - exact (proj1 (getVMStatus_table w_demo "web" "https://example/cloud.img")
             eq_refl).
  - destruct (proj2 (getVMStatus_table w_failed_unit "web"
                       "https://example/cloud.img") eq_refl) as [_ H].
    destruct (H _ eq_refl) as (_ & _ & _ & Hother).
    apply Hother; by vm_compute.
Defined.

(** C4 as the specification states it fails for a state that is neither
    [active] nor [inactive]: the overlay exists, the supervisor reports
    [failed], and the status is [failed], not [stopped]. *)
Lemma failed_unit_is_not_stopped :
  vmInstanceExists "web" w_failed_unit = true
  /\ Go.TrimSpace "failed
" = "failed"
  /\ (showActiveState "web" w_failed_unit).1 = Some "failed
"
  /\ (getVMStatus "web" "https://example/cloud.img" w_failed_unit).1 = "failed"
  /\ (getVMStatus "web" "https://example/cloud.img" w_failed_unit).1 <> "stopped".
Proof. split_and!; by vm_compute. Qed.


(** ** vm.go: the SSH port of a VM *)

Section ports.

(** A directory that holds a [ports.json] shows up in the listing. *)
Lemma subdirs_of_ports (w : World) (vmName : string) (m : PortMetadata) :
  loadPortMetadata vmName w = Ok (Some m) -> vmName ∈ subdirs w.
Proof.
  unfold loadPortMetadata, getPortMetadataPath, getInstanceDir, subdirs.
  intros Hload. apply elem_of_remove_dups, list_elem_of_omap.
  exists [vmName; "ports.json"]. split; [| done].
  apply elem_of_elements, elem_of_dom.
  destruct (files w !! _) as [c|]; [by eexists | done].
Qed.

Lemma recordPort_lookup (w : World) (acc : gmap Z string) (name : string) (p : Z) :
  is_Some (recordPort w acc name !! p) <->
  is_Some (acc !! p)
  \/ (name <> "ssh"
      /\ exists m, loadPortMetadata name w = Ok (Some m)
                   /\ Meta_SSH m = p /\ p > 0).
Proof.
  unfold recordPort.
  destruct (String.eqb_spec name "ssh") as [->|Hname].
  { split; [by left | by intros [?|[? _]]]. }
  destruct (loadPortMetadata name w) as [[m|]|e] eqn:Hload.
  - destruct (Z.gtb_spec (Meta_SSH m) 0) as [Hpos|Hneg].
    + rewrite lookup_insert. case_decide as Hp.
      * split; [| by eexists]. intros _. right. split; [done |].
        exists m. split_and!; [done | done | lia].
      * split; [by left |].
        intros [?|[_ (m' & [= <-] & ? & _)]]; [done | congruence].
    + split; [by left |].
      intros [?|[_ (m' & [= <-] & ? & ?)]]; [done | lia].
  - split; [by left | by intros [?|[_ (? & ? & _)]]].
  - split; [by left | by intros [?|[_ (? & ? & _)]]].
Qed.

Lemma foldl_recordPort_lookup (w : World) (names : list string)
    (acc : gmap Z string) (p : Z) :
  is_Some (foldl (recordPort w) acc names !! p) <->
  is_Some (acc !! p)
  \/ exists name m,
       name ∈ names /\ name <> "ssh"
       /\ loadPortMetadata name w = Ok (Some m) /\ Meta_SSH m = p /\ p > 0.
Proof.
  revert acc. induction names as [|name names IH]; intros acc; simpl.
  - split; [by left |]. intros [?|(? & ? & Hin & _)]; [done |].
    by apply elem_of_nil in Hin.
  - rewrite IH, recordPort_lookup. split.
    + intros [[?|[Hname (m & ? & ? & ?)]]|(n & m & Hin & ?)].
      * by left.
      * right. exists name, m. split; [by left | done].
      * right. exists n, m. split; [by right | done].
    + intros [?|(n & m & Hin & Hrest)]; [by left; left |].
      apply elem_of_cons in Hin as [->|Hin].
      * left. right. destruct Hrest as (? & ? & ? & ?).
        split; [done |]. by exists m.
      * right. by exists n, m.
Qed.

(** The ports in the map of [getAllocatedPorts]: those recorded, and
    positive, in a directory other than [ssh]. *)
Lemma getAllocatedPorts_lookup (w : World) (p : Z) :
  is_Some (getAllocatedPorts w !! p) <->
  exists name m,
    name <> "ssh" /\ loadPortMetadata name w = Ok (Some m)
    /\ Meta_SSH m = p /\ p > 0.
Proof.
  unfold getAllocatedPorts. rewrite foldl_recordPort_lookup, lookup_empty.
  split.
  - intros [[? ?]|(name & m & _ & ?)]; [done | by exists name, m].
  - intros (name & m & Hname & Hload & ?). right. exists name, m.
    split; [by eapply subdirs_of_ports | done].
Qed.

Lemma firstFreePort_Some (al : gmap Z string) (w : World) (n : nat)
    (start p : Z) :
  firstFreePort al w n start = Some p <->
  start <= p < start + Z.of_nat n
  /\ al !! p = None /\ isPortAvailable p w = true
  /\ forall q : Z, start <= q < p ->
       ~ (al !! q = None /\ isPortAvailable q w = true).
Proof.
  revert start. induction n as [|n IH]; intros start; simpl.
  - split; [done | lia].
  - destruct (al !! start) as [v|] eqn:Hal.
    + rewrite IH. split.
      * intros (Hr & Hp & Hf & Hlow).
        split; [lia |]. split_and!; [done | done |].
        intros q Hq. destruct (decide (q = start)) as [->|Hne].
        -- rewrite Hal. by intros [? _].
        -- apply Hlow. lia.
      * intros (Hr & Hp & Hf & Hlow).
        assert (p <> start) by (intros ->; congruence).
        split; [lia |]. split_and!; [done | done |].
        intros q Hq. apply Hlow. lia.
    + destruct (isPortAvailable start w) eqn:Hfree.
      * split.
        -- intros [= <-]. split; [lia |].
           split_and!; [done | done | intros q; lia].
        -- intros (Hr & Hp & Hf & Hlow). f_equal.
           destruct (decide (p = start)) as [->|Hne]; [done |].
           exfalso. apply (Hlow start); [lia | done].
      * rewrite IH. split.
        -- intros (Hr & Hp & Hf & Hlow).
           split; [lia |]. split_and!; [done | done |].
           intros q Hq. destruct (decide (q = start)) as [->|Hne].
           ++ rewrite Hfree. by intros [_ ?].
           ++ apply Hlow. lia.
        -- intros (Hr & Hp & Hf & Hlow).
           assert (p <> start) by (intros ->; congruence).
           split; [lia |]. split_and!; [done | done |].
           intros q Hq. apply Hlow. lia.
Qed.

Lemma firstFreePort_None (al : gmap Z string) (w : World) (n : nat) (start : Z) :
  firstFreePort al w n start = None <->
  forall q : Z, start <= q < start + Z.of_nat n ->
    ~ (al !! q = None /\ isPortAvailable q w = true).
Proof.
  split.
  - intros Hnone q Hq [Hal Hfree].
    destruct (firstFreePort al w n start) as [p|] eqn:Hff; [done |].
    clear Hnone. revert start Hq Hff.
    induction n as [|n IH]; intros start Hq; simpl; [lia |].
    destruct (decide (q = start)) as [->|Hne].
    + by rewrite Hal, Hfree.
    + destruct (al !! start); [| destruct (isPortAvailable start w); [done |]];
        apply IH; lia.
  - intros Hall. destruct (firstFreePort al w n start) as [p|] eqn:Hff; [| done].
    apply firstFreePort_Some in Hff as (Hr & Hp & Hf & _).
    exfalso. by apply (Hall p).
Qed.

(** When the own record cannot be reused, a free port is missing from
    the map of [getAllocatedPorts] exactly when no other directory
    records it. *)
Lemma unallocated_iff_eligible (w : World) (vmName : string) (q : Z) :
  ~ (exists p, reusable w vmName p) ->
  q > 0 ->
  getAllocatedPorts w !! q = None /\ isPortAvailable q w = true
  <-> eligible w vmName q.
Proof.
  intros Hnoreuse Hq. unfold eligible. split.
  - intros [Hal Hfree]. split; [done |].
    intros (other & m & _ & Hssh & Hload & Hm).
    assert (is_Some (getAllocatedPorts w !! q)) as [? ?]; [| congruence].
    apply getAllocatedPorts_lookup. by exists other, m.
  - intros [Hfree Hnot]. split; [| done].
    apply eq_None_not_Some. intros Hsome.
    apply getAllocatedPorts_lookup in Hsome as (name & m & Hssh & Hload & Hm & _).
    destruct (decide (name = vmName)) as [->|Hne].
    + apply Hnoreuse. exists q, m. by split_and!.
    + apply Hnot. by exists name, m.
Qed.

Lemma allocateFreshPort_Ok (w : World) (vmName : string) (p : Z) :
  ~ (exists p, reusable w vmName p) ->
  (allocateFreshPort vmName w).1 = Ok p <->
  2222 <= p <= 2322 /\ eligible w vmName p
  /\ forall q : Z, 2222 <= q < p -> ~ eligible w vmName q.
Proof.
  intros Hnoreuse. unfold allocateFreshPort.
  destruct (firstFreePort _ _ _ _) as [p'|] eqn:Hff; cbn [fst].
  - apply firstFreePort_Some in Hff as (Hr & Hal & Hfree & Hlow).
    unfold startPort, maxPort in *. split.
    + intros [= <-]. split; [lia |]. split.
      * apply unallocated_iff_eligible; [done | lia | done].
      * intros q Hq Hel. apply (Hlow q); [lia |].
        apply unallocated_iff_eligible in Hel; [done.. | lia].
    + intros (Hp & Hel & Hleast). f_equal.
      destruct (Z.lt_trichotomy p p') as [Hlt|[->|Hgt]]; [| done |].
      * exfalso. apply (Hlow p); [lia |].
        apply unallocated_iff_eligible in Hel; [done.. | lia].
      * exfalso. apply (Hleast p'); [lia |].
        apply unallocated_iff_eligible; [done | lia | done].
  - split; [done |]. intros (Hp & Hel & _). exfalso.
    apply (proj1 (firstFreePort_None _ _ _ _) Hff p).
    + unfold startPort, maxPort. lia.
    + apply unallocated_iff_eligible in Hel; [done.. | lia].
Qed.

Lemma allocateFreshPort_exhausted (w : World) (vmName : string) :
  ~ (exists p, reusable w vmName p) ->
  (forall q : Z, 2222 <= q <= 2322 -> ~ eligible w vmName q) ->
  allocateFreshPort vmName w
  = (Err "no available ports in range 2222-2322", w).
Proof.
  intros Hnoreuse Hall. unfold allocateFreshPort.
  destruct (firstFreePort _ _ _ _) as [p|] eqn:Hff; [| done].
  apply firstFreePort_Some in Hff as (Hr & Hal & Hfree & _).
  unfold startPort, maxPort in *. exfalso. apply (Hall p); [lia |].
  apply unallocated_iff_eligible; [done | lia | done].
Qed.

Lemma allocateFreshPort_world (w : World) (vmName : string) (p : Z) :
  (allocateFreshPort vmName w).1 = Ok p ->
  (allocateFreshPort vmName w).2 = savePortMetadata vmName {| Meta_SSH := p |} w.
Proof.
  unfold allocateFreshPort.
  destruct (firstFreePort _ _ _ _) as [p'|]; cbn [fst snd]; [| done].
  by intros [= ->].
Qed.

(** What [savePortMetadata] has written is what [loadPortMetadata]
    reads. *)
Lemma loadPortMetadata_save (vmName : string) (m : PortMetadata) (w : World) :
  loadPortMetadata vmName (savePortMetadata vmName m w) = Ok (Some m).
Proof.
  unfold loadPortMetadata, savePortMetadata, writeFile. cbn.
  by rewrite lookup_insert_eq.
Qed.

(** Without a pinned port and without a reusable record, the code is at
    the allocation loop. *)
Lemma allocateSSHPort_fresh (w : World) (vmName : string) (vm : VM) :
  ~ (exists p, pinned vm p) ->
  ~ (exists p, reusable w vmName p) ->
  allocateSSHPort vmName vm w = allocateFreshPort vmName w.
Proof.
  intros Hnopin Hnoreuse. unfold allocateSSHPort.
  assert (allocateRecordedOrFresh vmName w = allocateFreshPort vmName w) as Hrec.
  { unfold allocateRecordedOrFresh.
    destruct (loadPortMetadata vmName w) as [[m|]|e] eqn:Hload; [| done..].
    destruct (Z.gtb_spec (Meta_SSH m) 0) as [Hpos|]; [| done].
    destruct (isPortAvailable (Meta_SSH m) w) eqn:Hfree; [| done].
    exfalso. apply Hnoreuse. exists (Meta_SSH m), m. split_and!; [done.. | lia | done]. }
  destruct (VM_SSH vm) as [ssh|] eqn:Hssh; [| done].
  destruct (Z.gtb_spec (Port ssh) 0) as [Hpos|]; [| done].
  exfalso. apply Hnopin. exists (Port ssh), ssh. split_and!; [done.. | lia].
Qed.

Lemma allocateSSHPort_pinned (w : World) (vmName : string) (vm : VM) (p : Z) :
  pinned vm p ->
  allocateSSHPort vmName vm w
  = (if isPortAvailable p w then Ok p
     else Err ("specified SSH port " +:+ Go.itoa p +:+ " is already in use"),
     w).
Proof.
  intros (ssh & Hssh & Hport & Hpos). unfold allocateSSHPort.
  rewrite Hssh, Hport.
  destruct (Z.gtb_spec p 0); [| lia].
  by destruct (isPortAvailable p w).
Qed.

Lemma allocateSSHPort_reusable (w : World) (vmName : string) (vm : VM) (p : Z) :
  ~ (exists p, pinned vm p) ->
  reusable w vmName p ->
  allocateSSHPort vmName vm w = (Ok p, w).
Proof.
  intros Hnopin (m & Hload & Hm & Hpos & Hfree). unfold allocateSSHPort.
  assert (allocateRecordedOrFresh vmName w = (Ok p, w)) as Hrec.
  { unfold allocateRecordedOrFresh. rewrite Hload, Hm, Hfree.
    by destruct (Z.gtb_spec p 0); [| lia]. }
  destruct (VM_SSH vm) as [ssh|] eqn:Hssh; [| done].
  destruct (Z.gtb_spec (Port ssh) 0) as [Hp|]; [| done].
  exfalso. apply Hnopin. exists (Port ssh), ssh. split_and!; [done.. | lia].
Qed.

(** Whether a port is pinned, or a record reusable, can be told. *)
Lemma classic_pinned (vm : VM) : (exists p, pinned vm p) \/ ~ (exists p, pinned vm p).
Proof.
  destruct (VM_SSH vm) as [ssh|] eqn:Hssh.
  - destruct (Z.gtb_spec (Port ssh) 0) as [Hpos|Hneg].
    + left. exists (Port ssh), ssh. split_and!; [done.. | lia].
    + right. intros (p & ssh' & Hssh' & Hport & Hp). unfold pinned in *.
      rewrite Hssh in Hssh'. simplify_eq. lia.
  - right. intros (p & ssh' & Hssh' & _). congruence.
Qed.

Lemma classic_reusable (w : World) (vmName : string) :
  (exists p, reusable w vmName p) \/ ~ (exists p, reusable w vmName p).
Proof.
  destruct (loadPortMetadata vmName w) as [[m|]|e] eqn:Hload.
  - destruct (Z.gtb_spec (Meta_SSH m) 0) as [Hpos|Hneg].
    + destruct (isPortAvailable (Meta_SSH m) w) eqn:Hfree.
      * left. exists (Meta_SSH m), m. split_and!; [done.. | lia | done].
      * right. intros (p & m' & Hload' & Hm & _ & Hf).
        rewrite Hload in Hload'. simplify_eq. congruence.
    + right. intros (p & m' & Hload' & Hm & Hp & _).
      rewrite Hload in Hload'. simplify_eq. lia.
  - right. intros (p & m' & Hload' & _). congruence.
  - right. intros (p & m' & Hload' & _). congruence.
Qed.

End ports.

(** [allocateSSHPort], case by case.  A pinned port is returned when it is
    free and refused when it is not.  Without a pinned port, the port
    recorded in the VM's [ports.json] is returned when it is still free.
    Otherwise the result is the first port of [2222, 2322] that is free
    and that no other directory of the workspace records, the directory
    [ssh] left aside; the world changes by one write of the VM's
    [ports.json], which then reads back as that port; and when there is
    no such port the error names the range. *)
Lemma allocateSSHPort_spec (w : World) (vmName : string) (vm : VM) :
  (forall p : Z,
     pinned vm p ->
     allocateSSHPort vmName vm w
     = (if isPortAvailable p w then Ok p
        else Err ("specified SSH port " +:+ Go.itoa p +:+ " is already in use"),
        w))
  /\ (~ (exists p, pinned vm p) ->
      (forall p : Z,
         reusable w vmName p -> allocateSSHPort vmName vm w = (Ok p, w))
      /\ (~ (exists p, reusable w vmName p) ->
          (forall p : Z,
             (allocateSSHPort vmName vm w).1 = Ok p <->
             2222 <= p <= 2322 /\ eligible w vmName p
             /\ forall q : Z, 2222 <= q < p -> ~ eligible w vmName q)
          /\ (forall p : Z,
                (allocateSSHPort vmName vm w).1 = Ok p ->
                (allocateSSHPort vmName vm w).2
                = writeFile (getPortMetadataPath vmName)
                    (PortsJSON {| Meta_SSH := p |}) w
                /\ loadPortMetadata vmName (allocateSSHPort vmName vm w).2
                   = Ok (Some {| Meta_SSH := p |})
                /\ getSSHPort vmName (allocateSSHPort vmName vm w).2 = Ok p)
          /\ ((forall q : Z, 2222 <= q <= 2322 -> ~ eligible w vmName q) ->
              allocateSSHPort vmName vm w
              = (Err "no available ports in range 2222-2322", w)))).
Proof.
  split; [| intros Hnopin; split].
  - intros p Hpin. by apply allocateSSHPort_pinned.
  - intros p Hreuse. by apply allocateSSHPort_reusable.
  - intros Hnoreuse. rewrite (allocateSSHPort_fresh w vmName vm) by done.
    split_and!.
    + intros p. by apply allocateFreshPort_Ok.
    + intros p Hp.
      pose proof (proj1 (allocateFreshPort_Ok w vmName p Hnoreuse) Hp)
        as (Hrange & _).
      rewrite (allocateFreshPort_world w vmName p Hp).
      pose proof (loadPortMetadata_save vmName {| Meta_SSH := p |} w) as Hread.
      split_and!; [done | exact Hread |].
      unfold getSSHPort. rewrite Hread. cbn [Meta_SSH].
      destruct (Z.eqb_spec p 0); [lia | done].
    + by apply allocateFreshPort_exhausted.
Qed.

Lemma allocateSSHPort_spec_witness :
  (allocateSSHPort "web" plain_vm w_demo).1 = Ok 2222
  /\ getSSHPort "web" (allocateSSHPort "web" plain_vm w_demo).2 = Ok 2222.
Proof.
  assert (~ (exists p, pinned plain_vm p)) as Hnopin.
  { by intros (p & ssh & Hssh & _). }
  assert (~ (exists p, reusable w_demo "web" p)) as Hnoreuse.
  { by intros (p & m & Hload & _). }
  assert (forall p, ~ recordedElsewhere w_demo "web" p) as Hnone.
  { by intros p (other & m & _ & _ & Hload & _). }
  destruct (proj2 (allocateSSHPort_spec w_demo "web" plain_vm) Hnopin)
    as [_ Hfresh].
  destruct (Hfresh Hnoreuse) as (Hfirst & Hsaved & _).
  assert ((allocateSSHPort "web" plain_vm w_demo).1 = Ok 2222) as Hport.
  { apply Hfirst. split; [lia |]. split.
    - split; [reflexivity | apply Hnone].
    - intros q Hq. lia. }
  split; [exact Hport |]. by destruct (Hsaved 2222 Hport) as (_ & _ & Hread).
Defined.

(** C5 at the failing input: a project with a VM named [ssh], stopped
    when the VM [web] is started.  The directory of that VM is the one
    [getAllocatedPorts] skips, so the port recorded for it is not among
    the allocated ones and is handed to [web] as well: afterwards both
    [ports.json] record the port 2222.  With any other name for the
    first VM, [db] say, [web] is given the next port. *)
Theorem port_of_vm_ssh_given_twice :
  (allocateSSHPort "ssh" plain_vm w_demo).1 = Ok 2222
  /\ loadPortMetadata "ssh" (allocateSSHPort "ssh" plain_vm w_demo).2
     = Ok (Some {| Meta_SSH := 2222 |})
  /\ getAllocatedPorts (allocateSSHPort "ssh" plain_vm w_demo).2 !! 2222 = None
  /\ (allocateSSHPort "web" plain_vm
        (allocateSSHPort "ssh" plain_vm w_demo).2).1 = Ok 2222
  /\ loadPortMetadata "ssh"
       (allocateSSHPort "web" plain_vm
          (allocateSSHPort "ssh" plain_vm w_demo).2).2
     = Ok (Some {| Meta_SSH := 2222 |})
  /\ loadPortMetadata "web"
       (allocateSSHPort "web" plain_vm
          (allocateSSHPort "ssh" plain_vm w_demo).2).2
     = Ok (Some {| Meta_SSH := 2222 |})
  /\ (allocateSSHPort "web" plain_vm
        (allocateSSHPort "db" plain_vm w_demo).2).1 = Ok 2223.
Proof. split_and!; by vm_compute. Qed.

(** C10.  With a port pinned in the configuration, [allocateSSHPort]
    returns it when it is free and an error when it is busy, and in both
    cases hands back the world unchanged.  For any call, the world
    changes only on the allocation path, and then by the one write of the
    VM's [ports.json]. *)
Theorem pinned_port_not_persisted
    (w : World) (vmName : string) (vm : VM) (ssh : SSH) :
  VM_SSH vm = Some ssh ->
  Port ssh > 0 ->
  (isPortAvailable (Port ssh) w = true ->
   allocateSSHPort vmName vm w = (Ok (Port ssh), w))
  /\ (isPortAvailable (Port ssh) w = false ->
      exists e, allocateSSHPort vmName vm w = (Err e, w))
  /\ (forall (w0 : World) (name : string) (vm0 : VM),
        (allocateSSHPort name vm0 w0).2 = w0
        \/ (~ (exists p, pinned vm0 p)
            /\ ~ (exists p, reusable w0 name p)
            /\ exists port,
                 2222 <= port <= 2322
                 /\ allocateSSHPort name vm0 w0
                    = (Ok port,
                       writeFile (getPortMetadataPath name)
                         (PortsJSON {| Meta_SSH := port |}) w0))).
Proof.
  intros Hssh Hpos. split_and!.
  - intros Hfree. unfold allocateSSHPort. rewrite Hssh, Hfree.
    by destruct (Z.gtb_spec (Port ssh) 0); [| lia].
  - intros Hbusy. unfold allocateSSHPort. rewrite Hssh, Hbusy.
    destruct (Z.gtb_spec (Port ssh) 0); [| lia]. by eexists.
  - intros w0 name vm0.
    destruct (classic_pinned vm0) as [[p Hp]|Hnopin].
    { left. by rewrite (allocateSSHPort_pinned w0 name vm0 p Hp). }
    destruct (classic_reusable w0 name) as [[p Hp]|Hnoreuse].
    { left. by rewrite (allocateSSHPort_reusable w0 name vm0 p Hnopin Hp). }
    rewrite (allocateSSHPort_fresh w0 name vm0) by done.
    destruct (allocateFreshPort name w0) as [[port|e] w1] eqn:Halloc.
    + right. split_and!; [done | done |]. exists port.
      pose proof (proj1 (allocateFreshPort_Ok w0 name port Hnoreuse)) as Hfirst.
      pose proof (allocateFreshPort_world w0 name port) as Hworld.
      rewrite Halloc in Hfirst, Hworld. cbn [fst snd] in Hfirst, Hworld.
      split; [by apply Hfirst |].
      f_equal. exact (Hworld eq_refl).
    + left. unfold allocateFreshPort in Halloc.
      destruct (firstFreePort _ _ _ _); by simplify_eq/=.
Qed.

Lemma pinned_port_not_persisted_witness :
  allocateSSHPort "web" pinned_vm w_demo = (Ok 2200, w_demo).
Proof.
  exact (proj1 (pinned_port_not_persisted w_demo "web" pinned_vm
                  {| Port := 2200 |} eq_refl eq_refl) eq_refl).
Defined.


(** ** image.go: the overlay disk and its declared size *)

Section disks.

Lemma disk_path_ne_metadata (vmName : string) :
  getInstanceDir vmName ++ ["disk.qcow2"] <> getDiskMetadataPath vmName.
Proof. unfold getDiskMetadataPath, getInstanceDir. simpl. congruence. Qed.

(** What [createInstanceDisk] does when the overlay is there. *)
Lemma createInstanceDisk_existing (w : World) (vmName base : string)
    (diskConfig : option Disk) :
  stat (getInstanceDir vmName ++ ["disk.qcow2"]) w = true ->
  createInstanceDisk vmName base diskConfig w
  = (Ok (abs w (getInstanceDir vmName ++ ["disk.qcow2"])),
     match loadDiskMetadata vmName w with
     | Err _ =>
         print "  ⚠ Warning: could not verify disk size (metadata error)" w
     | Ok None =>
         saveDiskMetadata vmName {| Meta_Size := declaredSize diskConfig |} w
     | Ok (Some metadata) =>
         if String.eqb (Meta_Size metadata) (declaredSize diskConfig) then w
         else
           {| cwd := cwd w; pid := pid w; files := files w;
              host_exists := host_exists w; port_free := port_free w;
              run := run w; remove_all := remove_all w;
              links := links w; link_del := link_del w;
              trace := trace w
                         ++ driftWarning vmName (declaredSize diskConfig)
                              (Meta_Size metadata) |}
     end).
Proof.
  intros Hdisk. unfold createInstanceDisk. rewrite Hdisk. f_equal.
  destruct (loadDiskMetadata vmName w) as [[m|]|e]; [| done..].
  destruct (String.eqb (Meta_Size m) (declaredSize diskConfig)); [done |].
  cbn [negb]. unfold print, emit, driftWarning. cbn.
  by rewrite <-!app_assoc.
Qed.

End disks.

(** C6.  When the overlay disk of the VM exists, [createInstanceDisk]
    succeeds, leaves the disk as it is and runs no command, so no resize.
    If the size stored in [disk.metadata.json] differs from the declared
    one, no file changes, the stored size reads back as before and
    exactly the three warning lines are printed, the last one telling how
    to get the new size.  If the metadata file is missing, the world
    changes by one write of [disk.metadata.json], which then reads back
    as the declared size; no other file changes and nothing is printed.
    In any run, a resize command is issued only when the overlay did not
    exist, and then to the declared size. *)
Theorem disk_size_drift (w : World) (vmName base : string)
    (diskConfig : option Disk) :
  (stat (getInstanceDir vmName ++ ["disk.qcow2"]) w = true ->
   (createInstanceDisk vmName base diskConfig w).1
   = Ok (abs w (getInstanceDir vmName ++ ["disk.qcow2"]))
   /\ files (createInstanceDisk vmName base diskConfig w).2
        !! (getInstanceDir vmName ++ ["disk.qcow2"])
      = files w !! (getInstanceDir vmName ++ ["disk.qcow2"])
   /\ (forall argv,
         Ran argv ∈ trace (createInstanceDisk vmName base diskConfig w).2 ->
         Ran argv ∈ trace w)
   /\ (forall m : DiskMetadata,
         loadDiskMetadata vmName w = Ok (Some m) ->
         Meta_Size m <> declaredSize diskConfig ->
         files (createInstanceDisk vmName base diskConfig w).2 = files w
         /\ loadDiskMetadata vmName (createInstanceDisk vmName base diskConfig w).2
            = Ok (Some m)
         /\ trace (createInstanceDisk vmName base diskConfig w).2
            = trace w
                ++ driftWarning vmName (declaredSize diskConfig) (Meta_Size m))
   /\ (loadDiskMetadata vmName w = Ok None ->
       (createInstanceDisk vmName base diskConfig w).2
       = writeFile (getInstanceDir vmName ++ ["disk.metadata.json"])
           (DiskJSON {| Meta_Size := declaredSize diskConfig |}) w
       /\ loadDiskMetadata vmName (createInstanceDisk vmName base diskConfig w).2
          = Ok (Some {| Meta_Size := declaredSize diskConfig |})
       /\ (forall q, q <> getInstanceDir vmName ++ ["disk.metadata.json"] ->
             files (createInstanceDisk vmName base diskConfig w).2 !! q
             = files w !! q)
       /\ trace (createInstanceDisk vmName base diskConfig w).2 = trace w))
  /\ (forall path size : string,
        Ran ["qemu-img"; "resize"; path; size]
          ∈ trace (createInstanceDisk vmName base diskConfig w).2 ->
        Ran ["qemu-img"; "resize"; path; size] ∉ trace w ->
        stat (getInstanceDir vmName ++ ["disk.qcow2"]) w = false
        /\ size = declaredSize diskConfig).
Proof.
  assert (stat (getInstanceDir vmName ++ ["disk.qcow2"]) w = true ->
     forall argv,
       Ran argv ∈ trace (createInstanceDisk vmName base diskConfig w).2 ->
       Ran argv ∈ trace w) as Hquiet.
  { intros Hdisk argv.
    rewrite (createInstanceDisk_existing w vmName base diskConfig Hdisk).
    cbn [snd]. destruct (loadDiskMetadata vmName w) as [[m|]|e]; cbn.
    - destruct (String.eqb _ _); cbn; [done |]. unfold driftWarning.
      rewrite !elem_of_app, !elem_of_cons, !elem_of_nil.
      intros H; decompose [or] H; by simplify_eq.
    - done.
    - rewrite !elem_of_app, !elem_of_cons, !elem_of_nil.
      intros H; decompose [or] H; by simplify_eq. }
  split.
  - intros Hdisk. split_and!.
    + by rewrite (createInstanceDisk_existing w vmName base diskConfig Hdisk).
    + rewrite (createInstanceDisk_existing w vmName base diskConfig Hdisk).
      cbn [snd]. destruct (loadDiskMetadata vmName w) as [[m|]|e]; cbn.
      * by destruct (String.eqb _ _).
      * rewrite lookup_insert_ne; [done |].
        intros Heq. by apply (disk_path_ne_metadata vmName).
      * done.
    + by apply Hquiet.
    + intros m Hload Hsize.
      rewrite (createInstanceDisk_existing w vmName base diskConfig Hdisk).
      cbn [snd]. rewrite Hload.
      apply String.eqb_neq in Hsize. by rewrite Hsize.
    + intros Hload.
      rewrite (createInstanceDisk_existing w vmName base diskConfig Hdisk).
      cbn [snd]. rewrite Hload.
      unfold saveDiskMetadata, getDiskMetadataPath, loadDiskMetadata, writeFile.
      cbn [files set_files trace].
      split_and!; [done | by rewrite lookup_insert_eq | | done].
      intros q Hq. by rewrite lookup_insert_ne.
  - intros path size Hin Hnew.
    destruct (stat (getInstanceDir vmName ++ ["disk.qcow2"]) w) eqn:Hdisk.
    { exfalso. apply Hnew. by apply Hquiet. }
    split; [done |]. revert Hin.
    unfold createInstanceDisk. rewrite Hdisk.
    unfold exec. destruct (run w _); cbn.
    + unfold resizeInstanceDisk, exec. cbn.
      destruct (run w _); cbn;
        rewrite !elem_of_app, !elem_of_cons, !elem_of_nil;
        intros H; decompose [or] H; by simplify_eq.
    + rewrite !elem_of_app, !elem_of_cons, !elem_of_nil.
      intros H; decompose [or] H; by simplify_eq.
Qed.

Lemma disk_size_drift_witness :
  ((createInstanceDisk "web" "/images/cloud.img"
      (Some {| Disk_Size := "20G" |}) w_disk_5G).1
   = Ok "/home/dev/demo/.qemu-compose/web/disk.qcow2"
   /\ files (createInstanceDisk "web" "/images/cloud.img"
               (Some {| Disk_Size := "20G" |}) w_disk_5G).2
      = files w_disk_5G
   /\ trace (createInstanceDisk "web" "/images/cloud.img"
               (Some {| Disk_Size := "20G" |}) w_disk_5G).2
      = driftWarning "web" "20G" "5G")
  /\ loadDiskMetadata "web"
       (createInstanceDisk "web" "/images/cloud.img"
          (Some {| Disk_Size := "20G" |}) w_failed_unit).2
     = Ok (Some {| Meta_Size := "20G" |}).
Proof.
  assert (stat (getInstanceDir "web" ++ ["disk.qcow2"]) w_disk_5G = true)
    as Hdisk by (by vm_compute).
  assert (stat (getInstanceDir "web" ++ ["disk.qcow2"]) w_failed_unit = true)
    as Hdisk' by (by vm_compute).
  destruct (proj1 (disk_size_drift w_disk_5G "web" "/images/cloud.img"
                     (Some {| Disk_Size := "20G" |})) Hdisk)
    as (Hres & _ & _ & Hdrift & _).
  destruct (proj1 (disk_size_drift w_failed_unit "web" "/images/cloud.img"
                     (Some {| Disk_Size := "20G" |})) Hdisk')
    as (_ & _ & _ & _ & Hfill).
  destruct (Hdrift {| Meta_Size := "5G" |} eq_refl ltac:(discriminate))
    as (Hfiles & _ & Htrace).
  destruct (Hfill eq_refl) as (_ & Hread & _).
  split; [| exact Hread].
  split_and!; [exact Hres | exact Hfiles | exact Htrace].
Defined.


(** ** vm.go: MAC addresses *)

Section macs.




Lemma deviceArgs_userNicArgs (vmName : string) (netIndex sshPort : Z) (w : World) :
  deviceArgs (userNicArgs vmName netIndex sshPort w)
  = [nicDevice netIndex (generateMACAddress vmName netIndex w)].
Proof.
  unfold userNicArgs. cbn [deviceArgs].
  replace (String.eqb "-netdev" "-device") with false by done.
  by change (String.eqb "-device" "-device") with true.
Qed.














(** The file [network-config] of a VM without bridge networks, and of
    one without any interface. *)
Example networkConfig_user_nic :
  networkConfig (macAddresses "web" plain_vm 2222 w_demo)
  = Some ("network:" +:+ newline
            +:+ "  version: 2" +:+ newline
            +:+ "  ethernets:" +:+ newline
            +:+ "    net0:" +:+ newline
            +:+ "      match:" +:+ newline
            +:+ "        macaddress: " +:+ dquote +:+ "52:54:00:f8:55:93"
            +:+ dquote +:+ newline
            +:+ "      dhcp4: true" +:+ newline
            +:+ "      set-name: net0" +:+ newline).
Proof. by vm_compute. Qed.

Example networkConfig_none :
  networkConfig (macAddresses "web" plain_vm 0 w_demo) = None.
Proof. by vm_compute. Qed.

End macs.




(** ** Loading the compose file, and the checks made when a VM starts *)

Section loading.

Lemma decodeVolumes_Err (ns : list VolumeNode) (n : VolumeNode) :
  n ∈ ns -> is_err (decodeVolume n) = true -> is_err (decodeVolumes ns) = true.
Proof.
  induction ns as [|n0 ns IH]; intros Hin Herr.
  - by apply elem_of_nil in Hin.
  - simpl. apply elem_of_cons in Hin as [<-|Hin].
    + by destruct (decodeVolume n).
    + destruct (decodeVolume n0); [| done].
      specialize (IH Hin Herr). by destruct (decodeVolumes ns).
Qed.

Lemma decodeVMs_Err (ns : list (string * VMNode)) (name : string) (node : VMNode) :
  (name, node) ∈ ns -> is_err (decodeVM node) = true ->
  is_err (decodeVMs ns) = true.
Proof.
  induction ns as [|[name0 node0] ns IH]; intros Hin Herr.
  - by apply elem_of_nil in Hin.
  - simpl. apply elem_of_cons in Hin as [[= <- <-]|Hin].
    + by destruct (decodeVM node).
    + destruct (decodeVM node0); [| done].
      specialize (IH Hin Herr). by destruct (decodeVMs ns).
Qed.

(** A short-form volume entry that [parseShortForm] rejects makes the
    load fail. *)
Lemma loadComposeFile_bad_volume (doc : Document) (name : string)
    (node : VMNode) (text : string) :
  (name, node) ∈ d_vms doc -> ScalarNode text ∈ n_volumes node ->
  is_err (parseShortForm text) = true ->
  is_err (loadComposeFile (Parsed doc)) = true.
Proof.
  intros Hvm Hvol Herr. unfold loadComposeFile, decodeDocument.
  assert (is_err (decodeVMs (d_vms doc)) = true) as Hvms.
  { apply (decodeVMs_Err _ name node Hvm). unfold decodeVM.
    pose proof (decodeVolumes_Err _ (ScalarNode text) Hvol Herr).
    by destruct (decodeVolumes (n_volumes node)). }
  by destruct (decodeVMs (d_vms doc)).
Qed.

(** The short forms that [parseShortForm] rejects. *)
Lemma parseShortForm_unknown_flag (source target : string) (flags : list string) :
  Forall (fun f => colon_free f = true) (source :: target :: flags) ->
  (exists f, f ∈ flags /\ f <> "ro") ->
  is_err (parseShortForm (Go.Join (source :: target :: flags) ":")) = true.
Proof.
  intros Hall Hex. unfold parseShortForm. rewrite Split_Join by done.
  destruct (parseFlags_unknown flags false Hex) as (f & _ & _ & ->). done.
Qed.

Lemma parseShortForm_one_part (spec : string) :
  colon_free spec = true -> is_err (parseShortForm spec) = true.
Proof. intros H. unfold parseShortForm. by rewrite Split_colon_free. Qed.

(** [parseVMVolumes] stops at a target that is not absolute, if it has
    not stopped before. *)
Lemma parseVolumeList_relative_target (vmName : string)
    (volumes : list VolumeMount) (config : ComposeConfig)
    (composeFilePath : string) (w : World) (v : VolumeMount) :
  v ∈ volumes -> Go.HasPrefix (Target v) "/" = false ->
  is_err (parseVolumeList vmName volumes config composeFilePath w).1 = true.
Proof.
  revert w. induction volumes as [|v0 volumes IH]; intros w Hin Hrel.
  - by apply elem_of_nil in Hin.
  - simpl. apply elem_of_cons in Hin as [<-|Hin].
    + unfold parseVMVolume. by rewrite Hrel.
    + destruct (parseVMVolume vmName v0 config composeFilePath w)
        as [[mount|e] w1]; [| done].
      specialize (IH w1 Hin Hrel).
      by destruct (parseVolumeList vmName volumes config composeFilePath w1)
        as [[?|?] ?].
Qed.

Lemma loadVolumeMetadata_save (m : gmap string VolumeMetadata) (w : World) :
  loadVolumeMetadata (saveVolumeMetadata m w) = Ok m.
Proof.
  unfold loadVolumeMetadata, saveVolumeMetadata, writeFile. cbn.
  by rewrite lookup_insert_eq.
Qed.

(** Creating a declared volume records no other name. *)
Lemma ensureVolumeExists_unrecorded (source name : string)
    (config : ComposeConfig) (w w1 : World) :
  Cfg_Volumes config !! source = None -> unrecorded source w ->
  ensureVolumeExists name config w = (Ok tt, w1) ->
  unrecorded source w1.
Proof.
  intros Hcfg Hun. unfold ensureVolumeExists.
  destruct (loadVolumeMetadata w) as [m|e] eqn:Hload; [| done].
  destruct (m !! name) eqn:Hname; [by intros [= <-] |].
  destruct (Cfg_Volumes config !! name) as [volumeConfig|] eqn:Hdecl; [| done].
  assert (name <> source) as Hne by congruence.
  unfold createNamedVolume. rewrite Hload, Hname.
  destruct (exec _ w) as [[out|] w2]; [| done].
  destruct (formatVolumeDisk _ _) as [[[]|e] w3]; [| done].
  intros [= <-] m' Hm'. rewrite loadVolumeMetadata_save in Hm'.
  injection Hm' as <-. rewrite lookup_insert_ne by done. by apply Hun.
Qed.

Lemma parseVMVolume_unrecorded (source vmName : string) (v0 : VolumeMount)
    (config : ComposeConfig) (composeFilePath : string) (w w1 : World)
    (mount : VMVolumeMount) :
  Cfg_Volumes config !! source = None -> unrecorded source w ->
  parseVMVolume vmName v0 config composeFilePath w = (Ok mount, w1) ->
  unrecorded source w1.
Proof.
  intros Hcfg Hun. unfold parseVMVolume.
  destruct (negb (Go.HasPrefix (Target v0) "/")); [done |].
  destruct (isBindMount (Source v0)).
  - destruct (resolveBindMountPath _ _ _); [| done]. by intros [= _ <-].
  - destruct (ensureVolumeExists (Source v0) config w) as [[[]|e] w2] eqn:Hens;
      [| done].
    destruct (getVolumeDiskPath (Source v0) w2); [| done].
    intros [= _ <-]. by eapply ensureVolumeExists_unrecorded.
Qed.

(** [parseVMVolumes] stops at a named volume that is neither declared
    nor recorded, if it has not stopped before. *)
Lemma parseVolumeList_undeclared (vmName : string)
    (volumes : list VolumeMount) (config : ComposeConfig)
    (composeFilePath : string) (w : World) (v : VolumeMount) :
  v ∈ volumes -> isBindMount (Source v) = false ->
  Cfg_Volumes config !! Source v = None -> unrecorded (Source v) w ->
  is_err (parseVolumeList vmName volumes config composeFilePath w).1 = true.
Proof.
  intros Hin Hnamed Hcfg. revert w Hin.
  induction volumes as [|v0 volumes IH]; intros w Hin Hun.
  - by apply elem_of_nil in Hin.
  - simpl. apply elem_of_cons in Hin as [<-|Hin].
    + unfold parseVMVolume.
      destruct (negb (Go.HasPrefix (Target v) "/")); [done |].
      rewrite Hnamed. unfold ensureVolumeExists.
      destruct (loadVolumeMetadata w) as [m|e] eqn:Hload; [| done].
      by rewrite (Hun m Hload), Hcfg.
    + destruct (parseVMVolume vmName v0 config composeFilePath w)
        as [[mount|e] w1] eqn:Hstep; [| done].
      assert (unrecorded (Source v) w1) as Hun1
        by (by eapply parseVMVolume_unrecorded).
      specialize (IH w1 Hin Hun1).
      by destruct (parseVolumeList vmName volumes config composeFilePath w1)
        as [[?|?] ?].
Qed.

End loading.

(** C3, as the code has it.  Loading the compose file is a function of
    the file alone, so it precedes every side effect; it fails on a
    malformed document and on a short-form volume entry with a flag other
    than [ro] or with fewer than two parts.  A target that is not
    absolute, and a named volume that is neither declared at top level
    nor recorded in [volumes.json], are rejected by [parseVMVolumes],
    which runs when the VM is started. *)
Theorem load_time_rejection (w : World) (vmName : string) (vm : VM)
    (config : ComposeConfig) (composeFilePath : string) :
  (forall err : string, is_err (loadComposeFile (Malformed err)) = true)
  /\ (forall (doc : Document) (name : string) (node : VMNode)
             (source target : string) (flags : list string),
        (name, node) ∈ d_vms doc ->
        ScalarNode (Go.Join (source :: target :: flags) ":") ∈ n_volumes node ->
        Forall (fun f => colon_free f = true) (source :: target :: flags) ->
        (exists f, f ∈ flags /\ f <> "ro") ->
        is_err (loadComposeFile (Parsed doc)) = true)
  /\ (forall (doc : Document) (name : string) (node : VMNode) (spec : string),
        (name, node) ∈ d_vms doc ->
        ScalarNode spec ∈ n_volumes node ->
        colon_free spec = true ->
        is_err (loadComposeFile (Parsed doc)) = true)
  /\ (forall v : VolumeMount,
        v ∈ Volumes vm ->
        Go.HasPrefix (Target v) "/" = false ->
        is_err (parseVMVolumes vmName vm config composeFilePath w).1 = true)
  /\ (forall v : VolumeMount,
        v ∈ Volumes vm ->
        isBindMount (Source v) = false ->
        Cfg_Volumes config !! Source v = None ->
        unrecorded (Source v) w ->
        is_err (parseVMVolumes vmName vm config composeFilePath w).1 = true).
Proof.
  split_and!.
  - done.
  - intros doc name node source target flags Hvm Hvol Hfree Hflag.
    apply (loadComposeFile_bad_volume doc name node _ Hvm Hvol).
    by apply parseShortForm_unknown_flag.
  - intros doc name node spec Hvm Hvol Hfree.
    apply (loadComposeFile_bad_volume doc name node _ Hvm Hvol).
    by apply parseShortForm_one_part.
  - intros v Hin Hrel. by eapply parseVolumeList_relative_target.
  - intros v Hin Hnamed Hcfg Hun. by eapply parseVolumeList_undeclared.
Qed.

Lemma load_time_rejection_witness :
  is_err (loadComposeFile (Parsed doc_bad_flag)) = true.
Proof.
  destruct (load_time_rejection w_demo "web" plain_vm
              {| Version := "1.0"; Cfg_Networks := ∅; Cfg_Volumes := ∅;
                 VMs := ∅ |} "/home/dev/demo/qemu-compose.yaml")
    as (_ & Hflag & _).
  apply (Hflag doc_bad_flag "web" node_bad_flag "./cfg" "/etc/app" ["rw"]).
  - apply list_elem_of_here.
  - apply list_elem_of_here.
  - by repeat constructor.
  - exists "rw". split; [apply list_elem_of_here | discriminate].
Defined.

(** C3 as the specification states it fails: a document whose VM has no
    image, cpu or memory, and mounts an undeclared named volume on a
    relative target, loads without error. *)
Lemma loose_document_loads :
  exists config vm v,
    loadComposeFile (Parsed doc_loose) = Ok config
    /\ VMs config !! "web" = Some vm
    /\ Image vm = "" /\ CPU vm = 0 /\ Memory vm = 0
    /\ Volumes vm = [v]
    /\ Source v = "ghost" /\ Target v = "data/dir"
    /\ Go.HasPrefix (Target v) "/" = false
    /\ isBindMount (Source v) = false
    /\ Cfg_Volumes config !! Source v = None.
Proof. do 3 eexists. split_and!; by vm_compute. Qed.


(** ** destroy and the named volumes *)

Section destroy.

(** Only [writeFile] and [removeAll] touch the files. *)
Lemma files_exec (argv : list string) (w : World) :
  files (exec argv w).2 = files w.
Proof. done. Qed.

Lemma files_print (line : string) (w : World) : files (print line w) = files w.
Proof. done. Qed.

(** [linkDel] changes the interfaces only. *)
Lemma linkDel_frame (name : string) (w : World) :
  files (linkDel name w).2 = files w
  /\ cwd (linkDel name w).2 = cwd w
  /\ run (linkDel name w).2 = run w
  /\ trace (linkDel name w).2 = trace w
  /\ link_del (linkDel name w).2 = link_del w.
Proof.
  unfold linkDel. case_bool_decide; [destruct (link_del w name) |]; done.
Qed.

Lemma files_linkDel (name : string) (w : World) :
  files (linkDel name w).2 = files w.
Proof. apply linkDel_frame. Qed.

(** Both deletions leave the world of their [linkDel]. *)
Lemma deleteTAPDevice_world (tapName : string) (w : World) :
  (deleteTAPDevice tapName w).2 = (linkDel tapName w).2.
Proof. unfold deleteTAPDevice. by destruct (linkDel tapName w) as [[[]|] w1]. Qed.

Lemma files_isVMRunning (vmName : string) (w : World) :
  files (isVMRunning vmName w).2 = files w.
Proof. unfold isVMRunning, exec. by destruct (run w _). Qed.

Lemma files_cleanupTAPs (vmName : string) (nets : list string) (i : Z) (w : World) :
  files (cleanupTAPs vmName nets i w) = files w.
Proof.
  revert i w. induction nets as [|net nets IH]; intros i w; [done |].
  cbn [cleanupTAPs].
  pose proof (deleteTAPDevice_world (getTAPName vmName i w) w) as Hw.
  destruct (deleteTAPDevice _ w) as [r w1]. cbn [snd] in Hw. subst w1.
  by rewrite IH, files_linkDel.
Qed.

Lemma files_stopVM (vmName : string) (vm : VM) (w : World) :
  files (stopVM vmName vm w).2 = files w.
Proof.
  unfold stopVM, exec. destruct (run w _); [| done].
  destruct (_ >? 0); [| done]. cbn. by rewrite files_cleanupTAPs.
Qed.

Lemma lookup_removeAll (p q : list string) (w : World) :
  ~ p `prefix_of` q -> files (removeAll p w).2 !! q = files w !! q.
Proof.
  intros Hpq. unfold removeAll.
  destruct (remove_all w p) as [kept|]; cbn [snd files set_files];
    (destruct (files w !! q) as [c|] eqn:Hq;
       [apply map_lookup_filter_Some; split; [done | cbn; tauto]
       | apply map_lookup_filter_None; by left]).
Qed.

(** Removing the directory of a VM keeps every path outside of it. *)
Lemma lookup_removeInstanceDisk (vmName : string) (q : list string) (w : World) :
  ~ [vmName] `prefix_of` q ->
  files (removeInstanceDisk vmName w).2 !! q = files w !! q.
Proof.
  intros Hq. unfold removeInstanceDisk.
  destruct (negb _); [done |].
  pose proof (lookup_removeAll [vmName] q w Hq) as Hrm.
  by destruct (removeAll [vmName] w) as [[] w1].
Qed.

Lemma volume_path_outside (vmName : string) (q : list string) :
  volume_path q -> vmName <> "volumes" -> vmName <> "volumes.json" ->
  ~ [vmName] `prefix_of` q.
Proof.
  intros [->|[rest ->]] Hv Hj [k Hk]; simplify_eq/=.
Qed.

Lemma lookup_destroyVM (hasError : bool) (w : World) (vmName : string)
    (vm : VM) (q : list string) :
  volume_path q -> vmName <> "volumes" -> vmName <> "volumes.json" ->
  files (destroyVM (hasError, w) (vmName, vm)).2 !! q = files w !! q.
Proof.
  intros Hq Hv Hj. unfold destroyVM.
  pose proof (files_isVMRunning vmName (print ("VM: " +:+ vmName) w)) as Hrun.
  destruct (isVMRunning vmName _) as [running w1]. cbn [snd] in Hrun.
  rewrite files_print in Hrun.
  assert (forall w2, files w2 = files w ->
            files (match removeInstanceDisk vmName w2 with
                   | (Err e, w3) =>
                       (true, print ("  ✗ Error removing instance disk: " +:+ e) w3)
                   | (Ok _, w3) => (hasError, print "  ✓ Instance disk removed" w3)
                   end).2 !! q = files w !! q) as Hremove.
  { intros w2 Hw2.
    pose proof (lookup_removeInstanceDisk vmName q w2
                  (volume_path_outside vmName q Hq Hv Hj)) as Hrm.
    destruct (removeInstanceDisk vmName w2) as [[[]|e] w3]; cbn [snd] in *;
      by rewrite files_print, Hrm, Hw2. }
  destruct running.
  - pose proof (files_stopVM vmName vm w1) as Hstop.
    destruct (stopVM vmName vm w1) as [[[]|e] w2]; cbn [snd] in Hstop.
    + destruct (_ >? 0); apply Hremove.
      * rewrite files_print. cbn. by rewrite files_cleanupTAPs, files_print, Hstop.
      * by rewrite files_print, Hstop.
    + cbn. by rewrite Hstop, Hrun.
  - destruct (_ >? 0); apply Hremove.
    + rewrite files_print. cbn. by rewrite files_cleanupTAPs.
    + by rewrite files_print.
Qed.

Lemma lookup_destroyVMs (entries : list (string * VM)) (hasError : bool)
    (w : World) (q : list string) :
  volume_path q ->
  Forall (fun entry => entry.1 <> "volumes" /\ entry.1 <> "volumes.json") entries ->
  files (foldl destroyVM (hasError, w) entries).2 !! q = files w !! q.
Proof.
  intros Hq. revert hasError w.
  induction entries as [|[vmName vm] entries IH]; intros hasError w Hall;
    [done |].
  inversion Hall as [|? ? [Hv Hj] Hrest]; subst. cbn [foldl].
  destruct (destroyVM (hasError, w) (vmName, vm)) as [hasError' w1] eqn:Hstep.
  rewrite IH by done.
  change w1 with (hasError', w1).2. rewrite <-Hstep.
  by apply lookup_destroyVM.
Qed.

Lemma volume_path_ne_networks (q : list string) :
  volume_path q -> q <> getNetworkMetadataPath.
Proof. by intros [->|[rest ->]]. Qed.

Lemma lookup_saveNetworkMetadata (m : gmap string NetworkMetadata) (w : World)
    (q : list string) :
  volume_path q -> files (saveNetworkMetadata m w) !! q = files w !! q.
Proof.
  intros Hq. unfold saveNetworkMetadata, writeFile. cbn.
  apply lookup_insert_ne. symmetry. by apply volume_path_ne_networks.
Qed.

Lemma lookup_deleteBridge (networkName : string) (w : World) (q : list string) :
  volume_path q -> files (deleteBridge networkName w).2 !! q = files w !! q.
Proof.
  intros Hq. unfold deleteBridge.
  assert (files (stopDnsmasq networkName w).2 !! q = files w !! q) as Hstop.
  { unfold stopDnsmasq, exec. cbv beta iota zeta.
    destruct (loadNetworkMetadata _) as [m|e]; [| done].
    destruct (m !! networkName); [| done].
    cbn [snd]. by rewrite lookup_saveNetworkMetadata. }
  destruct (stopDnsmasq networkName w) as [r w1]. cbn [snd] in *.
  match goal with
  | |- context [linkDel ?b ?w2] =>
      pose proof (files_linkDel b w2) as Hdel;
      destruct (linkDel b w2) as [[[]|] w3]; cbn [snd] in *; rewrite Hdel
  end;
    (destruct (loadNetworkMetadata w1) as [m|e]; [| done];
     by destruct (m !! networkName)).
Qed.

Lemma lookup_destroyBridges (names : list string) (hasError : bool) (w : World)
    (q : list string) :
  volume_path q ->
  files (foldl destroyBridge (hasError, w) names).2 !! q = files w !! q.
Proof.
  intros Hq. revert hasError w.
  induction names as [|name names IH]; intros hasError w; [done |].
  cbn [foldl]. unfold destroyBridge at 2.
  pose proof (lookup_deleteBridge name w q Hq) as Hdel.
  destruct (deleteBridge name w) as [[[]|e] w1]; cbn [snd] in Hdel;
    by rewrite IH, files_print.
Qed.

Lemma lookup_destroyNetworks (config : ComposeConfig) (hasError : bool)
    (w : World) (q : list string) :
  volume_path q ->
  files (destroyNetworks config (hasError, w)).2 !! q = files w !! q.
Proof.
  intros Hq. unfold destroyNetworks.
  pose proof (lookup_destroyBridges (elements (dom (Cfg_Networks config)))
                hasError (print "Cleaning up project network infrastructure..." w)
                q Hq) as Hbr.
  destruct (foldl destroyBridge _ _) as [hasError' w1]. cbn [snd] in Hbr.
  rewrite files_print in Hbr.
  destruct (loadNetworkMetadata w1) as [m|e]; cbn [snd]; [| done].
  by rewrite files_print, lookup_saveNetworkMetadata.
Qed.

(** [destroy] keeps [volumes.json] and everything below [volumes/] as
    long as no selected VM is called [volumes] or [volumes.json]. *)
Lemma destroy_keeps_volumes (composeFile : string) (doc : Document)
    (config : ComposeConfig) (vms : gmap string VM) (args : list string)
    (w : World) (q : list string) :
  loadComposeFile (Parsed doc) = Ok config ->
  filterVMs config args = Ok vms ->
  vms !! "volumes" = None -> vms !! "volumes.json" = None ->
  volume_path q ->
  files (destroyCmd composeFile (Parsed doc) args w).2 !! q = files w !! q.
Proof.
  intros Hload Hfilter Hv Hj Hq. unfold destroyCmd. rewrite Hload, Hfilter.
  set (w1 := print _ (print _ (print _ w))).
  assert (files (foldl destroyVM (false, w1) (map_to_list vms)).2 !! q
          = files w !! q) as Hvms.
  { rewrite lookup_destroyVMs; [done.. |].
    apply Forall_forall. intros [name vm] Hin.
    apply elem_of_map_to_list in Hin. cbn. split; congruence. }
  destruct (foldl destroyVM (false, w1) (map_to_list vms)) as [hasError w2].
  cbn [snd] in Hvms.
  assert (forall acc : bool * World,
            files acc.2 !! q = files w !! q ->
            files (let '(hasError, w) := acc in
                   if hasError then (1, w)
                   else (0, print "✓ All VMs stopped and removed successfully" w)).2
              !! q = files w !! q) as Hexit.
  { intros [[] w3] Hw3; done. }
  destruct args as [|arg args].
  - apply Hexit.
    pose proof (lookup_destroyNetworks config hasError w2 q Hq) as Hnet.
    destruct (destroyNetworks config (hasError, w2)) as [hasError' w3].
    cbn [snd] in *. by rewrite Hnet.
  - by apply (Hexit (hasError, w2)).
Qed.

End destroy.

(** C7 at the failing input: a project whose VM is called [volumes].
    After the first steps of [up] the disk of the named volume [data]
    exists below [volumes/]; [destroy] of all VMs exits with status 0,
    that disk is gone, and [volumes.json] still lists [data]. *)
Theorem destroy_vm_named_volumes :
  loadComposeFile (Parsed doc_vm_named_volumes) = Ok config_vm_named_volumes
  /\ files w_after_up !! ["volumes"; "data"; "volume.qcow2"]
     = Some (Qcow2 "" "5G" true)
  /\ (destroyCmd "qemu-compose.yaml" (Parsed doc_vm_named_volumes) []
        w_after_up).1 = 0
  /\ files (destroyCmd "qemu-compose.yaml" (Parsed doc_vm_named_volumes) []
              w_after_up).2 !! ["volumes"; "data"; "volume.qcow2"] = None
  /\ (exists m meta,
        loadVolumeMetadata
          (destroyCmd "qemu-compose.yaml" (Parsed doc_vm_named_volumes) []
             w_after_up).2 = Ok m
        /\ m !! "data" = Some meta).
Proof.
  split_and!; [by vm_compute.. |].
  eexists _, _. split; by vm_compute.
Qed.

(* ===================================================================== *)
(** * Part III. Further properties of the code                            *)
(* ===================================================================== *)

(** ** Selecting VMs, short-form volumes, names *)

Section selection.

Lemma filterVMs_go_Ok (vms : gmap string VM) (names : list string)
    (acc : gmap string VM) :
  (forall name, name ∈ names -> is_Some (vms !! name)) ->
  exists r, filterVMs_go vms names acc = Ok r
    /\ forall name, r !! name
         = if bool_decide (name ∈ names) then vms !! name else acc !! name.
Proof.
  revert acc. induction names as [|n rest IH]; intros acc Hall.
  - exists acc. split; [done |]. intros name.
    rewrite bool_decide_eq_false_2; [done | apply not_elem_of_nil].
  - destruct (Hall n) as [vm Hvm]; [left |].
    destruct (IH (<[n := vm]> acc)) as (r & Hr & Hlook).
    { intros name Hin. apply Hall. by right. }
    exists r. split; [simpl; by rewrite Hvm |].
    intros name. rewrite Hlook.
    destruct (decide (name ∈ rest)) as [Hin | Hnin].
    + rewrite !bool_decide_eq_true_2; [done | by right | done].
    + rewrite (bool_decide_eq_false_2 _ Hnin).
      destruct (decide (name = n)) as [-> | Hne].
      * rewrite lookup_insert_eq, bool_decide_eq_true_2; [done | left].
      * rewrite lookup_insert_ne by done.
        rewrite bool_decide_eq_false_2; [done |].
        rewrite elem_of_cons. tauto.
Qed.

Lemma filterVMs_go_Err (vms : gmap string VM) (before after : list string)
    (name : string) (acc : gmap string VM) :
  (forall n, n ∈ before -> is_Some (vms !! n)) ->
  vms !! name = None ->
  filterVMs_go vms (before ++ name :: after) acc
  = Err ("VM not found in compose file: " +:+ name).
Proof.
  revert acc. induction before as [|b rest IH]; intros acc Hall Hnone.
  - simpl. by rewrite Hnone.
  - destruct (Hall b) as [vm Hvm]; [left |].
    simpl. rewrite Hvm. apply IH; [| done].
    intros n Hin. apply Hall. by right.
Qed.

(** X1. [filterVMs]: without names it returns every VM of the
    configuration; with names it returns exactly the named VMs, each with
    its configuration, when all of them are defined; otherwise it fails
    and the error names the first name that is not defined. *)
Theorem filterVMs_selection (config : ComposeConfig) (vmNames : list string) :
  (vmNames = [] -> filterVMs config vmNames = Ok (VMs config))
  /\ (vmNames <> [] ->
      (forall name, name ∈ vmNames -> is_Some (VMs config !! name)) ->
      exists vms,
        filterVMs config vmNames = Ok vms
        /\ forall name,
             vms !! name
             = if bool_decide (name ∈ vmNames) then VMs config !! name
               else None)
  /\ (forall (before after : list string) (name : string),
        vmNames = before ++ name :: after ->
        (forall n, n ∈ before -> is_Some (VMs config !! n)) ->
        VMs config !! name = None ->
        filterVMs config vmNames
        = Err ("VM not found in compose file: " +:+ name)).
Proof.
  split_and!.
  - by intros ->.
  - intros Hne Hall.
    destruct (filterVMs_go_Ok (VMs config) vmNames ∅ Hall) as (r & Hr & Hlook).
    exists r. split.
    + destruct vmNames; [done | exact Hr].
    + intros name. rewrite Hlook. by rewrite lookup_empty.
  - intros before after name -> Hall Hnone.
    unfold filterVMs.
    rewrite <- (filterVMs_go_Err (VMs config) before after name ∅ Hall Hnone).
    by destruct before.
Qed.

End selection.

Lemma filterVMs_selection_witness :
  filterVMs config_vm_named_volumes ["volumes"; "ghost"]
  = Err "VM not found in compose file: ghost".
Proof.
  apply (proj2 (proj2 (filterVMs_selection config_vm_named_volumes
                         ["volumes"; "ghost"])) ["volumes"] [] "ghost").
  - reflexivity.
  - intros n Hn. apply list_elem_of_singleton in Hn. subst n. eexists. reflexivity.
  - reflexivity.
Defined.

Section short_form_inversion.

Lemma Split_nonempty (s : string) (sep : ascii) : Go.Split s sep <> [].
Proof.
  destruct s as [|c s]; [done |]. simpl.
  destruct (Ascii.eqb c sep); [done |]. by destruct (Go.Split s sep).
Qed.

Lemma Join_cons (p q : string) (ps : list string) (sep : string) :
  Go.Join (p :: q :: ps) sep = p +:+ sep +:+ Go.Join (q :: ps) sep.
Proof. reflexivity. Qed.

Lemma Join_Split (s : string) (sep : ascii) :
  Go.Join (Go.Split s sep) (String sep EmptyString) = s.
Proof.
  induction s as [|c s IH]; [done |]. simpl.
  pose proof (Split_nonempty s sep) as Hs.
  destruct (Ascii.eqb_spec c sep) as [-> | Hne].
  - destruct (Go.Split s sep) as [|p ps]; [done |].
    rewrite Join_cons. simpl. by rewrite <- IH.
  - destruct (Go.Split s sep) as [|p ps]; [done |].
    rewrite <- IH. by destruct ps.
Qed.

Lemma Split_parts_free (s : string) (sep : ascii) :
  Forall (fun p => free_of sep p = true) (Go.Split s sep).
Proof.
  induction s as [|c s IH]; simpl; [by repeat constructor |].
  destruct (Ascii.eqb_spec c sep) as [-> | Hne].
  - by constructor.
  - destruct (Go.Split s sep) as [|p ps]; simpl.
    + repeat constructor. simpl.
      by rewrite (proj2 (Ascii.eqb_neq c sep) Hne).
    + inversion_clear IH as [|? ? Hp Hps]. constructor; [| done].
      simpl. by rewrite (proj2 (Ascii.eqb_neq c sep) Hne).
Qed.

Lemma parseFlags_Ok (flags : list string) (ro r : bool) :
  parseFlags flags ro = Ok r ->
  flags = replicate (length flags) "ro"
  /\ r = ro || bool_decide (length flags ≠ 0%nat).
Proof.
  revert ro. induction flags as [|flag rest IH]; intros ro; simpl.
  - intros [= <-]. by rewrite orb_false_r.
  - destruct (String.eqb_spec flag "ro") as [-> | Hne]; [| done].
    intros [Hrest ->]%IH. split; [by rewrite <- Hrest |].
    by rewrite orb_true_r.
Qed.

(** X2. Every short-form volume entry that [parseShortForm] accepts is
    [source:target] followed by zero or more [:ro]: the entry is rebuilt
    from the fields of the result, neither the source nor the target holds
    a colon, the mount is read-only exactly when at least one [ro] was
    given, and [automount] and [mount_options] are left unset. *)
Theorem parseShortForm_inversion (spec : string) (v : VolumeMount) :
  parseShortForm spec = Ok v ->
  exists n : nat,
    spec = Go.Join (Source v :: Target v :: replicate n "ro") ":"
    /\ colon_free (Source v) = true
    /\ colon_free (Target v) = true
    /\ ReadOnly v = bool_decide (n ≠ 0%nat)
    /\ Automount v = None
    /\ MountOptions v = "".
Proof.
  unfold parseShortForm. intros Hparse.
  pose proof (Join_Split spec ":") as Hjoin.
  pose proof (Split_parts_free spec ":") as Hfree.
  destruct (Go.Split spec ":") as [|source [|target flags]]; [done.. |].
  destruct (parseFlags flags false) as [ro|] eqn:Hflags; [| done].
  apply parseFlags_Ok in Hflags as [Hrep ->].
  injection Hparse as <-. cbn [Source Target ReadOnly Automount MountOptions].
  inversion_clear Hfree as [|? ? Hs Hrest].
  inversion_clear Hrest as [|? ? Ht _].
  exists (length flags). split_and!; try done.
  by rewrite <- Hrep.
Qed.

Lemma parseShortForm_inversion_witness :
  exists n : nat,
    "data:/var/lib:ro:ro" = Go.Join ("data" :: "/var/lib" :: replicate n "ro") ":".
Proof.
  destruct (parseShortForm_inversion "data:/var/lib:ro:ro"
              {| Source := "data"; Target := "/var/lib"; ReadOnly := true;
                 Automount := None; MountOptions := "" |} eq_refl)
    as (n & Hn & _).
  by exists n.
Defined.

End short_form_inversion.

Section sanitised_names.

Lemma free_of_append (c : ascii) (s t : string) :
  free_of c (s +:+ t) = free_of c s && free_of c t.
Proof. induction s as [|a s IH]; simpl; [done |]. by rewrite IH, andb_assoc. Qed.

Lemma free_of_ReplaceAll (s : string) (old new : ascii) :
  old <> new -> free_of old (Go.ReplaceAll s old new) = true.
Proof.
  intros Hne. induction s as [|a s IH]; simpl; [done |]. rewrite IH, andb_true_r.
  destruct (Ascii.eqb_spec a old) as [-> | Ha].
  - apply negb_true_iff, Ascii.eqb_neq. congruence.
  - by apply negb_true_iff, Ascii.eqb_neq.
Qed.

Lemma free_of_substring (c : ascii) (n : nat) (s : string) :
  free_of c s = true -> free_of c (String.substring 0 n s) = true.
Proof.
  revert n. induction s as [|a s IH]; intros [|n]; simpl; try done.
  intros [Ha Hs]%andb_true_iff. by rewrite Ha, IH.
Qed.

Lemma free_of_slice_to (c : ascii) (n : nat) (s : string) :
  free_of c s = true -> free_of c (Go.slice_to n s) = true.
Proof. apply free_of_substring. Qed.

Lemma space_free_hex_digit (d : Z) :
  negb (Ascii.eqb (Go.hex_digit d) " ") = true.
Proof.
  unfold Go.hex_digit.
  destruct d as [|p|p]; [done | | done].
  do 4 (destruct p as [p|p|]; try done).
Qed.

Lemma space_free_hex (bs : list Z) : space_free (Go.hex bs) = true.
Proof.
  unfold space_free. induction bs as [|b bs IH]; [done |].
  cbn [Go.hex]. rewrite free_of_append, IH, andb_true_r.
  unfold Go.hex2. cbn [free_of]. by rewrite !space_free_hex_digit.
Qed.

(** X3. The names handed to systemd and to the kernel never hold a
    space, whatever the project directory, the VM and the network are
    called: the unit of a VM, the dnsmasq unit of a network, the bridge of
    a network and the TAP device of a VM. *)
Theorem sanitised_names_space_free
    (w : World) (vmName networkName : string) (networkIndex : Z) :
  space_free (getVMUnitName vmName w) = true
  /\ space_free (getDnsmasqUnitName networkName w) = true
  /\ space_free (getBridgeName networkName w) = true
  /\ space_free (getTAPName vmName networkIndex w) = true.
Proof.
  assert (forall s, space_free (Go.ReplaceAll s " " "-") = true) as Hrep.
  { intros s. by apply free_of_ReplaceAll. }
  unfold space_free in *. split_and!.
  - unfold getVMUnitName. by rewrite !free_of_append, !Hrep.
  - unfold getDnsmasqUnitName. by rewrite !free_of_append, !Hrep.
  - rewrite getBridgeName_cut. apply free_of_slice_to.
    by rewrite !free_of_append, !Hrep.
  - rewrite getTAPName_cut. rewrite !free_of_append.
    rewrite (free_of_slice_to _ 6) by apply Hrep.
    rewrite (free_of_slice_to _ 4) by apply space_free_hex.
    done.
Qed.

End sanitised_names.

(** ** network.go: the pool of subnets and its records *)

Section pool.

Lemma subnetIndex_subnet_all :
  forallb (fun i => subnetIndex (subnet i) =? i) (seqZ 0 4096) = true.
Proof. by vm_compute. Qed.

Lemma subnetIndex_subnet (i : Z) : 0 <= i < 4096 -> subnetIndex (subnet i) = i.
Proof.
  intros Hi. pose proof subnetIndex_subnet_all as Hall.
  rewrite forallb_forall in Hall. apply Z.eqb_eq, Hall.
  apply list_elem_of_In, elem_of_seqZ. lia.
Qed.

Lemma subnet_inj (i j : Z) :
  0 <= i < 4096 -> 0 <= j < 4096 -> subnet i = subnet j -> i = j.
Proof.
  intros Hi Hj Heq.
  rewrite <- (subnetIndex_subnet i Hi), <- (subnetIndex_subnet j Hj).
  by rewrite Heq.
Qed.

Lemma size_list_to_set_le (l : list string) :
  (size (list_to_set l : gset string) <= length l)%nat.
Proof.
  induction l as [|x l IH]; cbn [list_to_set length].
  - rewrite size_empty. lia.
  - destruct (decide (x ∈ (list_to_set l : gset string))) as [Hin | Hnin].
    + rewrite (subseteq_union_1_L {[x]} (list_to_set l : gset string))
        by (by apply singleton_subseteq_l).
      lia.
    + rewrite size_union by (by apply disjoint_singleton_l).
      rewrite size_singleton. lia.
Qed.

Lemma size_allocatedSubnets (m : gmap string NetworkMetadata) :
  (size (allocatedSubnets m) <= size m)%nat.
Proof.
  unfold allocatedSubnets, map_to_set.
  etrans; [apply size_list_to_set_le |].
  by rewrite length_fmap, length_map_to_list.
Qed.

Lemma pool_recorded_size (m : gmap string NetworkMetadata) :
  (forall i : Z, 0 <= i < 4096 -> recorded m (subnet i)) ->
  (4096 <= size m)%nat.
Proof.
  intros Hall.
  etrans; [| apply size_allocatedSubnets].
  assert (size (list_to_set (subnet <$> seqZ 0 4096) : gset string) = 4096%nat)
    as <-.
  { rewrite size_list_to_set.
    - by rewrite length_fmap, length_seqZ.
    - apply NoDup_fmap_2_strong; [| apply NoDup_seqZ].
      intros i j Hi%elem_of_seqZ Hj%elem_of_seqZ. apply subnet_inj; lia. }
  apply subseteq_size. intros s Hs.
  apply elem_of_list_to_set, list_elem_of_fmap in Hs as (i & -> & Hi%elem_of_seqZ).
  apply elem_of_allocatedSubnets, Hall. lia.
Qed.

(** X4. The pool holds 4096 different subnets, so [allocateSubnet] fails
    only when [networks.json] records at least 4096 networks: with fewer
    records it returns a subnet, and that subnet is recorded for no
    network. *)
Theorem allocateSubnet_capacity (w : World) (m : gmap string NetworkMetadata) :
  loadNetworkMetadata w = Ok m ->
  (forall i j : Z,
     0 <= i < 4096 -> 0 <= j < 4096 -> subnet i = subnet j -> i = j)
  /\ ((size m < 4096)%nat ->
      exists s, (allocateSubnet w).1 = Ok s /\ ~ recorded m s)
  /\ ((exists e, (allocateSubnet w).1 = Err e) -> (4096 <= size m)%nat).
Proof.
  intros Hload. split_and!.
  - apply subnet_inj.
  - intros Hsize.
    destruct (allocateSubnet w).1 as [s | e] eqn:Hs.
    + exists s. split; [done |].
      apply (allocateSubnet_Ok w m s Hload) in Hs as (i & _ & -> & Hfree & _).
      done.
    + assert (exists e, (allocateSubnet w).1 = Err e) as Herr by (by exists e; rewrite Hs).
      pose proof (proj1 (allocateSubnet_Err w m Hload) Herr) as Hall.
      apply pool_recorded_size in Hall. lia.
  - intros Herr.
    apply pool_recorded_size. by apply (allocateSubnet_Err w m Hload).
Qed.

Lemma allocateSubnet_capacity_witness :
  exists s, (allocateSubnet w_one_network).1 = Ok s
            /\ ~ recorded {[ "frontend" := net_meta "172.16.0.0/24" ]} s.
Proof.
  apply (proj1 (proj2 (allocateSubnet_capacity w_one_network
                         {[ "frontend" := net_meta "172.16.0.0/24" ]} eq_refl))).
  rewrite map_size_singleton. lia.
Defined.

End pool.

Section resolution.

Lemma automatic_test (network : Network) :
  negb (String.eqb (Subnet network) "auto")
    && negb (String.eqb (Subnet network) "") = false
  <-> automatic network.
Proof.
  unfold automatic.
  destruct (String.eqb_spec (Subnet network) "auto") as [-> | Ha];
    destruct (String.eqb_spec (Subnet network) "") as [He | He];
    cbn; try rewrite He; intuition congruence.
Qed.

(** What [resolveNetworkSubnet] does for a network that asks for a subnet
    of the pool, by the record of the network. *)
Lemma resolveNetworkSubnet_automatic (networkName : string) (network : Network)
    (w : World) (m : gmap string NetworkMetadata) :
  automatic network -> loadNetworkMetadata w = Ok m ->
  resolveNetworkSubnet networkName network w
  = match m !! networkName with
    | Some existing => (Ok (Meta_Subnet existing), w)
    | None =>
        match (allocateSubnet w).1 with
        | Err e => (Err e, w)
        | Ok s =>
            (Ok s,
             saveNetworkMetadata
               (<[networkName :=
                    {| Meta_Subnet := s; Meta_Driver := Driver network;
                       DnsmasqUnit := ""; DnsmasqActive := false |}]> m) w)
        end
    end.
Proof.
  intros Hauto%automatic_test Hload. unfold resolveNetworkSubnet.
  rewrite Hauto, Hload. destruct (m !! networkName); [done |].
  destruct (allocateSubnet_same_world w m Hload) as [r ->]. by destruct r.
Qed.

(** X5. [resolveNetworkSubnet] is stable: once it has returned a subnet
    for a network, calling it again in the workspace it left returns the
    same subnet and changes nothing; for a network that asks for a subnet
    of the pool, [networks.json] then records that subnet under the name
    of the network. *)
Theorem resolveNetworkSubnet_stable (networkName : string) (network : Network)
    (w w1 : World) (s : string) :
  resolveNetworkSubnet networkName network w = (Ok s, w1) ->
  resolveNetworkSubnet networkName network w1 = (Ok s, w1)
  /\ (automatic network ->
      exists m1 net,
        loadNetworkMetadata w1 = Ok m1
        /\ m1 !! networkName = Some net /\ Meta_Subnet net = s).
Proof.
  intros Hres.
  destruct (negb (String.eqb (Subnet network) "auto")
              && negb (String.eqb (Subnet network) "")) eqn:Htest.
  - unfold resolveNetworkSubnet in *. rewrite Htest in *.
    injection Hres as <- <-. split; [done |].
    intros Hauto%automatic_test. congruence.
  - apply automatic_test in Htest as Hauto.
    destruct (loadNetworkMetadata w) as [m|e] eqn:Hload.
    2: { unfold resolveNetworkSubnet in Hres. by rewrite Htest, Hload in Hres. }
    rewrite (resolveNetworkSubnet_automatic _ _ w m Hauto Hload) in Hres.
    destruct (m !! networkName) as [existing|] eqn:Hex.
    + injection Hres as <- <-. split.
      * rewrite (resolveNetworkSubnet_automatic _ _ w m Hauto Hload).
        by rewrite Hex.
      * intros _. by exists m, existing.
    + destruct (allocateSubnet w).1 as [s'|e]; [| done].
      injection Hres as <- <-.
      set (net := {| Meta_Subnet := s'; Meta_Driver := Driver network;
                     DnsmasqUnit := ""; DnsmasqActive := false |}).
      pose proof (loadNetworkMetadata_save (<[networkName := net]> m) w) as Hsaved.
      split.
      * rewrite (resolveNetworkSubnet_automatic _ _ _ _ Hauto Hsaved).
        by rewrite lookup_insert_eq.
      * intros _. exists (<[networkName := net]> m), net.
        by rewrite lookup_insert_eq.
Qed.

Lemma resolveNetworkSubnet_stable_witness :
  resolveNetworkSubnet "frontend" auto_network
    (saveNetworkMetadata {[ "frontend" := net_meta "172.16.0.0/24" ]} w_demo)
  = (Ok "172.16.0.0/24",
     saveNetworkMetadata {[ "frontend" := net_meta "172.16.0.0/24" ]} w_demo).
Proof.
  apply (resolveNetworkSubnet_stable "frontend" auto_network w_demo).
  by vm_compute.
Defined.

(** X6. Automatic allocation keeps the recorded subnets apart: when no
    two networks of [networks.json] record the same subnet, the same
    holds after [resolveNetworkSubnet] has served a network that asks for
    a subnet of the pool, the subnet it returns is recorded for no other
    network, and the records of the other networks are untouched. *)
Theorem resolveNetworkSubnet_distinct (networkName : string) (network : Network)
    (w w1 : World) (m : gmap string NetworkMetadata) (s : string) :
  loadNetworkMetadata w = Ok m ->
  distinctSubnets m ->
  automatic network ->
  resolveNetworkSubnet networkName network w = (Ok s, w1) ->
  exists m1,
    loadNetworkMetadata w1 = Ok m1
    /\ distinctSubnets m1
    /\ (forall other net,
          other <> networkName -> m1 !! other = Some net -> Meta_Subnet net <> s)
    /\ (forall other, other <> networkName -> m1 !! other = m !! other).
Proof.
  intros Hload Hdist Hauto Hres.
  rewrite (resolveNetworkSubnet_automatic _ _ w m Hauto Hload) in Hres.
  destruct (m !! networkName) as [existing|] eqn:Hex.
  - injection Hres as <- <-. exists m. split_and!; try done.
    intros other net Hne Hother Heq.
    by apply Hne, (Hdist other networkName net existing).
  - destruct (allocateSubnet w).1 as [s'|e] eqn:Halloc; [| done].
    injection Hres as <- <-.
    apply (allocateSubnet_Ok w m s' Hload) in Halloc as (i & _ & -> & Hfree & _).
    set (net := {| Meta_Subnet := subnet i; Meta_Driver := Driver network;
                   DnsmasqUnit := ""; DnsmasqActive := false |}).
    exists (<[networkName := net]> m).
    split; [apply loadNetworkMetadata_save |]. split_and!.
    + intros name1 name2 net1 net2 H1 H2 Heq.
      destruct (decide (name1 = networkName)) as [-> | Hne1];
        destruct (decide (name2 = networkName)) as [-> | Hne2]; [done | | |].
      * rewrite lookup_insert_eq in H1. rewrite lookup_insert_ne in H2 by done.
        injection H1 as <-. destruct Hfree. by exists name2, net2.
      * rewrite lookup_insert_eq in H2. rewrite lookup_insert_ne in H1 by done.
        injection H2 as <-. destruct Hfree. by exists name1, net1.
      * rewrite lookup_insert_ne in H1, H2 by done.
        by apply (Hdist name1 name2 net1 net2).
    + intros other net' Hne Hother Heq.
      rewrite lookup_insert_ne in Hother by done.
      destruct Hfree. by exists other, net'.
    + intros other Hne. by rewrite lookup_insert_ne.
Qed.

Lemma resolveNetworkSubnet_distinct_witness :
  exists m1,
    loadNetworkMetadata
      (resolveNetworkSubnet "backend" auto_network w_one_network).2 = Ok m1
    /\ distinctSubnets m1.
Proof.
  destruct (resolveNetworkSubnet_distinct "backend" auto_network w_one_network
              (resolveNetworkSubnet "backend" auto_network w_one_network).2
              {[ "frontend" := net_meta "172.16.0.0/24" ]} "172.16.1.0/24")
    as (m1 & Hload & Hdist & _).
  - reflexivity.
  - intros name1 name2 net1 net2 H1 H2 _.
    apply lookup_singleton_Some in H1 as [<- _].
    by apply lookup_singleton_Some in H2 as [<- _].
  - by left.
  - by vm_compute.
  - exists m1. split; assumption.
Defined.

(** X7. A pinned subnet is returned as written and nothing is recorded
    for it, so it is not kept out of the pool: when it is the subnet
    that [allocateSubnet] would give next, a network that asks for a
    subnet of the pool afterwards is given the very same subnet. *)
Theorem pinned_subnet_not_reserved (networkName other : string)
    (network otherNetwork : Network) (w : World)
    (m : gmap string NetworkMetadata) :
  ~ automatic network ->
  resolveNetworkSubnet networkName network w = (Ok (Subnet network), w)
  /\ (loadNetworkMetadata w = Ok m ->
      (allocateSubnet w).1 = Ok (Subnet network) ->
      automatic otherNetwork ->
      m !! other = None ->
      (resolveNetworkSubnet other otherNetwork
         (resolveNetworkSubnet networkName network w).2).1
      = Ok (Subnet network)).
Proof.
  intros Hpin.
  assert (resolveNetworkSubnet networkName network w = (Ok (Subnet network), w))
    as Hres.
  { unfold resolveNetworkSubnet.
    destruct (negb (String.eqb (Subnet network) "auto")
                && negb (String.eqb (Subnet network) "")) eqn:Htest; [done |].
    by apply automatic_test in Htest. }
  split; [done |]. intros Hload Halloc Hauto Hother.
  rewrite Hres. cbn [snd].
  rewrite (resolveNetworkSubnet_automatic _ _ w m Hauto Hload).
  by rewrite Hother, Halloc.
Qed.

Lemma pinned_subnet_not_reserved_witness :
  (resolveNetworkSubnet "backend" auto_network
     (resolveNetworkSubnet "frontend" pinned_network w_demo).2).1
  = Ok "172.16.0.0/24".
Proof.
  apply (proj2 (pinned_subnet_not_reserved "frontend" "backend" pinned_network
                  auto_network w_demo ∅
                  ltac:(by intros [H | H]))).
  - reflexivity.
  - by vm_compute.
  - by left.
  - reflexivity.
Defined.

End resolution.

(** ** vm.go: SSH ports across calls *)

Section port_stability.


Lemma allocateFreshPort_inv (vmName : string) (w w1 : World) (p : Z) :
  allocateFreshPort vmName w = (Ok p, w1) ->
  w1 = savePortMetadata vmName {| Meta_SSH := p |} w
  /\ 2222 <= p <= 2322
  /\ getAllocatedPorts w !! p = None
  /\ isPortAvailable p w = true.
Proof.
  unfold allocateFreshPort.
  destruct (firstFreePort _ _ _ _) as [port|] eqn:Hfirst; [| done].
  intros [= -> <-].
  apply firstFreePort_Some in Hfirst as (Hrange & Hnone & Hfree & _).
  unfold startPort, maxPort in Hrange. split_and!; [done | lia.. | done | done].
Qed.

Lemma reusable_after_fresh (vmName : string) (w : World) (p : Z) :
  p > 0 -> isPortAvailable p w = true ->
  reusable (savePortMetadata vmName {| Meta_SSH := p |} w) vmName p.
Proof.
  intros Hp Hfree. exists {| Meta_SSH := p |}.
  by rewrite loadPortMetadata_save.
Qed.

Lemma getSSHPort_reusable (vmName : string) (w : World) (p : Z) :
  reusable w vmName p -> getSSHPort vmName w = Ok p.
Proof.
  intros (m & Hload & <- & Hpos & _). unfold getSSHPort. rewrite Hload.
  destruct (Z.eqb_spec (Meta_SSH m) 0); [lia | done].
Qed.

(** X8. [allocateSSHPort] is stable: once it has given a port to a VM,
    calling it again in the workspace it left gives the same port and
    changes nothing, as long as the port is still free; that port is free
    on the host, and unless it was pinned by the configuration
    [getSSHPort] reads it back. *)
Theorem allocateSSHPort_stable (vmName : string) (vm : VM) (w w1 : World) (p : Z) :
  allocateSSHPort vmName vm w = (Ok p, w1) ->
  allocateSSHPort vmName vm w1 = (Ok p, w1)
  /\ isPortAvailable p w1 = true
  /\ (~ (exists q, pinned vm q) -> getSSHPort vmName w1 = Ok p).
Proof.
  intros Halloc.
  destruct (classic_pinned vm) as [[q Hpin] | Hnopin].
  - rewrite (allocateSSHPort_pinned w vmName vm q Hpin) in Halloc.
    destruct (isPortAvailable q w) eqn:Hfree; [| done].
    injection Halloc as <- <-. split_and!; [| done |].
    + rewrite (allocateSSHPort_pinned w vmName vm q Hpin). by rewrite Hfree.
    + intros []. by exists q.
  - destruct (classic_reusable w vmName) as [[q Hreuse] | Hnoreuse].
    + rewrite (allocateSSHPort_reusable w vmName vm q Hnopin Hreuse) in Halloc.
      injection Halloc as <- <-. split_and!.
      * by apply allocateSSHPort_reusable.
      * by destruct Hreuse as (m & _ & _ & _ & Hfree).
      * intros _. by apply getSSHPort_reusable.
    + rewrite (allocateSSHPort_fresh w vmName vm Hnopin Hnoreuse) in Halloc.
      apply allocateFreshPort_inv in Halloc as (-> & Hrange & _ & Hfree).
      assert (reusable (savePortMetadata vmName {| Meta_SSH := p |} w) vmName p)
        as Hreuse by (apply reusable_after_fresh; [lia | done]).
      split_and!.
      * by apply allocateSSHPort_reusable.
      * done.
      * intros _. by apply getSSHPort_reusable.
Qed.

Lemma allocateSSHPort_stable_witness :
  allocateSSHPort "web" plain_vm
    (savePortMetadata "web" {| Meta_SSH := 2222 |} w_demo)
  = (Ok 2222, savePortMetadata "web" {| Meta_SSH := 2222 |} w_demo).
Proof.
  apply (allocateSSHPort_stable "web" plain_vm w_demo). by vm_compute.
Defined.



Lemma isVMReady_no_port (vmName imageURL : string) (w : World) :
  loadPortMetadata vmName w = Ok None ->
  isVMReady vmName imageURL w = (false, w).
Proof. intros Hload. unfold isVMReady, getSSHPort. by rewrite Hload. Qed.

(** X10. A VM whose SSH port is pinned is never reported as ready when
    it has no [ports.json]: [allocateSSHPort] returns the pinned port
    without writing it, [getSSHPort] then finds no port, the SSH probe of
    [isVMReady] fails before it runs a command, and [getVMStatus] says
    [starting] for a unit that systemd reports as [active]. *)
Theorem pinned_port_never_ready (vmName imageURL : string) (vm : VM) (ssh : SSH)
    (w : World) :
  VM_SSH vm = Some ssh ->
  Port ssh > 0 ->
  loadPortMetadata vmName w = Ok None ->
  getSSHPort vmName (allocateSSHPort vmName vm w).2 = Err "no SSH port allocated"
  /\ isVMReady vmName imageURL (allocateSSHPort vmName vm w).2
     = (false, (allocateSSHPort vmName vm w).2)
  /\ (forall output : string,
        vmInstanceExists vmName (allocateSSHPort vmName vm w).2 = true ->
        (showActiveState vmName (allocateSSHPort vmName vm w).2).1 = Some output ->
        Go.TrimSpace output = "active" ->
        (getVMStatus vmName imageURL (allocateSSHPort vmName vm w).2).1
        = "starting").
Proof.
  intros Hssh Hpos Hload.
  assert (pinned vm (Port ssh)) as Hpin by (by exists ssh).
  rewrite (allocateSSHPort_pinned w vmName vm (Port ssh) Hpin). cbn [snd].
  split_and!.
  - unfold getSSHPort. by rewrite Hload.
  - by apply isVMReady_no_port.
  - intros output Hexists Hshow Hactive. unfold getVMStatus.
    rewrite Hexists. cbn [negb].
    destruct (showActiveState vmName w) as [out w1] eqn:Hstate.
    cbn [fst] in Hshow. subst out. rewrite Hactive. cbn.
    rewrite isVMReady_no_port; [done |].
    unfold showActiveState, exec in Hstate. injection Hstate as _ <-.
    exact Hload.
Qed.

Lemma pinned_port_never_ready_witness :
  (getVMStatus "web" "https://example/cloud.img"
     (allocateSSHPort "web" pinned_vm w_active_unit).2).1 = "starting".
Proof.
  apply (proj2 (proj2 (pinned_port_never_ready "web" "https://example/cloud.img"
                         pinned_vm {| Port := 2200 |} w_active_unit
                         eq_refl eq_refl eq_refl)) "active
");
    by vm_compute.
Defined.

End port_stability.

(** ** image.go: the overlay disk across calls *)

Section instance_disks.

Lemma stat_false (p : list string) (w : World) :
  stat p w = false <-> forall q, p `prefix_of` q -> files w !! q = None.
Proof.
  unfold stat. rewrite bool_decide_eq_false, Exists_exists. split.
  - intros Hnone q Hpre. apply eq_None_not_Some. intros Hsome.
    apply Hnone. exists q. split; [| done].
    by apply elem_of_elements, elem_of_dom.
  - intros Hnone (q & Hq & Hpre).
    apply elem_of_elements, elem_of_dom in Hq as [c Hc].
    rewrite (Hnone q Hpre) in Hc. done.
Qed.

Lemma stat_lookup (p : list string) (c : content) (w : World) :
  files w !! p = Some c -> stat p w = true.
Proof.
  intros Hp. destruct (stat p w) eqn:Hstat; [done |].
  rewrite stat_false in Hstat. by rewrite (Hstat p) in Hp.
Qed.

Lemma metadata_path_ne_disk (vmName : string) :
  getDiskMetadataPath vmName <> getInstanceDir vmName ++ ["disk.qcow2"].
Proof. done. Qed.

Lemma abs_writeFile_emit (p q : list string) (c : content) (e : event)
    (w : World) :
  abs (writeFile p c (emit e w)) q = abs w q.
Proof. reflexivity. Qed.

(** The first creation of an overlay when both [qemu-img] commands
    succeed. *)
Lemma createInstanceDisk_fresh (vmName base : string) (diskConfig : option Disk)
    (w : World) (out1 out2 : string) :
  stat (getInstanceDir vmName ++ ["disk.qcow2"]) w = false ->
  run w ["qemu-img"; "create"; "-f"; "qcow2"; "-F"; "qcow2"; "-b"; base;
         abs w (getInstanceDir vmName ++ ["disk.qcow2"])] = Some out1 ->
  run w ["qemu-img"; "resize"; abs w (getInstanceDir vmName ++ ["disk.qcow2"]);
         declaredSize diskConfig] = Some out2 ->
  exists w1,
    createInstanceDisk vmName base diskConfig w
    = (Ok (abs w (getInstanceDir vmName ++ ["disk.qcow2"])), w1)
    /\ cwd w1 = cwd w
    /\ files w1 !! (getInstanceDir vmName ++ ["disk.qcow2"])
       = Some (Qcow2 base (declaredSize diskConfig) false)
    /\ loadDiskMetadata vmName w1
       = Ok (Some {| Meta_Size := declaredSize diskConfig |}).
Proof.
  intros Hstat Hcreate Hresize. unfold createInstanceDisk.
  rewrite Hstat. unfold exec at 1. rewrite Hcreate.
  unfold resizeInstanceDisk, exec. cbn [run emit writeFile set_files].
  rewrite !abs_writeFile_emit, Hresize.
  eexists. split; [reflexivity |]. split; [reflexivity |]. split.
  - unfold saveDiskMetadata, print, writeFile. cbn [files emit set_files].
    rewrite lookup_insert_ne by apply metadata_path_ne_disk.
    rewrite lookup_alter_eq. by rewrite lookup_insert_eq.
  - unfold loadDiskMetadata, saveDiskMetadata, writeFile. cbn [files set_files].
    by rewrite lookup_insert_eq.
Qed.

(** X11. A second [createInstanceDisk] after a successful first one
    returns the same path, runs no command and leaves every file as it
    is; it prints the three warning lines exactly when the size declared
    now differs from the one declared at creation, which is the size the
    overlay and its metadata keep. *)
Theorem createInstanceDisk_again (vmName base : string)
    (first second : option Disk) (w : World) (out1 out2 : string) :
  stat (getInstanceDir vmName ++ ["disk.qcow2"]) w = false ->
  run w ["qemu-img"; "create"; "-f"; "qcow2"; "-F"; "qcow2"; "-b"; base;
         abs w (getInstanceDir vmName ++ ["disk.qcow2"])] = Some out1 ->
  run w ["qemu-img"; "resize"; abs w (getInstanceDir vmName ++ ["disk.qcow2"]);
         declaredSize first] = Some out2 ->
  exists w1,
    createInstanceDisk vmName base first w
    = (Ok (abs w (getInstanceDir vmName ++ ["disk.qcow2"])), w1)
    /\ files w1 !! (getInstanceDir vmName ++ ["disk.qcow2"])
       = Some (Qcow2 base (declaredSize first) false)
    /\ loadDiskMetadata vmName w1 = Ok (Some {| Meta_Size := declaredSize first |})
    /\ (createInstanceDisk vmName base second w1).1
       = Ok (abs w (getInstanceDir vmName ++ ["disk.qcow2"]))
    /\ files (createInstanceDisk vmName base second w1).2 = files w1
    /\ trace (createInstanceDisk vmName base second w1).2
       = trace w1
           ++ (if String.eqb (declaredSize first) (declaredSize second) then []
               else driftWarning vmName (declaredSize second) (declaredSize first)).
Proof.
  intros Hstat Hcreate Hresize.
  destruct (createInstanceDisk_fresh vmName base first w out1 out2
              Hstat Hcreate Hresize) as (w1 & Hfirst & Hcwd & Hdisk & Hmeta).
  exists w1. split_and!; [done.. | | |];
    rewrite (createInstanceDisk_existing w1 vmName base second
               (stat_lookup _ _ _ Hdisk)), Hmeta; cbn [Meta_Size fst snd].
  - unfold abs. by rewrite Hcwd.
  - by destruct (String.eqb _ _).
  - destruct (String.eqb _ _); [by rewrite app_nil_r | done].
Qed.

Lemma createInstanceDisk_again_witness :
  exists w1,
    createInstanceDisk "web" "/images/cloud.img" None w_demo
    = (Ok "/home/dev/demo/.qemu-compose/web/disk.qcow2", w1)
    /\ trace (createInstanceDisk "web" "/images/cloud.img"
                (Some {| Disk_Size := "20G" |}) w1).2
       = trace w1 ++ driftWarning "web" "20G" "10G".
Proof.
  destruct (createInstanceDisk_again "web" "/images/cloud.img" None
              (Some {| Disk_Size := "20G" |}) w_demo "" ""
              eq_refl eq_refl eq_refl)
    as (w1 & Hfirst & _ & _ & _ & _ & Htrace).
  exists w1. split; [exact Hfirst | exact Htrace].
Defined.

(** X12. When [qemu-img resize] fails at the first creation,
    [createInstanceDisk] returns an error and leaves the overlay behind
    at the size of its backing image, without metadata; the next call
    finds the overlay, runs no command, and records the declared size in
    the metadata although the overlay was never given that size. *)
Theorem createInstanceDisk_resize_failure (vmName base : string)
    (diskConfig : option Disk) (w : World) (out : string) :
  stat (getInstanceDir vmName ++ ["disk.qcow2"]) w = false ->
  loadDiskMetadata vmName w = Ok None ->
  run w ["qemu-img"; "create"; "-f"; "qcow2"; "-F"; "qcow2"; "-b"; base;
         abs w (getInstanceDir vmName ++ ["disk.qcow2"])] = Some out ->
  run w ["qemu-img"; "resize"; abs w (getInstanceDir vmName ++ ["disk.qcow2"]);
         declaredSize diskConfig] = None ->
  exists w1 w2,
    createInstanceDisk vmName base diskConfig w
    = (Err "failed to resize instance disk: failed to resize instance disk", w1)
    /\ files w1 !! (getInstanceDir vmName ++ ["disk.qcow2"])
       = Some (Qcow2 base "" false)
    /\ createInstanceDisk vmName base diskConfig w1
       = (Ok (abs w (getInstanceDir vmName ++ ["disk.qcow2"])), w2)
    /\ trace w2 = trace w1
    /\ files w2 !! (getInstanceDir vmName ++ ["disk.qcow2"])
       = Some (Qcow2 base "" false)
    /\ loadDiskMetadata vmName w2
       = Ok (Some {| Meta_Size := declaredSize diskConfig |}).
Proof.
  intros Hstat Hmeta Hcreate Hresize.
  set (disk := getInstanceDir vmName ++ ["disk.qcow2"]) in *.
  set (w1 := emit (Ran ["qemu-img"; "resize"; abs w disk; declaredSize diskConfig])
               (writeFile disk (Qcow2 base "" false)
                  (emit (Ran ["qemu-img"; "create"; "-f"; "qcow2"; "-F"; "qcow2";
                              "-b"; base; abs w disk]) w))).
  assert (files w1 !! disk = Some (Qcow2 base "" false)) as Hdisk.
  { unfold w1, writeFile. cbn [files emit set_files]. by rewrite lookup_insert_eq. }
  assert (loadDiskMetadata vmName w1 = Ok None) as Hmeta1.
  { unfold loadDiskMetadata in *. unfold w1, writeFile. cbn [files emit set_files].
    rewrite lookup_insert_ne; [done |]. symmetry. apply metadata_path_ne_disk. }
  exists w1, (saveDiskMetadata vmName {| Meta_Size := declaredSize diskConfig |} w1).
  split_and!.
  - unfold createInstanceDisk. fold disk. rewrite Hstat.
    unfold exec at 1. rewrite Hcreate.
    unfold resizeInstanceDisk, exec. cbn [run emit writeFile set_files].
    fold disk. rewrite !abs_writeFile_emit. by rewrite Hresize.
  - done.
  - rewrite (createInstanceDisk_existing w1 vmName base diskConfig
               (stat_lookup _ _ _ Hdisk)), Hmeta1. done.
  - done.
  - unfold saveDiskMetadata, writeFile. cbn [files set_files].
    rewrite lookup_insert_ne; [done |]. apply metadata_path_ne_disk.
  - unfold loadDiskMetadata, saveDiskMetadata, writeFile. cbn [files set_files].
    by rewrite lookup_insert_eq.
Qed.

Lemma createInstanceDisk_resize_failure_witness :
  exists w1 w2,
    createInstanceDisk "web" "/images/cloud.img" (Some {| Disk_Size := "20G" |})
      w_no_resize
    = (Err "failed to resize instance disk: failed to resize instance disk", w1)
    /\ loadDiskMetadata "web" w2 = Ok (Some {| Meta_Size := "20G" |})
    /\ files w2 !! ["web"; "disk.qcow2"] = Some (Qcow2 "/images/cloud.img" "" false).
Proof.
  destruct (createInstanceDisk_resize_failure "web" "/images/cloud.img"
              (Some {| Disk_Size := "20G" |}) w_no_resize ""
              eq_refl eq_refl eq_refl eq_refl)
    as (w1 & w2 & Hfirst & _ & _ & _ & Hdisk & Hmeta).
  exists w1, w2. split; [exact Hfirst |]. split; [exact Hmeta | exact Hdisk].
Defined.

(** What [removeAll] leaves of a file below [p], and that it adds
    nothing. *)
Lemma lookup_removeAll_below (p q : list string) (w : World) :
  p `prefix_of` q ->
  files (removeAll p w).2 !! q
  = match remove_all w p with
    | None => None
    | Some kept => if kept q then files w !! q else None
    end.
Proof.
  intros Hpre. unfold removeAll.
  destruct (remove_all w p) as [kept|]; cbn [snd files set_files].
  - destruct (kept q) eqn:Hkept.
    + destruct (files w !! q) as [c|] eqn:Hq.
      * apply map_lookup_filter_Some. split; [done | cbn; tauto].
      * apply map_lookup_filter_None. by left.
    + apply map_lookup_filter_None. right. intros c _ [Hnot | Hk]; cbn in *;
        [by apply Hnot | congruence].
  - apply map_lookup_filter_None. right. intros c _ Hnot. by apply Hnot.
Qed.

Lemma lookup_removeAll_Some (p q : list string) (c : content) (w : World) :
  files (removeAll p w).2 !! q = Some c -> files w !! q = Some c.
Proof.
  unfold removeAll.
  destruct (remove_all w p) as [kept|]; cbn [snd files set_files];
    by intros [? _]%map_lookup_filter_Some.
Qed.

Lemma removeAll_result (p : list string) (w : World) :
  (removeAll p w).1 = true <-> remove_all w p = None.
Proof. unfold removeAll. by destruct (remove_all w p). Qed.

(** [removeInstanceDisk] succeeds when there is no directory or when
    [os.RemoveAll] succeeds, and fails with one error otherwise. *)
Lemma removeInstanceDisk_Ok (vmName : string) (w : World) :
  (removeInstanceDisk vmName w).1 = Ok tt
  <-> stat [vmName] w = false \/ remove_all w [vmName] = None.
Proof.
  unfold removeInstanceDisk.
  destruct (stat [vmName] w); cbn [negb]; [| by split; [left |]].
  pose proof (removeAll_result [vmName] w) as Hres.
  destruct (removeAll [vmName] w) as [[] w1]; cbn [fst] in *.
  - split; [intros _; right; by apply Hres | done].
  - split; [done |]. intros [? | Hnone]; [done |].
    by apply Hres in Hnone.
Qed.


Lemma removeInstanceDisk_below (vmName : string) (q : list string) (w : World) :
  (removeInstanceDisk vmName w).1 = Ok tt ->
  [vmName] `prefix_of` q -> files (removeInstanceDisk vmName w).2 !! q = None.
Proof.
  intros Hok Hpre. apply removeInstanceDisk_Ok in Hok. revert Hok.
  unfold removeInstanceDisk.
  destruct (stat [vmName] w) eqn:Hstat; cbn [negb].
  - intros [? | Hnone]; [done |].
    pose proof (lookup_removeAll_below [vmName] q w Hpre) as Hbelow.
    rewrite Hnone in Hbelow.
    by destruct (removeAll [vmName] w) as [[] w1].
  - intros _. by apply (proj1 (stat_false [vmName] w) Hstat).
Qed.

Lemma removeInstanceDisk_Some (vmName : string) (q : list string) (c : content)
    (w : World) :
  files (removeInstanceDisk vmName w).2 !! q = Some c -> files w !! q = Some c.
Proof.
  unfold removeInstanceDisk. destruct (negb _); [done |].
  pose proof (lookup_removeAll_Some [vmName] q c w) as Hsome.
  by destruct (removeAll [vmName] w) as [[] w1].
Qed.



End instance_disks.

(** ** volume.go and vm.go: named volumes and bind mounts *)

Section volumes.

Lemma volume_disk_ne_metadata (volumeName : string) :
  ["volumes"; volumeName; "volume.qcow2"] <> getVolumeMetadataPath.
Proof. done. Qed.

(** [formatVolumeDisk] touches the disk it is given and no other file;
    when it succeeds the disk has been formatted. *)
Lemma formatVolumeDisk_files (disk : list string) (w : World) :
  (forall q, q <> disk -> files (formatVolumeDisk disk w).2 !! q = files w !! q)
  /\ ((formatVolumeDisk disk w).1 = Ok tt ->
      files (formatVolumeDisk disk w).2 !! disk = formatted <$> files w !! disk)
  /\ cwd (formatVolumeDisk disk w).2 = cwd w
  /\ pid (formatVolumeDisk disk w).2 = pid w
  /\ links (formatVolumeDisk disk w).2 = links w
  /\ host_exists (formatVolumeDisk disk w).2 = host_exists w.
Proof.
  unfold formatVolumeDisk, exec. cbn [fst snd run emit].
  destruct (run w ["sudo"; "qemu-nbd"; "--connect"; "/dev/nbd0"; abs w disk]);
    [| by split_and!].
  destruct (run w ["sudo"; "mkfs.ext4"; "-F"; "/dev/nbd0"]); cbn [fst snd];
    [| by split_and!].
  split_and!; try done.
  - intros q Hq. cbn [files set_files emit]. by rewrite lookup_alter_ne.
  - intros _. cbn [files set_files emit]. by rewrite lookup_alter_eq.
Qed.

(** A successful [createNamedVolume] of a volume that has no record. *)
Lemma createNamedVolume_new (volumeName size : string) (w w1 : World)
    (m : gmap string VolumeMetadata) :
  loadVolumeMetadata w = Ok m -> m !! volumeName = None ->
  createNamedVolume volumeName size w = (Ok tt, w1) ->
  loadVolumeMetadata w1
  = Ok (<[volumeName :=
            {| Vol_Name := volumeName; Vol_Size := size;
               DiskPath := abs w ["volumes"; volumeName; "volume.qcow2"];
               Created := Go.itoa (pid w) |}]> m)
  /\ files w1 !! ["volumes"; volumeName; "volume.qcow2"]
     = Some (Qcow2 "" size true).
Proof.
  intros Hload Hnone. unfold createNamedVolume. rewrite Hload, Hnone.
  unfold exec at 1.
  destruct (run w _) as [out|]; [| done].
  set (disk := ["volumes"; volumeName; "volume.qcow2"]).
  set (w2 := writeFile disk (Qcow2 "" size false) _).
  destruct (formatVolumeDisk_files disk w2) as (Hother & Hdisk & _).
  destruct (formatVolumeDisk disk w2) as [[[]|e] w3]; [| done].
  intros [= <-]. split; [apply loadVolumeMetadata_save |].
  unfold saveVolumeMetadata, writeFile. cbn [files set_files].
  rewrite lookup_insert_ne by (symmetry; apply volume_disk_ne_metadata).
  cbn [fst snd] in Hdisk. rewrite (Hdisk eq_refl).
  unfold w2, writeFile. cbn [files set_files emit]. by rewrite lookup_insert_eq.
Qed.


(** What a successful [ensureVolumeExists] leaves behind. *)
Lemma ensureVolumeExists_Ok (volumeName : string) (config : ComposeConfig)
    (w w1 : World) :
  ensureVolumeExists volumeName config w = (Ok tt, w1) ->
  exists m,
    loadVolumeMetadata w = Ok m
    /\ match m !! volumeName with
       | Some _ => w1 = w
       | None =>
           exists volumeConfig,
             Cfg_Volumes config !! volumeName = Some volumeConfig
             /\ loadVolumeMetadata w1
                = Ok (<[volumeName :=
                          {| Vol_Name := volumeName;
                             Vol_Size :=
                               if String.eqb (Volume_Size volumeConfig) ""
                               then "10G" else Volume_Size volumeConfig;
                             DiskPath :=
                               abs w ["volumes"; volumeName; "volume.qcow2"];
                             Created := Go.itoa (pid w) |}]> m)
             /\ files w1 !! ["volumes"; volumeName; "volume.qcow2"]
                = Some (Qcow2 ""
                          (if String.eqb (Volume_Size volumeConfig) ""
                           then "10G" else Volume_Size volumeConfig) true)
       end.
Proof.
  unfold ensureVolumeExists.
  destruct (loadVolumeMetadata w) as [m|e] eqn:Hload; [| done].
  intros Hens. exists m. split; [done |].
  destruct (m !! volumeName) as [meta|] eqn:Hm; [by injection Hens |].
  destruct (Cfg_Volumes config !! volumeName) as [volumeConfig|]; [| done].
  exists volumeConfig. split; [done |].
  apply (createNamedVolume_new _ _ _ _ m Hload Hm) in Hens.
  by destruct (String.eqb (Volume_Size volumeConfig) "").
Qed.



Section bind_paths.

Lemma IsAbs_inv (p : string) :
  filepath.IsAbs p = true -> exists rest, p = String "/" rest.
Proof.
  unfold filepath.IsAbs, Go.HasPrefix.
  destruct p as [|c rest]; cbn [String.prefix]; [done |].
  destruct (Ascii.ascii_dec "/" c) as [<- | ?]; [| done]. by exists rest.
Qed.

Lemma IsAbs_slash (rest : string) : filepath.IsAbs (String "/" rest) = true.
Proof.
  unfold filepath.IsAbs, Go.HasPrefix. cbn [String.prefix].
  destruct (Ascii.ascii_dec "/" "/"); [by destruct rest | done].
Qed.

Lemma IsAbs_cleanComps (comps : list string) :
  filepath.IsAbs (filepath.cleanComps true comps) = true.
Proof. apply IsAbs_slash. Qed.

Lemma IsAbs_Clean (p : string) :
  filepath.IsAbs p = true -> filepath.IsAbs (filepath.Clean p) = true.
Proof. intros Habs. unfold filepath.Clean. rewrite Habs. apply IsAbs_cleanComps. Qed.

Lemma IsAbs_Dir (p : string) :
  filepath.IsAbs p = true -> filepath.IsAbs (filepath.Dir p) = true.
Proof.
  intros Habs. unfold filepath.Dir. rewrite Habs.
  destruct (IsAbs_inv p Habs) as [rest ->]. cbn [Go.Split Ascii.eqb].
  replace (Ascii.eqb "/" "/") with true by reflexivity.
  pose proof (Split_nonempty rest "/") as Hne.
  destruct (Go.Split rest "/") as [|x xs]; [done |]. apply IsAbs_cleanComps.
Qed.

Lemma IsAbs_Join (a b : string) :
  filepath.IsAbs a = true -> filepath.IsAbs (filepath.Join a b) = true.
Proof.
  intros Habs. destruct (IsAbs_inv a Habs) as [rest ->]. unfold filepath.Join.
  cbn [String.eqb String.append].
  destruct (String.eqb b ""); apply IsAbs_Clean, IsAbs_slash.
Qed.

(** X15. A path that [resolveBindMountPath] returns exists on the host.
    An absolute host path is returned as it is written; a relative one is
    joined to the directory of the compose file; and when the path of
    the compose file is absolute, as [up] passes it, the result is
    absolute in both cases. *)
Theorem resolveBindMountPath_resolved (hostPath composeFilePath : string)
    (w : World) (p : string) :
  resolveBindMountPath hostPath composeFilePath w = Ok p ->
  host_exists w p = true
  /\ (filepath.IsAbs hostPath = true -> p = hostPath)
  /\ (filepath.IsAbs hostPath = false ->
      p = filepath.Join (filepath.Dir composeFilePath) hostPath)
  /\ (filepath.IsAbs composeFilePath = true -> filepath.IsAbs p = true).
Proof.
  unfold resolveBindMountPath.
  destruct (filepath.IsAbs hostPath) eqn:Habs.
  - destruct (host_exists w hostPath) eqn:Hex; [| done].
    intros [= <-]. by split_and!.
  - destruct (host_exists w _) eqn:Hex; [| done].
    intros [= <-]. split_and!; try done.
    intros Hcompose. by apply IsAbs_Join, IsAbs_Dir.
Qed.

Lemma resolveBindMountPath_resolved_witness :
  host_exists w_host_cfg "/srv/app/cfg" = true
  /\ filepath.IsAbs "/srv/app/cfg" = true.
Proof.
  destruct (resolveBindMountPath_resolved "./cfg" "/srv/app/qemu-compose.yaml"
              w_host_cfg "/srv/app/cfg" eq_refl) as (Hex & _ & _ & Habs).
  split; [exact Hex | exact (Habs eq_refl)].
Defined.

End bind_paths.

Section mounts.

Lemma createNamedVolume_frame (volumeName size : string) (w : World) :
  (forall q, ~ volume_path q ->
     files (createNamedVolume volumeName size w).2 !! q = files w !! q)
  /\ links (createNamedVolume volumeName size w).2 = links w
  /\ host_exists (createNamedVolume volumeName size w).2 = host_exists w
  /\ cwd (createNamedVolume volumeName size w).2 = cwd w.
Proof.
  unfold createNamedVolume.
  destruct (loadVolumeMetadata w) as [m|e]; [| done].
  destruct (m !! volumeName); [done |].
  unfold exec at 1 2 3 4. destruct (run w _) as [out|]; [| done].
  cbn [fst snd].
  set (disk := ["volumes"; volumeName; "volume.qcow2"]).
  set (w2 := writeFile disk (Qcow2 "" size false) _).
  assert (volume_path disk) as Hdisk by (right; by eexists).
  assert (forall q, ~ volume_path q -> files w2 !! q = files w !! q) as Hw2.
  { intros q Hq. unfold w2, writeFile. cbn [files set_files emit].
    rewrite lookup_insert_ne; [done |]. by intros <-. }
  destruct (formatVolumeDisk_files disk w2)
    as (Hother & _ & Hcwd & _ & Hlinks & Hhost).
  destruct (formatVolumeDisk disk w2) as [[[]|e] w3]; cbn [fst snd] in *.
  - split_and!; try done.
    intros q Hq. unfold saveVolumeMetadata, writeFile. cbn [files set_files].
    rewrite lookup_insert_ne.
    + rewrite Hother; [by apply Hw2 | by intros ->].
    + intros <-. apply Hq. by left.
  - split_and!; try done.
    intros q Hq. rewrite Hother; [by apply Hw2 | by intros ->].
Qed.

Lemma ensureVolumeExists_frame (volumeName : string) (config : ComposeConfig)
    (w : World) :
  (forall q, ~ volume_path q ->
     files (ensureVolumeExists volumeName config w).2 !! q = files w !! q)
  /\ links (ensureVolumeExists volumeName config w).2 = links w
  /\ host_exists (ensureVolumeExists volumeName config w).2 = host_exists w
  /\ cwd (ensureVolumeExists volumeName config w).2 = cwd w.
Proof.
  unfold ensureVolumeExists.
  destruct (loadVolumeMetadata w) as [m|e]; [| done].
  destruct (m !! volumeName); [done |].
  destruct (Cfg_Volumes config !! volumeName); [| done].
  apply createNamedVolume_frame.
Qed.

Lemma parseVMVolume_frame (vmName : string) (v : VolumeMount)
    (config : ComposeConfig) (composeFilePath : string) (w : World) :
  (forall q, ~ volume_path q ->
     files (parseVMVolume vmName v config composeFilePath w).2 !! q = files w !! q)
  /\ links (parseVMVolume vmName v config composeFilePath w).2 = links w
  /\ host_exists (parseVMVolume vmName v config composeFilePath w).2
     = host_exists w
  /\ cwd (parseVMVolume vmName v config composeFilePath w).2 = cwd w
  /\ (isBindMount (Source v) = true ->
      (parseVMVolume vmName v config composeFilePath w).2 = w).
Proof.
  unfold parseVMVolume.
  destruct (negb (Go.HasPrefix (Target v) "/")); [done |].
  destruct (isBindMount (Source v)).
  - by destruct (resolveBindMountPath _ _ _).
  - destruct (ensureVolumeExists_frame (Source v) config w)
      as (Hfiles & Hlinks & Hhost & Hcwd).
    destruct (ensureVolumeExists (Source v) config w) as [[[]|e] w1];
      cbn [fst snd] in *; [| by split_and!].
    destruct (getVolumeDiskPath (Source v) w1); cbn [snd]; by split_and!.
Qed.

Lemma parseVolumeList_frame (vmName : string) (volumes : list VolumeMount)
    (config : ComposeConfig) (composeFilePath : string) (w : World) :
  (forall q, ~ volume_path q ->
     files (parseVolumeList vmName volumes config composeFilePath w).2 !! q
     = files w !! q)
  /\ links (parseVolumeList vmName volumes config composeFilePath w).2 = links w
  /\ host_exists (parseVolumeList vmName volumes config composeFilePath w).2
     = host_exists w
  /\ (Forall (fun v => isBindMount (Source v) = true) volumes ->
      (parseVolumeList vmName volumes config composeFilePath w).2 = w).
Proof.
  revert w. induction volumes as [|v rest IH]; intros w; [done |].
  cbn [parseVolumeList].
  destruct (parseVMVolume_frame vmName v config composeFilePath w)
    as (Hfiles & Hlinks & Hhost & _ & Hbind).
  destruct (parseVMVolume vmName v config composeFilePath w) as [[mount|e] w1];
    cbn [fst snd] in *.
  - destruct (IH w1) as (Hfiles' & Hlinks' & Hhost' & Hbind').
    destruct (parseVolumeList vmName rest config composeFilePath w1)
      as [[mounts|e] w2]; cbn [fst snd] in *.
    all: split_and!; [ intros q Hq; rewrite Hfiles' by done; by apply Hfiles
                     | congruence | congruence
                     | intros Hall; inversion_clear Hall as [|? ? Hv Hrest];
                       rewrite (Hbind' Hrest); by apply Hbind ].
  - split_and!; try done. intros Hall. inversion_clear Hall. by apply Hbind.
Qed.

(** X16. [parseVMVolumes] writes to the volume manager's part of the
    workspace only: whatever it returns, every file other than
    [volumes.json] and the files below [volumes/] is as before, and so
    are the network interfaces; when every entry of the VM is a bind
    mount it leaves the world unchanged. *)
Theorem parseVMVolumes_frame (vmName : string) (vm : VM) (config : ComposeConfig)
    (composeFilePath : string) (w : World) :
  (forall q, ~ volume_path q ->
     files (parseVMVolumes vmName vm config composeFilePath w).2 !! q
     = files w !! q)
  /\ links (parseVMVolumes vmName vm config composeFilePath w).2 = links w
  /\ (Forall (fun v => isBindMount (Source v) = true) (Volumes vm) ->
      (parseVMVolumes vmName vm config composeFilePath w).2 = w).
Proof.
  destruct (parseVolumeList_frame vmName (Volumes vm) config composeFilePath w)
    as (Hfiles & Hlinks & _ & Hbind).
  by split_and!.
Qed.

Lemma parseVMVolumes_frame_witness :
  files (parseVMVolumes "web" mounting_vm config_vm_named_volumes
           "/srv/app/qemu-compose.yaml" w_disk_5G).2 !! ["web"; "disk.qcow2"]
  = files w_disk_5G !! ["web"; "disk.qcow2"].
Proof.
  apply (proj1 (parseVMVolumes_frame "web" mounting_vm config_vm_named_volumes
                  "/srv/app/qemu-compose.yaml" w_disk_5G)).
  intros [Hq | [rest Hq]]; discriminate.
Defined.

Lemma resolvedMount_step (volumeName : string) (config : ComposeConfig)
    (w w1 : World) (mount : VMVolumeMount) :
  ensureVolumeExists volumeName config w = (Ok tt, w1) ->
  resolvedMount w mount -> resolvedMount w1 mount.
Proof.
  intros Hens. unfold resolvedMount.
  destruct (ensureVolumeExists_frame volumeName config w) as (_ & _ & Hhost & _).
  rewrite Hens in Hhost. cbn [snd] in Hhost.
  destruct (IsBindMount mount); [by rewrite Hhost |].
  intros (Hauto & Hopts & Hpath & Hdisk). split_and!; try done.
  apply ensureVolumeExists_Ok in Hens as (m & Hload & Hcase).
  destruct (m !! volumeName) as [meta|] eqn:Hm; [by subst w1 |].
  destruct Hcase as (volumeConfig & _ & Hload1 & _).
  unfold getVolumeDiskPath in *. rewrite Hload in Hdisk. rewrite Hload1.
  destruct (decide (VolumeName mount = volumeName)) as [Heq | Hne].
  - rewrite Heq, Hm in Hdisk. done.
  - by rewrite lookup_insert_ne.
Qed.

Lemma parseVMVolume_Ok (vmName : string) (v : VolumeMount)
    (config : ComposeConfig) (composeFilePath : string) (w w1 : World)
    (mount : VMVolumeMount) :
  parseVMVolume vmName v config composeFilePath w = (Ok mount, w1) ->
  VolumeName mount = Source v
  /\ MountPath mount = Target v
  /\ Mount_ReadOnly mount = ReadOnly v
  /\ IsBindMount mount = isBindMount (Source v)
  /\ Go.HasPrefix (MountPath mount) "/" = true
  /\ resolvedMount w1 mount
  /\ (forall other, resolvedMount w other -> resolvedMount w1 other)
  /\ (IsBindMount mount = true ->
      Mount_Automount mount = default true (Automount v)
      /\ Mount_Options mount = MountOptions v
      /\ resolveBindMountPath (Source v) composeFilePath w = Ok (HostPath mount)).
Proof.
  unfold parseVMVolume.
  destruct (Go.HasPrefix (Target v) "/") eqn:Habs; [| done]. cbn [negb].
  destruct (isBindMount (Source v)) eqn:Hbind.
  - destruct (resolveBindMountPath _ _ _) as [hostPath|e] eqn:Hres; [| done].
    intros [= <- <-]. split_and!; try done.
    unfold resolvedMount. cbn. split; [| done].
    unfold resolveBindMountPath in Hres.
    destruct (filepath.IsAbs (Source v));
      destruct (host_exists w _) eqn:Hex; by simplify_eq.
  - destruct (ensureVolumeExists (Source v) config w) as [[[]|e] w2] eqn:Hens;
      [| done].
    destruct (getVolumeDiskPath (Source v) w2) as [diskPath|e] eqn:Hdisk; [| done].
    intros [= <- <-]. split_and!; try done.
    intros other. by apply (resolvedMount_step (Source v) config).
Qed.

Lemma parseVolumeList_Ok (vmName : string) (volumes : list VolumeMount)
    (config : ComposeConfig) (composeFilePath : string) (w w1 : World)
    (mounts : list VMVolumeMount) :
  parseVolumeList vmName volumes config composeFilePath w = (Ok mounts, w1) ->
  map VolumeName mounts = map Source volumes
  /\ map MountPath mounts = map Target volumes
  /\ map Mount_ReadOnly mounts = map ReadOnly volumes
  /\ map IsBindMount mounts = map (fun v => isBindMount (Source v)) volumes
  /\ Forall (fun mount => Go.HasPrefix (MountPath mount) "/" = true) mounts
  /\ Forall (resolvedMount w1) mounts
  /\ (forall other, resolvedMount w other -> resolvedMount w1 other).
Proof.
  revert w mounts. induction volumes as [|v rest IH]; intros w mounts.
  - intros [= <- <-]. by split_and!.
  - cbn [parseVolumeList].
    destruct (parseVMVolume vmName v config composeFilePath w)
      as [[mount|e] w2] eqn:Hone; [| done].
    destruct (parseVolumeList vmName rest config composeFilePath w2)
      as [[mounts'|e] w3] eqn:Hrest; [| done].
    intros [= <- <-].
    apply parseVMVolume_Ok in Hone
      as (Hname & Hpath & Hro & Hbind & Habs & Hres & Hmono & _).
    apply IH in Hrest as (Hnames & Hpaths & Hros & Hbinds & Habss & Hress & Hmono').
    cbn [map]. split_and!; try (f_equal; done).
    + by constructor.
    + constructor; [by apply Hmono' | done].
    + intros other Hother. by apply Hmono', Hmono.
Qed.

(** X17. When [parseVMVolumes] succeeds it returns one mount for every
    volume entry of the VM, in the order of the entries, with the source,
    the target and the read-only flag of the entry; every mount path is
    absolute.  The host path of a bind mount exists on the host.  A named
    volume is always mounted automatically and without mount options,
    whatever the entry says, and its disk path is the one that
    [volumes.json] records for it in the workspace that is left. *)
Theorem parseVMVolumes_shape (vmName : string) (vm : VM) (config : ComposeConfig)
    (composeFilePath : string) (w w1 : World) (mounts : list VMVolumeMount) :
  parseVMVolumes vmName vm config composeFilePath w = (Ok mounts, w1) ->
  map VolumeName mounts = map Source (Volumes vm)
  /\ map MountPath mounts = map Target (Volumes vm)
  /\ map Mount_ReadOnly mounts = map ReadOnly (Volumes vm)
  /\ map IsBindMount mounts = map (fun v => isBindMount (Source v)) (Volumes vm)
  /\ Forall (fun mount => Go.HasPrefix (MountPath mount) "/" = true) mounts
  /\ Forall (resolvedMount w1) mounts.
Proof.
  intros Hparse.
  apply parseVolumeList_Ok in Hparse
    as (Hnames & Hpaths & Hros & Hbinds & Habss & Hress & _).
  by split_and!.
Qed.

Lemma parseVMVolumes_shape_witness :
  exists named bound,
    (parseVMVolumes "web" mounting_vm config_vm_named_volumes
       "/srv/app/qemu-compose.yaml" w_host_cfg).1 = Ok [named; bound]
    /\ Mount_Automount named = true /\ Mount_Options named = ""
    /\ host_exists w_host_cfg (HostPath bound) = true.
Proof.
  destruct (parseVMVolumes "web" mounting_vm config_vm_named_volumes
              "/srv/app/qemu-compose.yaml" w_host_cfg)
    as [[mounts|e] w1] eqn:Hparse; [| by vm_compute in Hparse].
  pose proof (parseVMVolumes_shape _ _ _ _ _ _ _ Hparse)
    as (_ & Hpaths & _ & Hbinds & _ & Hres).
  destruct mounts as [|named [|bound [|? ?]]]; try discriminate Hpaths.
  exists named, bound. split; [reflexivity |].
  inversion_clear Hres as [|? ? Hnamed Hrest].
  inversion_clear Hrest as [|? ? Hbound _].
  injection Hbinds as Hb1 Hb2. unfold resolvedMount in Hnamed, Hbound.
  rewrite Hb1 in Hnamed. rewrite Hb2 in Hbound.
  destruct Hnamed as (Hauto & Hopts & _). destruct Hbound as [Hex _].
  split_and!; try done.
  destruct (ensureVolumeExists_frame "data" config_vm_named_volumes w_host_cfg)
    as (_ & _ & Hhost & _).
  assert (host_exists w1 = host_exists w_host_cfg) as <-; [| done].
  destruct (parseVolumeList_frame "web" (Volumes mounting_vm)
              config_vm_named_volumes "/srv/app/qemu-compose.yaml" w_host_cfg)
    as (_ & _ & Hh & _).
  unfold parseVMVolumes in Hparse. rewrite Hparse in Hh. exact Hh.
Defined.

(** X30. A named volume is one disk image for the whole project: when
    two VMs are served by [parseVMVolumes] one after the other and both
    mount a named volume of the same name, the two mounts carry the same
    disk path, so both QEMU command lines attach the same image. *)
Theorem named_volume_shared (vmA vmB : string) (a b : VM) (config : ComposeConfig)
    (composeFilePath : string) (w w1 w2 : World)
    (mountsA mountsB : list VMVolumeMount) (mountA mountB : VMVolumeMount) :
  parseVMVolumes vmA a config composeFilePath w = (Ok mountsA, w1) ->
  parseVMVolumes vmB b config composeFilePath w1 = (Ok mountsB, w2) ->
  mountA ∈ mountsA -> mountB ∈ mountsB ->
  IsBindMount mountA = false -> IsBindMount mountB = false ->
  VolumeName mountA = VolumeName mountB ->
  Mount_DiskPath mountA = Mount_DiskPath mountB.
Proof.
  intros HparseA HparseB HinA HinB HnamedA HnamedB Hname.
  apply parseVolumeList_Ok in HparseA as (_ & _ & _ & _ & _ & HresA & _).
  apply parseVolumeList_Ok in HparseB as (_ & _ & _ & _ & _ & HresB & Hmono).
  rewrite Forall_forall in HresA, HresB.
  pose proof (Hmono mountA (HresA mountA HinA)) as HA.
  pose proof (HresB mountB HinB) as HB.
  unfold resolvedMount in HA, HB. rewrite HnamedA in HA. rewrite HnamedB in HB.
  destruct HA as (_ & _ & _ & HA). destruct HB as (_ & _ & _ & HB).
  rewrite Hname in HA. congruence.
Qed.

Lemma named_volume_shared_witness :
  exists mountA mountB w1,
    parseVMVolumes "web" mounting_vm config_vm_named_volumes
      "/srv/app/qemu-compose.yaml" w_host_cfg = (Ok [mountA; mountB], w1)
    /\ forall mounts w2 mount,
         parseVMVolumes "db" mounting_vm config_vm_named_volumes
           "/srv/app/qemu-compose.yaml" w1 = (Ok mounts, w2) ->
         mount ∈ mounts -> IsBindMount mount = false ->
         VolumeName mountA = VolumeName mount ->
         Mount_DiskPath mountA = Mount_DiskPath mount.
Proof.
  destruct (parseVMVolumes "web" mounting_vm config_vm_named_volumes
              "/srv/app/qemu-compose.yaml" w_host_cfg)
    as [[mountsA|e] w1] eqn:HparseA; [| by vm_compute in HparseA].
  pose proof (parseVolumeList_Ok _ _ _ _ _ _ _ HparseA)
    as (_ & Hpaths & _ & Hbinds & _).
  destruct mountsA as [|mountA [|mountB [|? ?]]]; try discriminate Hpaths.
  exists mountA, mountB, w1. split; [reflexivity |].
  intros mounts w2 mount HparseB Hin Hnamed Hname.
  injection Hbinds as HbindA _.
  apply (named_volume_shared "web" "db" mounting_vm mounting_vm
           config_vm_named_volumes "/srv/app/qemu-compose.yaml"
           w_host_cfg w1 w2 [mountA; mountB] mounts mountA mount
           HparseA HparseB); [left | done..].
Defined.

End mounts.

End volumes.

(** ** The workspace path of a name *)

Section workspace_paths.

Lemma Split_app (s t : string) (sep : ascii) :
  Go.Split (s +:+ String sep t) sep = Go.Split s sep ++ Go.Split t sep.
Proof.
  induction s as [|c s IH].
  - change (Go.Split (String sep t) sep = [EmptyString] ++ Go.Split t sep).
    cbn [Go.Split]. by rewrite Ascii.eqb_refl.
  - change (Go.Split (String c (s +:+ String sep t)) sep
            = Go.Split (String c s) sep ++ Go.Split t sep).
    cbn [Go.Split]. destruct (Ascii.eqb c sep); [by rewrite IH |].
    rewrite IH. pose proof (Split_nonempty s sep) as Hne.
    by destruct (Go.Split s sep).
Qed.

Lemma Contains_slash (s : string) :
  Go.Contains s "/" = false -> Go.Split s "/" = [s].
Proof.
  induction s as [|c s IH]; [done |].
  cbn [Go.Contains String.prefix Go.Split].
  destruct (Ascii.ascii_dec "/" c) as [<- | Hc].
  - by destruct s.
  - intros Hs. cbn [orb] in Hs. rewrite IH by done.
    destruct (Ascii.eqb_spec c "/") as [-> | _]; [done | done].
Qed.

Lemma append_assoc (s t u : string) : (s +:+ t) +:+ u = s +:+ t +:+ u.
Proof.
  induction s as [|c s IH]; [done |].
  change (String c ((s +:+ t) +:+ u) = String c (s +:+ t +:+ u)).
  by rewrite IH.
Qed.

Lemma Join_snoc (elems : list string) (name sep : string) :
  elems <> [] ->
  Go.Join (elems ++ [name]) sep = Go.Join elems sep +:+ sep +:+ name.
Proof.
  induction elems as [|e elems IH]; [done |]. intros _.
  destruct elems as [|e' elems]; [done |].
  change (e +:+ sep +:+ Go.Join ((e' :: elems) ++ [name]) sep
          = (e +:+ sep +:+ Go.Join (e' :: elems) sep) +:+ sep +:+ name).
  rewrite IH by done. by rewrite !append_assoc.
Qed.

(** The components of a plain name are the name. *)
Lemma plainName_inv (name : string) :
  plainName name = true ->
  String.eqb name "" = false /\ String.eqb name "." = false
  /\ String.eqb name ".." = false /\ Go.Split name "/" = [name].
Proof.
  unfold plainName. rewrite !andb_true_iff, !negb_true_iff.
  intros [[[? ?] ?] Hslash]. split_and!; try done. by apply Contains_slash.
Qed.

Lemma cleanStack_plain (rooted : bool) (comps names stack : list string) :
  Forall (fun name => plainName name = true) names ->
  filepath.cleanStack rooted (comps ++ names) stack
  = filepath.cleanStack rooted comps stack ++ names.
Proof.
  intros Hnames. revert stack.
  induction comps as [|c comps IH]; intros stack.
  - cbn [app filepath.cleanStack]. revert stack.
    induction Hnames as [|name names Hname _ IHn]; intros stack.
    + cbn. by rewrite app_nil_r.
    + apply plainName_inv in Hname as (He & Hd & Hdd & _).
      cbn [filepath.cleanStack]. rewrite He, Hd, Hdd. cbn [orb].
      rewrite IHn. cbn [rev]. by rewrite <- app_assoc.
  - cbn [app filepath.cleanStack].
    destruct (String.eqb c "" || String.eqb c "."); [apply IH |].
    destruct (String.eqb c ".."); [| apply IH].
    destruct stack as [|top below]; [destruct rooted; apply IH |].
    destruct (String.eqb top ".."); apply IH.
Qed.

Lemma Split_Join_plain (s : string) (names : list string) :
  Forall (fun name => plainName name = true) names ->
  Go.Split (Go.Join (s :: names) "/") "/" = Go.Split s "/" ++ names.
Proof.
  intros Hnames. revert s.
  induction Hnames as [|name names Hname _ IH]; intros s.
  - cbn. by rewrite app_nil_r.
  - change (Go.Join (s :: name :: names) "/")
      with (s +:+ String "/" (Go.Join (name :: names) "/")).
    rewrite Split_app, IH.
    by apply plainName_inv in Hname as (_ & _ & _ & ->).
Qed.

(** The model of the workspace paths.  For the absolute directory that
    [os.Getwd] returns, the path that [filepath.Join] builds for a name
    that is one path component, in a directory below the workspace
    reached through such names, is the path of that directory, a slash
    and the name: the name is one more component of the path.  This is
    what the workspace of the world relies on when it takes the
    directory of a VM to be the component [vmName]. *)
Lemma abs_plainName (w : World) (p : list string) (name : string) :
  filepath.IsAbs (cwd w) = true ->
  Forall (fun c => plainName c = true) p ->
  plainName name = true ->
  abs w (p ++ [name]) = abs w p +:+ "/" +:+ name.
Proof.
  intros Habs Hp Hname.
  destruct (IsAbs_inv _ Habs) as [rest Hcwd].
  assert (forall q,
            Forall (fun c => plainName c = true) q ->
            abs w q
            = "/" +:+ Go.Join (filepath.cleanStack true (Go.Split (cwd w) "/") []
                                 ++ ".qemu-compose" :: q) "/") as Hshape.
  { intros q Hq. unfold abs. cbn [filepath.JoinAll].
    rewrite Hcwd at 1. cbn [String.eqb].
    unfold filepath.Clean.
    assert (filepath.IsAbs (Go.Join (cwd w :: ".qemu-compose" :: q) "/") = true)
      as ->.
    { rewrite Hcwd. apply IsAbs_slash. }
    rewrite (Split_Join_plain (cwd w) (".qemu-compose" :: q))
      by (by constructor).
    unfold filepath.cleanComps.
    rewrite cleanStack_plain; [reflexivity |].
    constructor; [reflexivity | exact Hq]. }
  assert (Forall (fun c => plainName c = true) (p ++ [name])) as Hpn.
  { apply Forall_app. split; [exact Hp |]. by constructor. }
  rewrite (Hshape p Hp), (Hshape (p ++ [name]) Hpn).
  set (stack := filepath.cleanStack true (Go.Split (cwd w) "/") []).
  replace (stack ++ ".qemu-compose" :: p ++ [name])
    with ((stack ++ ".qemu-compose" :: p) ++ [name])
    by (by rewrite <- app_assoc).
  rewrite Join_snoc; [by rewrite !append_assoc |].
  by destruct stack.
Qed.

(** A name that is not one component is another path: the directory of
    a VM called [.] is the workspace itself, and that of a VM called
    [a/../b] is that of [b]. *)
Example abs_dot : abs w_demo ["."] = abs w_demo [].
Proof. by vm_compute. Qed.

Example abs_dotdot : abs w_demo ["a/../b"] = abs w_demo ["b"].
Proof. by vm_compute. Qed.

Example abs_root :
  abs (bare_world "/") ["web"; "disk.qcow2"] = "/.qemu-compose/web/disk.qcow2".
Proof. by vm_compute. Qed.

End workspace_paths.

(** A closed decidable statement, settled by evaluating its decision. *)
Ltac by_compute :=
  match goal with
  | |- ?P => apply (@bool_decide_unpack P _); vm_compute; exact I
  end.

(** ** vm.go and network.go: status and teardown *)

Section status.

Lemma isVMReady_frame (vmName imageURL : string) (w : World) :
  files (isVMReady vmName imageURL w).2 = files w
  /\ links (isVMReady vmName imageURL w).2 = links w.
Proof.
  unfold isVMReady. destruct (getSSHPort vmName w); [| done].
  destruct (files w !! _); [| done].
  unfold exec. by destruct (run w _).
Qed.

(** X18. [getVMStatus] never answers [active] or [inactive]: a unit that
    systemd reports as active is [ready] or [starting], one it reports as
    inactive is [stopped].  The query changes no file of the workspace
    and no network interface. *)
Theorem getVMStatus_never_active (vmName imageURL : string) (w : World) :
  (getVMStatus vmName imageURL w).1 <> "active"
  /\ (getVMStatus vmName imageURL w).1 <> "inactive"
  /\ files (getVMStatus vmName imageURL w).2 = files w
  /\ links (getVMStatus vmName imageURL w).2 = links w.
Proof.
  unfold getVMStatus.
  destruct (vmInstanceExists vmName w); cbn [negb]; [| by split_and!].
  unfold showActiveState, exec.
  destruct (run w _) as [output|]; [| by split_and!].
  destruct (String.eqb_spec (Go.TrimSpace output) "inactive") as [Hi | Hi];
    [by split_and! |].
  destruct (String.eqb_spec (Go.TrimSpace output) "active") as [Ha | Ha];
    [| by split_and!].
  match goal with
  | |- context [isVMReady vmName imageURL ?w1] =>
      destruct (isVMReady_frame vmName imageURL w1) as [Hfiles Hlinks];
      destruct (isVMReady vmName imageURL w1) as [[] w2]
  end; by split_and!.
Qed.

End status.

Section teardown.

Lemma links_linkDel (name : string) (w : World) :
  links (linkDel name w).2
  = if link_del w name then links w ∖ {[name]} else links w.
Proof.
  unfold linkDel. case_bool_decide as Hin.
  - by destruct (link_del w name).
  - destruct (link_del w name); [| done]. cbn [snd].
    symmetry. apply difference_disjoint_L. by apply disjoint_singleton_r.
Qed.

Lemma cwd_linkDel (name : string) (w : World) : cwd (linkDel name w).2 = cwd w.
Proof. apply linkDel_frame. Qed.

(** The deletion fails exactly on an interface that exists and that the
    kernel does not let go. *)
Lemma linkDel_result (name : string) (w : World) :
  (linkDel name w).1 = Some false
  <-> name ∈ links w /\ link_del w name = false.
Proof.
  unfold linkDel. case_bool_decide as Hin.
  - destruct (link_del w name); cbn [fst]; [by split; [| intros [_ ?]] | done].
  - cbn [fst]. by split; [| intros [? _]].
Qed.

Lemma getTAPName_cwd (vmName : string) (i : Z) (w w' : World) :
  cwd w' = cwd w -> getTAPName vmName i w' = getTAPName vmName i w.
Proof.
  intros Hcwd. unfold getTAPName, identifier, getProjectName.
  rewrite Hcwd. reflexivity.
Qed.

Lemma cleanupTAPs_host (vmName : string) (nets : list string) (i : Z) (w : World) :
  cwd (cleanupTAPs vmName nets i w) = cwd w
  /\ run (cleanupTAPs vmName nets i w) = run w
  /\ trace (cleanupTAPs vmName nets i w) = trace w
  /\ link_del (cleanupTAPs vmName nets i w) = link_del w.
Proof.
  revert i w. induction nets as [|net rest IH]; intros i w; [done |].
  cbn [cleanupTAPs].
  pose proof (deleteTAPDevice_world (getTAPName vmName i w) w) as Hw.
  destruct (deleteTAPDevice _ w) as [r w1]. cbn [snd] in Hw. subst w1.
  destruct (IH (i + 1) (linkDel (getTAPName vmName i w) w).2)
    as (-> & -> & -> & ->).
  by destruct (linkDel_frame (getTAPName vmName i w) w) as (_ & ? & ? & ? & ?).
Qed.

Lemma cleanupTAPs_links (vmName : string) (nets : list string) (i : nat)
    (w w0 : World) :
  cwd w = cwd w0 -> link_del w = link_del w0 ->
  links (cleanupTAPs vmName nets (Z.of_nat i) w)
  = links w ∖ list_to_set
                (deletable w0
                   ((fun k => getTAPName vmName (Z.of_nat k) w0)
                      <$> seq i (length nets))).
Proof.
  revert i w. induction nets as [|net rest IH]; intros i w Hcwd Hdel.
  - cbn. by rewrite difference_empty_L.
  - cbn [cleanupTAPs length seq fmap list_fmap].
    pose proof (deleteTAPDevice_world (getTAPName vmName (Z.of_nat i) w) w) as Hw.
    destruct (deleteTAPDevice _ w) as [r w1]. cbn [snd] in Hw. subst w1.
    replace (Z.of_nat i + 1) with (Z.of_nat (S i)) by lia.
    destruct (linkDel_frame (getTAPName vmName (Z.of_nat i) w) w)
      as (_ & Hc & _ & _ & Hd).
    rewrite IH by congruence.
    rewrite links_linkDel, (getTAPName_cwd vmName (Z.of_nat i) w0 w Hcwd), Hdel.
    unfold deletable. rewrite filter_cons.
    destruct (link_del w0 (getTAPName vmName (Z.of_nat i) w0)) eqn:Hgo.
    + rewrite decide_True by done. cbn [list_to_set].
      by rewrite difference_difference_l_L.
    + by rewrite decide_False by done.
Qed.

(** X19. [cleanupVMNetworks] goes through the TAP devices of the VM, one
    for each of its networks, and returns without an error whatever
    happens, as in the source, which only logs a deletion that fails.
    The interfaces left are those that were there, less the TAP devices
    of the VM that the kernel lets go: such a device is gone afterwards,
    an interface whose deletion fails is still there, an interface that
    is not a TAP device of the VM is not touched, and no file of the
    workspace changes. *)
Theorem cleanupVMNetworks_links (vmName : string) (vm : VM) (w : World) :
  (cleanupVMNetworks vmName vm w).1 = Ok tt
  /\ links (cleanupVMNetworks vmName vm w).2
     = links w ∖ list_to_set
                   (deletable w (tapNames vmName (length (Networks vm)) w))
  /\ (forall i : nat,
        (i < length (Networks vm))%nat ->
        link_del w (getTAPName vmName (Z.of_nat i) w) = true ->
        getTAPName vmName (Z.of_nat i) w ∉ links (cleanupVMNetworks vmName vm w).2)
  /\ (forall name,
        name ∈ links w -> link_del w name = false ->
        name ∈ links (cleanupVMNetworks vmName vm w).2)
  /\ (forall name,
        name ∈ links w ->
        name ∉ tapNames vmName (length (Networks vm)) w ->
        name ∈ links (cleanupVMNetworks vmName vm w).2)
  /\ links (cleanupVMNetworks vmName vm w).2 ⊆ links w
  /\ files (cleanupVMNetworks vmName vm w).2 = files w.
Proof.
  assert (links (cleanupVMNetworks vmName vm w).2
          = links w ∖ list_to_set
                        (deletable w (tapNames vmName (length (Networks vm)) w)))
    as Hlinks
    by apply (cleanupTAPs_links vmName (Networks vm) 0 w w eq_refl eq_refl).
  split_and!; [done | done | | | | | apply files_cleanupTAPs].
  - intros i Hi Hgo. rewrite Hlinks. apply not_elem_of_difference. right.
    apply elem_of_list_to_set. unfold deletable.
    apply list_elem_of_filter. split; [done |].
    apply list_elem_of_fmap. exists i. split; [done |].
    apply elem_of_seq. lia.
  - intros name Hin Hstuck. rewrite Hlinks. apply elem_of_difference.
    split; [done |]. rewrite elem_of_list_to_set. unfold deletable.
    rewrite list_elem_of_filter. intros [Hgo _]. congruence.
  - intros name Hin Hother. rewrite Hlinks. apply elem_of_difference.
    split; [done |]. rewrite elem_of_list_to_set. unfold deletable.
    rewrite list_elem_of_filter. by intros [_ ?].
  - rewrite Hlinks. apply subseteq_difference_l. done.
Qed.

Lemma cleanupVMNetworks_links_witness :
  ("tap-other" ∈ links (cleanupVMNetworks "web" bridged_vm w_stuck_links).2)
  /\ ("tap-f855-web" ∈ links (cleanupVMNetworks "web" bridged_vm w_stuck_links).2)
  /\ ("tap-8407-web" ∉ links (cleanupVMNetworks "web" bridged_vm w_stuck_links).2)
  /\ ("tap-f855-web" ∉ links (cleanupVMNetworks "web" bridged_vm w_bridged).2).
Proof.
  destruct (cleanupVMNetworks_links "web" bridged_vm w_stuck_links)
    as (_ & _ & Hgone & Hstuck & Hother & _).
  destruct (cleanupVMNetworks_links "web" bridged_vm w_bridged)
    as (_ & _ & Hgone' & _).
  split_and!.
  - apply Hother; by_compute.
  - apply Hstuck; [by_compute | by vm_compute].
  - apply (Hgone 1%nat); [cbn; lia | by vm_compute].
  - apply (Hgone' 0%nat); [cbn; lia | by vm_compute].
Defined.

Lemma stopDnsmasq_metadata (networkName : string) (w : World)
    (m : gmap string NetworkMetadata) :
  loadNetworkMetadata w = Ok m ->
  loadNetworkMetadata (stopDnsmasq networkName w).2
  = Ok (match m !! networkName with
        | Some net =>
            <[networkName :=
                {| Meta_Subnet := Meta_Subnet net; Meta_Driver := Meta_Driver net;
                   DnsmasqUnit := DnsmasqUnit net; DnsmasqActive := false |}]> m
        | None => m
        end).
Proof.
  intros Hload. unfold stopDnsmasq, exec. cbv beta iota zeta.
  change (loadNetworkMetadata (emit _ w)) with (loadNetworkMetadata w).
  rewrite Hload. destruct (m !! networkName); cbn [snd]; [| done].
  apply loadNetworkMetadata_save.
Qed.

Lemma stopDnsmasq_frame (networkName : string) (w : World) :
  (forall q, q <> getNetworkMetadataPath ->
     files (stopDnsmasq networkName w).2 !! q = files w !! q)
  /\ links (stopDnsmasq networkName w).2 = links w
  /\ cwd (stopDnsmasq networkName w).2 = cwd w
  /\ link_del (stopDnsmasq networkName w).2 = link_del w.
Proof.
  unfold stopDnsmasq, exec. cbv beta iota zeta.
  destruct (loadNetworkMetadata _) as [m|e]; [| done].
  destruct (m !! networkName); [| done]. cbn [snd]. split_and!; try done.
  intros q Hq. unfold saveNetworkMetadata, writeFile. cbn [files set_files emit].
  by rewrite lookup_insert_ne.
Qed.

Lemma cleanupNAT_frame (networkName subnetCIDR : string) (w : World) :
  files (cleanupNAT networkName subnetCIDR w) = files w
  /\ links (cleanupNAT networkName subnetCIDR w) = links w
  /\ cwd (cleanupNAT networkName subnetCIDR w) = cwd w
  /\ link_del (cleanupNAT networkName subnetCIDR w) = link_del w.
Proof. done. Qed.

(** What [deleteBridge] returns and what it does to the files, to the
    interfaces and to [networks.json]. *)
Lemma deleteBridge_frame (networkName : string) (w : World) :
  (deleteBridge networkName w).1
  = (if bool_decide (getBridgeName networkName w ∈ links w)
        && negb (link_del w (getBridgeName networkName w))
     then Err ("failed to delete bridge " +:+ getBridgeName networkName w)
     else Ok tt)
  /\ (forall q, q <> getNetworkMetadataPath ->
        files (deleteBridge networkName w).2 !! q = files w !! q)
  /\ links (deleteBridge networkName w).2
     = (if link_del w (getBridgeName networkName w)
        then links w ∖ {[getBridgeName networkName w]} else links w)
  /\ cwd (deleteBridge networkName w).2 = cwd w
  /\ link_del (deleteBridge networkName w).2 = link_del w
  /\ loadNetworkMetadata (deleteBridge networkName w).2
     = loadNetworkMetadata (stopDnsmasq networkName w).2.
Proof.
  unfold deleteBridge.
  destruct (stopDnsmasq_frame networkName w) as (Hfiles & Hlinks & Hcwd & Hdel).
  destruct (stopDnsmasq networkName w) as [r w1]. cbn [snd] in *.
  set (w2 := match loadNetworkMetadata w1 with
             | Ok metadata =>
                 match metadata !! networkName with
                 | Some netMeta => cleanupNAT networkName (Meta_Subnet netMeta) w1
                 | None => w1
                 end
             | Err _ => w1
             end).
  assert (files w2 = files w1 /\ links w2 = links w1 /\ cwd w2 = cwd w1
          /\ link_del w2 = link_del w1) as (Hf2 & Hl2 & Hc2 & Hd2).
  { unfold w2. destruct (loadNetworkMetadata w1) as [m|e]; [| done].
    by destruct (m !! networkName). }
  set (bridgeName := getBridgeName networkName w).
  destruct (linkDel_frame bridgeName w2) as (Hf3 & Hc3 & _ & _ & Hd3).
  pose proof (links_linkDel bridgeName w2) as Hl3.
  pose proof (linkDel_result bridgeName w2) as Hres.
  rewrite Hl2, Hlinks, Hd2, Hdel in Hl3, Hres.
  assert ((linkDel bridgeName w2).1 = Some false
          <-> bool_decide (bridgeName ∈ links w) && negb (link_del w bridgeName)
              = true) as Hres'.
  { rewrite Hres, andb_true_iff, bool_decide_eq_true, negb_true_iff. done. }
  destruct (linkDel bridgeName w2) as [[[]|] w3]; cbn [fst snd] in *.
  - destruct (_ && _); [by specialize (proj2 Hres' eq_refl) |].
    split_and!; [done | | done | congruence | congruence |].
    + intros q Hq. by rewrite Hf3, Hf2, Hfiles.
    + unfold loadNetworkMetadata. by rewrite Hf3, Hf2.
  - rewrite (proj1 Hres' eq_refl).
    split_and!; [done | | done | congruence | congruence |].
    + intros q Hq. by rewrite Hf3, Hf2, Hfiles.
    + unfold loadNetworkMetadata. by rewrite Hf3, Hf2.
  - destruct (_ && _); [by specialize (proj2 Hres' eq_refl) |].
    split_and!; [done | | done | congruence | congruence |].
    + intros q Hq. by rewrite Hf3, Hf2, Hfiles.
    + unfold loadNetworkMetadata. by rewrite Hf3, Hf2.
Qed.

(** X20. [deleteBridge] fails, with the error of the source, exactly when
    the bridge of the network exists and the kernel refuses to delete
    it; the interfaces are then as before.  When it succeeds the bridge
    is gone and no other interface is.  In both cases it touches no file
    except [networks.json], where it keeps every record: the subnet and
    the driver of every network stay as they are, so the network keeps
    its subnet when its bridge is made again; only the DHCP server of
    the network is marked as stopped. *)
Theorem deleteBridge_keeps_subnets (networkName : string) (w : World)
    (m : gmap string NetworkMetadata) :
  loadNetworkMetadata w = Ok m ->
  ((deleteBridge networkName w).1
   = Err ("failed to delete bridge " +:+ getBridgeName networkName w)
   <-> getBridgeName networkName w ∈ links w
       /\ link_del w (getBridgeName networkName w) = false)
  /\ ((deleteBridge networkName w).1 = Ok tt
      <-> getBridgeName networkName w ∉ links w
          \/ link_del w (getBridgeName networkName w) = true)
  /\ ((deleteBridge networkName w).1 = Ok tt ->
      links (deleteBridge networkName w).2
      = links w ∖ {[getBridgeName networkName w]})
  /\ (is_err (deleteBridge networkName w).1 = true ->
      links (deleteBridge networkName w).2 = links w)
  /\ (forall q, q <> getNetworkMetadataPath ->
        files (deleteBridge networkName w).2 !! q = files w !! q)
  /\ exists m1,
       loadNetworkMetadata (deleteBridge networkName w).2 = Ok m1
       /\ (forall name, m !! name = None -> m1 !! name = None)
       /\ (forall name net,
             m !! name = Some net ->
             exists net1,
               m1 !! name = Some net1
               /\ Meta_Subnet net1 = Meta_Subnet net
               /\ Meta_Driver net1 = Meta_Driver net
               /\ DnsmasqUnit net1 = DnsmasqUnit net
               /\ DnsmasqActive net1
                  = (if decide (name = networkName) then false
                     else DnsmasqActive net))
       /\ (forall (name : string) (network : Network),
             automatic network -> is_Some (m !! name) ->
             (resolveNetworkSubnet name network (deleteBridge networkName w).2).1
             = (resolveNetworkSubnet name network w).1).
Proof.
  intros Hload.
  destruct (deleteBridge_frame networkName w)
    as (Hres & Hfiles & Hlinks & _ & _ & Hmeta).
  rewrite (stopDnsmasq_metadata networkName w m Hload) in Hmeta.
  set (bridgeName := getBridgeName networkName w) in *.
  split_and!.
  - rewrite Hres. case_bool_decide as Hin; cbn [andb].
    + destruct (link_del w bridgeName); cbn [negb];
        [by split; [| intros [_ ?]] | done].
    + by split; [| intros [? _]].
  - rewrite Hres. case_bool_decide as Hin; cbn [andb].
    + destruct (link_del w bridgeName); cbn [negb];
        [by split; [right |] | by split; [| intros [? | ?]]].
    + by split; [left |].
  - rewrite Hres, Hlinks. case_bool_decide as Hin; cbn [andb].
    + by destruct (link_del w bridgeName).
    + intros _. destruct (link_del w bridgeName); [done |].
      symmetry. apply difference_disjoint_L. by apply disjoint_singleton_r.
  - rewrite Hres, Hlinks. case_bool_decide as Hin; cbn [andb]; [| done].
    by destruct (link_del w bridgeName).
  - exact Hfiles.
  - eexists. split; [exact Hmeta |].
    assert (forall name net,
              m !! name = Some net ->
              exists net1,
                match m !! networkName with
                | Some net0 =>
                    <[networkName :=
                        {| Meta_Subnet := Meta_Subnet net0;
                           Meta_Driver := Meta_Driver net0;
                           DnsmasqUnit := DnsmasqUnit net0;
                           DnsmasqActive := false |}]> m
                | None => m
                end !! name = Some net1
                /\ Meta_Subnet net1 = Meta_Subnet net
                /\ Meta_Driver net1 = Meta_Driver net
                /\ DnsmasqUnit net1 = DnsmasqUnit net
                /\ DnsmasqActive net1
                   = (if decide (name = networkName) then false
                      else DnsmasqActive net)) as Hkept.
    { intros name net Hname.
      destruct (decide (name = networkName)) as [-> | Hne].
      - rewrite Hname, lookup_insert_eq. by eexists.
      - destruct (m !! networkName); [rewrite lookup_insert_ne by done |];
          by exists net. }
    split_and!.
    + intros name Hnone. destruct (m !! networkName) eqn:Hn; [| done].
      rewrite lookup_insert_ne; [done |]. congruence.
    + exact Hkept.
    + intros name network Hauto [net Hname].
      destruct (Hkept name net Hname) as (net1 & Hnet1 & Hsub & _).
      rewrite (resolveNetworkSubnet_automatic _ _ _ _ Hauto Hmeta), Hnet1.
      rewrite (resolveNetworkSubnet_automatic _ _ _ _ Hauto Hload), Hname.
      cbn [fst]. by rewrite Hsub.
Qed.

Lemma deleteBridge_keeps_subnets_witness :
  (deleteBridge "frontend" w_stuck_links).1
  = Err "failed to delete bridge qc-demo-fronten"
  /\ links (deleteBridge "frontend" w_stuck_links).2 = links w_stuck_links
  /\ links (deleteBridge "frontend" w_bridged).2
     = links w_bridged ∖ {["qc-demo-fronten"]}
  /\ (resolveNetworkSubnet "frontend" auto_network
        (deleteBridge "frontend" w_stuck_links).2).1 = Ok "172.16.0.0/24".
Proof.
  destruct (deleteBridge_keeps_subnets "frontend" w_stuck_links
              {[ "frontend" := net_meta "172.16.0.0/24" ]} eq_refl)
    as (Herr & _ & _ & Hsame & _ & m1 & _ & _ & _ & Hsubnet).
  destruct (deleteBridge_keeps_subnets "frontend" w_bridged
              {[ "frontend" := net_meta "172.16.0.0/24" ]} eq_refl)
    as (_ & Hok & Hgone & _).
  assert ((deleteBridge "frontend" w_stuck_links).1
          = Err "failed to delete bridge qc-demo-fronten") as Hfail.
  { apply Herr. split; [by_compute | by vm_compute]. }
  split_and!.
  - exact Hfail.
  - apply Hsame. by rewrite Hfail.
  - apply Hgone, Hok. by right.
  - rewrite Hsubnet; [by vm_compute | by left | by eexists].
Defined.

End teardown.

(** ** The commands [destroy] and [stop] *)

Section commands.

Lemma cleanupVMNetworks_frame (vmName : string) (vm : VM) (w : World) :
  files (cleanupVMNetworks vmName vm w).2 = files w
  /\ links (cleanupVMNetworks vmName vm w).2 ⊆ links w
  /\ cwd (cleanupVMNetworks vmName vm w).2 = cwd w
  /\ run (cleanupVMNetworks vmName vm w).2 = run w
  /\ link_del (cleanupVMNetworks vmName vm w).2 = link_del w.
Proof.
  cbn [cleanupVMNetworks snd].
  destruct (cleanupTAPs_host vmName (Networks vm) 0 w) as (Hc & Hr & _ & Hd).
  pose proof (cleanupTAPs_links vmName (Networks vm) 0 w w eq_refl eq_refl) as Hl.
  change (Z.of_nat 0) with 0 in Hl.
  split_and!; [apply files_cleanupTAPs | | done..].
  rewrite Hl. apply subseteq_difference_l. done.
Qed.

Lemma removeInstanceDisk_host (vmName : string) (w : World) :
  links (removeInstanceDisk vmName w).2 = links w
  /\ cwd (removeInstanceDisk vmName w).2 = cwd w
  /\ link_del (removeInstanceDisk vmName w).2 = link_del w.
Proof.
  unfold removeInstanceDisk, removeAll. destruct (negb _); [done |].
  by destruct (remove_all w [vmName]).
Qed.

Lemma removeInstanceDisk_None (vmName : string) (q : list string) (w : World) :
  files w !! q = None -> files (removeInstanceDisk vmName w).2 !! q = None.
Proof.
  intros Hnone. apply eq_None_not_Some. intros [c Hc].
  apply removeInstanceDisk_Some in Hc. congruence.
Qed.

Lemma stopVM_frame (vmName : string) (vm : VM) (w : World) :
  files (stopVM vmName vm w).2 = files w
  /\ links (stopVM vmName vm w).2 ⊆ links w
  /\ cwd (stopVM vmName vm w).2 = cwd w
  /\ run (stopVM vmName vm w).2 = run w
  /\ link_del (stopVM vmName vm w).2 = link_del w.
Proof.
  split; [apply files_stopVM |].
  unfold stopVM, exec. destruct (run w _); [| done].
  destruct (_ >? 0); [| done]. cbn [snd].
  match goal with
  | |- context [cleanupVMNetworks vmName vm ?w0] =>
      destruct (cleanupVMNetworks_frame vmName vm w0) as (_ & Hl & Hc & Hr & Hd)
  end.
  by rewrite Hc, Hr, Hd.
Qed.

Lemma isVMRunning_frame (vmName : string) (w : World) :
  files (isVMRunning vmName w).2 = files w
  /\ links (isVMRunning vmName w).2 = links w
  /\ cwd (isVMRunning vmName w).2 = cwd w
  /\ run (isVMRunning vmName w).2 = run w
  /\ link_del (isVMRunning vmName w).2 = link_del w.
Proof. unfold isVMRunning, exec. by destruct (run w _). Qed.

Lemma isVMRunning_host (vmName : string) (w w' : World) :
  cwd w' = cwd w -> run w' = run w ->
  (isVMRunning vmName w').1 = (isVMRunning vmName w).1.
Proof.
  intros Hcwd Hrun. unfold isVMRunning, exec, getVMUnitName, getProjectName.
  rewrite Hcwd, Hrun. by destruct (run w _).
Qed.

(** The end of one turn of the loop of [destroy], from a world [w2] that
    has the files of [w]: the removal of the directory of the VM. *)
Lemma destroyVM_removal (hasError : bool) (w w2 : World) (vmName : string) :
  files w2 = files w -> links w2 ⊆ links w -> cwd w2 = cwd w ->
  link_del w2 = link_del w ->
  let r := match removeInstanceDisk vmName w2 with
           | (Err e, w3) =>
               (true, print ("  ✗ Error removing instance disk: " +:+ e) w3)
           | (Ok _, w3) => (hasError, print "  ✓ Instance disk removed" w3)
           end in
  (forall q, ~ [vmName] `prefix_of` q -> files r.2 !! q = files w !! q)
  /\ (forall q, files w !! q = None -> files r.2 !! q = None)
  /\ (hasError = true -> r.1 = true)
  /\ (r.1 = false -> forall q, [vmName] `prefix_of` q -> files r.2 !! q = None)
  /\ links r.2 ⊆ links w
  /\ cwd r.2 = cwd w
  /\ link_del r.2 = link_del w.
Proof.
  intros Hf Hl Hc Hd.
  destruct (removeInstanceDisk_host vmName w2) as (Hl3 & Hc3 & Hd3).
  pose proof (fun q => lookup_removeInstanceDisk vmName q w2) as Hout.
  pose proof (fun q => removeInstanceDisk_None vmName q w2) as Hnone.
  pose proof (removeInstanceDisk_below vmName) as Hbelow.
  specialize (fun q => Hbelow q w2).
  destruct (removeInstanceDisk vmName w2) as [[[]|e] w3];
    cbn [fst snd files links cwd link_del print emit] in *;
    rewrite Hl3, Hc3, Hd3.
  - split_and!; [| | done | | done..].
    + intros q Hq. by rewrite Hout, Hf.
    + intros q Hq. apply Hnone. by rewrite Hf.
    + intros _ q Hq. by apply Hbelow.
  - split_and!; [| | done..].
    + intros q Hq. by rewrite Hout, Hf.
    + intros q Hq. apply Hnone. by rewrite Hf.
Qed.

(** One turn of the loop of [destroy].  It changes no file outside of
    the directory of the VM and adds none; the error flag, once set,
    stays set; when the flag is not set afterwards, the directory of the
    VM is gone.  Interfaces are only ever removed. *)
Lemma destroyVM_cases (hasError : bool) (w : World) (vmName : string) (vm : VM) :
  (forall q, ~ [vmName] `prefix_of` q ->
     files (destroyVM (hasError, w) (vmName, vm)).2 !! q = files w !! q)
  /\ (forall q, files w !! q = None ->
        files (destroyVM (hasError, w) (vmName, vm)).2 !! q = None)
  /\ (hasError = true -> (destroyVM (hasError, w) (vmName, vm)).1 = true)
  /\ ((destroyVM (hasError, w) (vmName, vm)).1 = false ->
      forall q, [vmName] `prefix_of` q ->
        files (destroyVM (hasError, w) (vmName, vm)).2 !! q = None)
  /\ links (destroyVM (hasError, w) (vmName, vm)).2 ⊆ links w
  /\ cwd (destroyVM (hasError, w) (vmName, vm)).2 = cwd w
  /\ link_del (destroyVM (hasError, w) (vmName, vm)).2 = link_del w.
Proof.
  unfold destroyVM.
  assert (forall w2 : World,
            files w2 = files w -> links w2 ⊆ links w -> cwd w2 = cwd w ->
            link_del w2 = link_del w ->
            let w3 := if Z.of_nat (length (Networks vm)) >? 0
                      then print "  ✓ Network infrastructure cleaned up"
                             (cleanupVMNetworks vmName vm w2).2
                      else w2 in
            files w3 = files w /\ links w3 ⊆ links w /\ cwd w3 = cwd w
            /\ link_del w3 = link_del w) as Hnets.
  { intros w2 Hf Hl Hc Hd. destruct (_ >? 0); cbn zeta; [| done].
    destruct (cleanupVMNetworks_frame vmName vm w2) as (Hf2 & Hl2 & Hc2 & _ & Hd2).
    cbn [files links cwd link_del print emit].
    split_and!; [congruence | by etrans | congruence | congruence]. }
  destruct (isVMRunning_frame vmName (print ("VM: " +:+ vmName) w))
    as (Hrunf & Hrunl & Hrunc & _ & Hrund).
  destruct (isVMRunning vmName _) as [running w1].
  cbn [snd files links cwd link_del print emit] in *.
  destruct running.
  - destruct (stopVM_frame vmName vm w1) as (Hstopf & Hstopl & Hstopc & _ & Hstopd).
    destruct (stopVM vmName vm w1) as [[[]|e] w2]; cbn [snd] in *.
    + destruct (Hnets (print "  ✓ Stopped" w2)) as (Hf3 & Hl3 & Hc3 & Hd3);
        cbn [files links cwd link_del print emit];
        [congruence | by rewrite <- Hrunl | congruence | congruence |].
      exact (destroyVM_removal hasError w _ vmName Hf3 Hl3 Hc3 Hd3).
    + cbn [fst snd files links cwd link_del print emit].
      split_and!; [| | done | done | by rewrite <- Hrunl | congruence | congruence].
      * intros q _. by rewrite Hstopf, Hrunf.
      * intros q Hq. by rewrite Hstopf, Hrunf.
  - destruct (Hnets (print "  ⚠ VM was not running" w1)) as (Hf3 & Hl3 & Hc3 & Hd3);
      cbn [files links cwd link_del print emit];
      [done | by rewrite Hrunl | done | done |].
    exact (destroyVM_removal hasError w _ vmName Hf3 Hl3 Hc3 Hd3).
Qed.

Lemma destroyVMs_frame (entries : list (string * VM)) (hasError : bool)
    (w : World) (q : list string) :
  Forall (fun entry => ~ [entry.1] `prefix_of` q) entries ->
  files (foldl destroyVM (hasError, w) entries).2 !! q = files w !! q.
Proof.
  revert hasError w.
  induction entries as [|[vmName vm] entries IH]; intros hasError w Hall;
    [done |].
  inversion_clear Hall as [|? ? Hq Hrest]. cbn [foldl].
  destruct (destroyVM_cases hasError w vmName vm) as (Hout & _).
  destruct (destroyVM (hasError, w) (vmName, vm)) as [hasError' w1].
  rewrite IH by done. by apply Hout.
Qed.

Lemma destroyVMs_links (entries : list (string * VM)) (hasError : bool)
    (w : World) :
  links (foldl destroyVM (hasError, w) entries).2 ⊆ links w
  /\ cwd (foldl destroyVM (hasError, w) entries).2 = cwd w
  /\ link_del (foldl destroyVM (hasError, w) entries).2 = link_del w.
Proof.
  revert hasError w.
  induction entries as [|[vmName vm] entries IH]; intros hasError w; [done |].
  cbn [foldl].
  destruct (destroyVM_cases hasError w vmName vm)
    as (_ & _ & _ & _ & Hlinks & Hcwd & Hdel).
  destruct (destroyVM (hasError, w) (vmName, vm)) as [hasError' w1].
  destruct (IH hasError' w1) as (Hl & Hc & Hd). cbn [snd] in *.
  split_and!; [by etrans | congruence | congruence].
Qed.

Lemma destroyVMs_gone (entries : list (string * VM)) (hasError : bool)
    (w : World) (q : list string) :
  files w !! q = None -> files (foldl destroyVM (hasError, w) entries).2 !! q = None.
Proof.
  revert hasError w.
  induction entries as [|[vmName vm] entries IH]; intros hasError w Hnone;
    [done |].
  cbn [foldl].
  destruct (destroyVM_cases hasError w vmName vm) as (_ & Hgone & _).
  destruct (destroyVM (hasError, w) (vmName, vm)) as [hasError' w1].
  apply IH. by apply Hgone.
Qed.

Lemma destroyVMs_removed (entries : list (string * VM)) (hasError : bool)
    (w : World) :
  (foldl destroyVM (hasError, w) entries).1 = false ->
  hasError = false
  /\ forall vmName vm q,
       (vmName, vm) ∈ entries -> [vmName] `prefix_of` q ->
       files (foldl destroyVM (hasError, w) entries).2 !! q = None.
Proof.
  revert hasError w.
  induction entries as [|[vmName vm] entries IH]; intros hasError w Hok.
  - split; [done |]. intros ? ? ? Hin. by apply elem_of_nil in Hin.
  - cbn [foldl] in *.
    destruct (destroyVM_cases hasError w vmName vm)
      as (_ & _ & Hflag & Hbelow & _).
    destruct (destroyVM (hasError, w) (vmName, vm)) as [hasError' w1].
    destruct (IH hasError' w1 Hok) as [-> Hrest]. cbn [fst snd] in *.
    split; [by destruct hasError; [specialize (Hflag eq_refl) |] |].
    intros name vm' q Hin Hpre.
    apply elem_of_cons in Hin as [[= -> ->] | Hin]; [| by eapply Hrest].
    apply destroyVMs_gone. by apply Hbelow.
Qed.

Lemma getBridgeName_cwd (networkName : string) (w w' : World) :
  cwd w' = cwd w -> getBridgeName networkName w' = getBridgeName networkName w.
Proof. intros Hcwd. unfold getBridgeName, getProjectName. by rewrite Hcwd. Qed.

(** The bridge loop of [destroy].  The error flag, once set, stays set;
    when it is not set afterwards, no bridge of the networks is left.
    The interfaces that go are the bridges that the kernel lets go. *)
Lemma destroyBridges_frame (names : list string) (hasError : bool)
    (w w0 : World) :
  cwd w = cwd w0 -> link_del w = link_del w0 ->
  (hasError = true -> (foldl destroyBridge (hasError, w) names).1 = true)
  /\ ((foldl destroyBridge (hasError, w) names).1 = false ->
      forall name, name ∈ names ->
        getBridgeName name w0 ∉ links (foldl destroyBridge (hasError, w) names).2)
  /\ (forall q, q <> getNetworkMetadataPath ->
        files (foldl destroyBridge (hasError, w) names).2 !! q = files w !! q)
  /\ links (foldl destroyBridge (hasError, w) names).2
     = links w ∖ list_to_set (deletable w0 (bridgeNames names w0))
  /\ cwd (foldl destroyBridge (hasError, w) names).2 = cwd w0.
Proof.
  revert hasError w. induction names as [|name names IH]; intros hasError w Hw Hd.
  - cbn. split_and!; try done.
    + intros _ name Hin. by apply elem_of_nil in Hin.
    + by rewrite difference_empty_L.
  - cbn [foldl].
    destruct (deleteBridge_frame name w)
      as (Hres & Hfiles & Hlinks & Hcwd & Hdel & _).
    rewrite (getBridgeName_cwd name w0 w Hw), Hd in Hres, Hlinks.
    remember (destroyBridge (hasError, w) name) as step eqn:Hstep.
    unfold destroyBridge in Hstep.
    destruct (deleteBridge name w) as [[[]|e] w1]; cbn [fst snd] in *;
      subst step.
    + set (w2 := print _ w1).
      destruct (IH hasError w2) as (Hflag & Hgone & Hfiles' & Hlinks' & Hcwd');
        [unfold w2; cbn [cwd print emit]; congruence
        | unfold w2; cbn [link_del print emit]; congruence |].
      split_and!.
      * done.
      * intros Hok n Hin.
        apply elem_of_cons in Hin as [-> | Hin]; [| by apply Hgone].
        rewrite Hlinks'. unfold w2 at 1. cbn [links print emit]. rewrite Hlinks.
        intros [Hin _]%elem_of_difference.
        destruct (link_del w0 (getBridgeName name w0)).
        -- apply elem_of_difference in Hin as [_ Hnot].
           apply Hnot. by apply elem_of_singleton.
        -- by rewrite bool_decide_eq_true_2 in Hres by done.
      * intros q Hq. rewrite Hfiles' by done. unfold w2.
        rewrite files_print. by apply Hfiles.
      * rewrite Hlinks'. unfold w2 at 1. cbn [links print emit]. rewrite Hlinks.
        unfold bridgeNames, deletable. cbn [fmap list_fmap]. rewrite filter_cons.
        destruct (link_del w0 (getBridgeName name w0)) eqn:Hgo.
        -- rewrite decide_True by done. cbn [list_to_set].
           by rewrite difference_difference_l_L.
        -- by rewrite decide_False by done.
      * exact Hcwd'.
    + set (w2 := print _ w1).
      destruct (IH true w2) as (Hflag & Hgone & Hfiles' & Hlinks' & Hcwd');
        [unfold w2; cbn [cwd print emit]; congruence
        | unfold w2; cbn [link_del print emit]; congruence |].
      split_and!.
      * intros _. by apply Hflag.
      * intros Hok. by rewrite Hflag in Hok.
      * intros q Hq. rewrite Hfiles' by done. unfold w2.
        rewrite files_print. by apply Hfiles.
      * rewrite Hlinks'. unfold w2 at 1. cbn [links print emit]. rewrite Hlinks.
        unfold bridgeNames, deletable. cbn [fmap list_fmap]. rewrite filter_cons.
        destruct (link_del w0 (getBridgeName name w0)) eqn:Hgo.
        -- rewrite decide_True by done. cbn [list_to_set].
           by rewrite difference_difference_l_L.
        -- by rewrite decide_False by done.
      * exact Hcwd'.
Qed.

Lemma destroyNetworks_frame (config : ComposeConfig) (hasError : bool) (w : World) :
  (hasError = true -> (destroyNetworks config (hasError, w)).1 = true)
  /\ ((destroyNetworks config (hasError, w)).1 = false ->
      forall name, is_Some (Cfg_Networks config !! name) ->
        getBridgeName name w ∉ links (destroyNetworks config (hasError, w)).2)
  /\ (forall q, q <> getNetworkMetadataPath ->
        files (destroyNetworks config (hasError, w)).2 !! q = files w !! q)
  /\ links (destroyNetworks config (hasError, w)).2
     = links w ∖ list_to_set
                   (deletable w
                      (bridgeNames (elements (dom (Cfg_Networks config))) w)).
Proof.
  unfold destroyNetworks.
  destruct (destroyBridges_frame (elements (dom (Cfg_Networks config))) hasError
              (print "Cleaning up project network infrastructure..." w) w
              eq_refl eq_refl)
    as (Hflag & Hgone & Hfiles & Hlinks & _).
  destruct (foldl destroyBridge _ _) as [hasError' w1]. cbn [fst snd] in *.
  assert (forall name, is_Some (Cfg_Networks config !! name) ->
            name ∈ elements (dom (Cfg_Networks config))) as Hnames.
  { intros name. by rewrite elem_of_elements, elem_of_dom. }
  destruct (loadNetworkMetadata w1) as [m|e]; cbn [fst snd].
  - split_and!; [done | | | done].
    + intros Hok name Hname. cbn [links print emit].
      apply Hgone; [done | by apply Hnames].
    + intros q Hq. rewrite files_print.
      unfold saveNetworkMetadata, writeFile. cbn [files set_files].
      rewrite lookup_insert_ne by done. by apply Hfiles.
  - split_and!; [done | | done | done].
    intros Hok name Hname. apply Hgone; [done | by apply Hnames].
Qed.

(** The exit status and the final world of [destroy], from the result of
    its loops. *)
Lemma destroyCmd_run (composeFile : string) (f : ComposeFile)
    (config : ComposeConfig) (vms : gmap string VM) (args : list string)
    (w : World) :
  loadComposeFile f = Ok config -> filterVMs config args = Ok vms ->
  exists w0 : World,
    files w0 = files w /\ links w0 = links w /\ cwd w0 = cwd w
    /\ link_del w0 = link_del w
    /\ let acc := foldl destroyVM (false, w0) (map_to_list vms) in
       let final := match args with
                    | [] => destroyNetworks config acc
                    | _ => acc
                    end in
       (destroyCmd composeFile f args w).1 = (if final.1 then 1 else 0)
       /\ files (destroyCmd composeFile f args w).2 = files final.2
       /\ links (destroyCmd composeFile f args w).2 = links final.2.
Proof.
  intros Hload Hfilter. unfold destroyCmd. rewrite Hload, Hfilter.
  set (w0 := print _ (print _ (print _ w))).
  exists w0. split; [done |]. split; [done |]. split; [done |].
  split; [done |]. cbv zeta.
  set (acc := foldl destroyVM (false, w0) (map_to_list vms)).
  destruct (match args with
            | [] => destroyNetworks config acc
            | _ :: _ => acc
            end) as [[] w3]; split_and!; reflexivity.
Qed.

(** X21. When [destroy] exits with status 0, every selected VM is gone:
    no file is left below the directory of the VM (the file
    [networks.json] of the workspace apart, which a destroy of all VMs
    rewrites), so the VM has no instance and no recorded SSH port. *)
Theorem destroy_removes_instances (composeFile : string) (f : ComposeFile)
    (config : ComposeConfig) (vms : gmap string VM) (args : list string)
    (w : World) (vmName : string) :
  loadComposeFile f = Ok config ->
  filterVMs config args = Ok vms ->
  (destroyCmd composeFile f args w).1 = 0 ->
  is_Some (vms !! vmName) ->
  (forall q, [vmName] `prefix_of` q -> q <> getNetworkMetadataPath ->
     files (destroyCmd composeFile f args w).2 !! q = None)
  /\ vmInstanceExists vmName (destroyCmd composeFile f args w).2 = false
  /\ getSSHPort vmName (destroyCmd composeFile f args w).2
     = Err "no SSH port allocated".
Proof.
  intros Hload Hfilter Hexit [vm Hvm].
  destruct (destroyCmd_run composeFile f config vms args w Hload Hfilter)
    as (w0 & Hf0 & _ & _ & _ & Hstatus & Hfiles & _). cbv zeta in *.
  assert (forall q, [vmName] `prefix_of` q -> q <> getNetworkMetadataPath ->
            files (destroyCmd composeFile f args w).2 !! q = None) as Hgone.
  { intros q Hpre Hq. rewrite Hfiles.
    pose proof (destroyVMs_removed (map_to_list vms) false w0) as Hremoved.
    destruct (foldl destroyVM (false, w0) (map_to_list vms)) as [hasError w1].
    cbn [fst snd] in *.
    assert (hasError = false) as ->.
    { destruct hasError; [| done]. exfalso. destruct args.
      - destruct (destroyNetworks_frame config true w1) as (Hflag & _).
        rewrite (Hflag eq_refl) in Hstatus. congruence.
      - cbn [fst] in Hstatus. congruence. }
    destruct (Hremoved eq_refl) as [_ Hnone].
    assert (files w1 !! q = None) as Hq1.
    { apply (Hnone vmName vm); [| done]. by apply elem_of_map_to_list. }
    destruct args; [| done].
    destruct (destroyNetworks_frame config false w1) as (_ & _ & Hnet & _).
    by rewrite Hnet. }
  split_and!.
  - exact Hgone.
  - apply stat_false. intros q Hpre. apply Hgone.
    + etrans; [| exact Hpre]. by exists ["disk.qcow2"].
    + intros ->. by destruct Hpre as [rest Hrest].
  - unfold getSSHPort, loadPortMetadata. rewrite Hgone; [done | | done].
    by exists ["ports.json"].
Qed.

(** X22. [destroy] is selective.  With VM names that are one path
    component each, a file that lies below the directory of no selected
    VM is left as it is, [networks.json] apart; when VM names are given,
    [networks.json] is left as it is too.  This holds whether or not a
    step of [destroy] fails.  No network interface is added. *)
Theorem destroy_is_selective (composeFile : string) (f : ComposeFile)
    (config : ComposeConfig) (vms : gmap string VM) (args : list string)
    (w : World) (q : list string) :
  loadComposeFile f = Ok config ->
  filterVMs config args = Ok vms ->
  (forall vmName, is_Some (vms !! vmName) -> plainName vmName = true) ->
  (forall vmName, is_Some (vms !! vmName) -> ~ [vmName] `prefix_of` q) ->
  (q <> getNetworkMetadataPath \/ args <> [] ->
   files (destroyCmd composeFile f args w).2 !! q = files w !! q)
  /\ links (destroyCmd composeFile f args w).2 ⊆ links w.
Proof.
  intros Hload Hfilter _ Hout.
  destruct (destroyCmd_run composeFile f config vms args w Hload Hfilter)
    as (w0 & Hf0 & Hl0 & _ & _ & _ & Hfiles & Hlinks). cbv zeta in *.
  rewrite Hfiles, Hlinks.
  assert (files (foldl destroyVM (false, w0) (map_to_list vms)).2 !! q
          = files w !! q) as Hvms.
  { rewrite destroyVMs_frame, Hf0; [done |].
    apply Forall_forall. intros [name vm] Hin. cbn [fst].
    apply Hout. exists vm. by apply elem_of_map_to_list. }
  destruct (destroyVMs_links (map_to_list vms) false w0) as (Hvl & _).
  rewrite Hl0 in Hvl.
  destruct (foldl destroyVM (false, w0) (map_to_list vms)) as [hasError w1].
  cbn [snd] in *. destruct args as [|arg args].
  - destruct (destroyNetworks_frame config hasError w1) as (_ & _ & Hnet & Hnl).
    split.
    + intros [Hq | Hargs]; [| done]. by rewrite Hnet.
    + rewrite Hnl. etrans; [apply subseteq_difference_l |]; done.
  - split; [done | exact Hvl].
Qed.

Lemma destroy_removes_instances_witness :
  vmInstanceExists "web"
    (destroyCmd "qemu-compose.yaml" (Parsed doc_bridged) ["web"] w_bridged).2
  = false.
Proof.
  apply (destroy_removes_instances "qemu-compose.yaml" (Parsed doc_bridged)
           config_bridged {[ "web" := bridged_vm ]} ["web"] w_bridged "web").
  - by vm_compute.
  - by vm_compute.
  - by vm_compute.
  - eexists. reflexivity.
Defined.

Lemma destroy_is_selective_witness :
  files (destroyCmd "qemu-compose.yaml" (Parsed doc_bridged) ["web"]
           w_bridged).2 !! ["networks.json"]
  = files w_bridged !! ["networks.json"].
Proof.
  apply (proj1 (destroy_is_selective "qemu-compose.yaml" (Parsed doc_bridged)
                  config_bridged {[ "web" := bridged_vm ]} ["web"] w_bridged
                  ["networks.json"]
                  ltac:(by vm_compute) ltac:(by vm_compute)
                  ltac:(intros vmName [vm Hvm];
                        apply lookup_singleton_Some in Hvm as [<- _];
                        reflexivity)
                  ltac:(intros vmName [vm Hvm];
                        apply lookup_singleton_Some in Hvm as [<- _];
                        intros [rest Hrest]; discriminate))).
  by right.
Defined.

Lemma foldl_delete_lookup (names : list string)
    (m : gmap string NetworkMetadata) (name : string) :
  foldl (fun m name => delete name m) m names !! name
  = if bool_decide (name ∈ names) then None else m !! name.
Proof.
  revert m. induction names as [|n names IH]; intros m; cbn [foldl].
  - rewrite bool_decide_eq_false_2; [done | apply not_elem_of_nil].
  - rewrite IH. destruct (decide (name ∈ names)) as [Hin | Hnin].
    + rewrite !bool_decide_eq_true_2; [done | by right | done].
    + rewrite (bool_decide_eq_false_2 _ Hnin).
      destruct (decide (name = n)) as [-> | Hne].
      * rewrite lookup_delete_eq, bool_decide_eq_true_2; [done | left].
      * rewrite lookup_delete_ne by done.
        rewrite bool_decide_eq_false_2; [done |].
        rewrite elem_of_cons. tauto.
Qed.

Lemma destroyBridges_metadata (names : list string) (hasError : bool)
    (w : World) (m : gmap string NetworkMetadata) :
  loadNetworkMetadata w = Ok m ->
  exists m1,
    loadNetworkMetadata (foldl destroyBridge (hasError, w) names).2 = Ok m1
    /\ forall name, name ∉ names -> m1 !! name = m !! name.
Proof.
  revert hasError w m. induction names as [|n names IH]; intros hasError w m Hload.
  - by exists m.
  - cbn [foldl]. unfold destroyBridge at 2.
    destruct (deleteBridge_frame n w) as (_ & _ & _ & _ & _ & Hmeta).
    rewrite (stopDnsmasq_metadata n w m Hload) in Hmeta.
    assert (forall flag line,
              exists m1,
                loadNetworkMetadata
                  (foldl destroyBridge
                     (flag, print line (deleteBridge n w).2) names).2 = Ok m1
                /\ forall name, name ∉ n :: names -> m1 !! name = m !! name)
      as Hstep.
    { intros flag line.
      destruct (IH flag (print line (deleteBridge n w).2) _ Hmeta)
        as (m1 & Hm1 & Hsame).
      exists m1. split; [exact Hm1 |].
      intros name [Hne Hnin]%not_elem_of_cons. rewrite Hsame by done.
      destruct (m !! n); [by rewrite lookup_insert_ne | done]. }
    destruct (deleteBridge n w) as [[[]|e] w1]; cbn [snd] in Hstep; apply Hstep.
Qed.

(** X23. A [destroy] of all VMs forgets the networks of the
    configuration and no other: provided the VM names are one path
    component each and none is [networks.json], the [networks.json] it
    leaves has no record for a network of the compose file, so that
    network is given a subnet anew at the next [up], and keeps the record
    of every other network as it was, whether or not a step of [destroy]
    fails.  The bridge of a network of the compose file is gone when the
    kernel lets it go, whatever the exit status; when [destroy] exits
    with status 0, no bridge of a network of the compose file is left. *)
Theorem destroy_all_forgets_networks (composeFile : string) (f : ComposeFile)
    (config : ComposeConfig) (w : World) (m : gmap string NetworkMetadata) :
  loadComposeFile f = Ok config ->
  loadNetworkMetadata w = Ok m ->
  (forall vmName, is_Some (VMs config !! vmName) -> plainName vmName = true) ->
  VMs config !! "networks.json" = None ->
  (exists m1,
     loadNetworkMetadata (destroyCmd composeFile f [] w).2 = Ok m1
     /\ forall name,
          m1 !! name = match Cfg_Networks config !! name with
                       | Some _ => None
                       | None => m !! name
                       end)
  /\ (forall name,
        is_Some (Cfg_Networks config !! name) ->
        link_del w (getBridgeName name w) = true ->
        getBridgeName name w ∉ links (destroyCmd composeFile f [] w).2)
  /\ ((destroyCmd composeFile f [] w).1 = 0 ->
      forall name,
        is_Some (Cfg_Networks config !! name) ->
        getBridgeName name w ∉ links (destroyCmd composeFile f [] w).2).
Proof.
  intros Hload Hmeta _ Hnovm.
  destruct (destroyCmd_run composeFile f config (VMs config) [] w Hload eq_refl)
    as (w0 & Hf0 & Hl0 & Hc0 & Hd0 & Hstatus & Hfiles & Hlinks). cbv zeta in *.
  assert (files (foldl destroyVM (false, w0) (map_to_list (VMs config))).2
            !! getNetworkMetadataPath = files w !! getNetworkMetadataPath)
    as Hkept.
  { rewrite destroyVMs_frame, Hf0; [done |].
    apply Forall_forall. intros [name vm] Hin%elem_of_map_to_list. cbn [fst].
    intros [rest Hrest]. injection Hrest as <- _. congruence. }
  destruct (destroyVMs_links (map_to_list (VMs config)) false w0)
    as (_ & Hcwd & Hdel).
  destruct (foldl destroyVM (false, w0) (map_to_list (VMs config)))
    as [hasError w1]. cbn [snd] in *.
  assert (loadNetworkMetadata w1 = Ok m) as Hmeta1.
  { unfold loadNetworkMetadata in *. by rewrite Hkept. }
  set (names := elements (dom (Cfg_Networks config))).
  assert (forall name, name ∈ names <-> is_Some (Cfg_Networks config !! name))
    as Hnames.
  { intros name. unfold names. by rewrite elem_of_elements, elem_of_dom. }
  assert (forall name, getBridgeName name w1 = getBridgeName name w) as Hbridge.
  { intros name. apply getBridgeName_cwd. congruence. }
  split_and!.
  - unfold destroyNetworks in *. fold names in Hfiles.
    destruct (destroyBridges_metadata names hasError
                (print "Cleaning up project network infrastructure..." w1) m
                Hmeta1) as (m2 & Hm2 & Hsame).
    destruct (foldl destroyBridge _ names) as [hasError' w2]. cbn [snd] in *.
    rewrite Hm2 in Hfiles. cbn [snd] in Hfiles.
    eexists. split.
    + unfold loadNetworkMetadata. rewrite Hfiles, files_print.
      unfold saveNetworkMetadata, writeFile. cbn [files set_files].
      by rewrite lookup_insert_eq.
    + intros name. rewrite foldl_delete_lookup.
      destruct (Cfg_Networks config !! name) as [network|] eqn:Hcfg.
      * rewrite bool_decide_eq_true_2; [done |]. apply Hnames. by eexists.
      * assert (name ∉ names) as Hnin.
        { rewrite Hnames, Hcfg. by intros [? ?]. }
        rewrite bool_decide_eq_false_2 by done. by apply Hsame.
  - intros name Hcfg Hgo. rewrite Hlinks.
    destruct (destroyNetworks_frame config hasError w1) as (_ & _ & _ & ->).
    apply not_elem_of_difference. right.
    apply elem_of_list_to_set. unfold deletable, bridgeNames.
    apply list_elem_of_filter. rewrite Hdel, Hd0. split; [done |].
    apply list_elem_of_fmap. exists name. split; [by rewrite Hbridge |].
    by apply Hnames.
  - intros Hexit name Hcfg. rewrite Hlinks, <- Hbridge.
    destruct (destroyNetworks_frame config hasError w1) as (_ & Hgone & _).
    apply Hgone; [| done].
    destruct (destroyNetworks config (hasError, w1)) as [[] w2];
      cbn [fst] in *; [congruence | done].
Qed.

Lemma destroy_all_forgets_networks_witness :
  (exists m1,
     loadNetworkMetadata
       (destroyCmd "qemu-compose.yaml" (Parsed doc_bridged) [] w_bridged).2
     = Ok m1
     /\ m1 !! "frontend" = None)
  /\ ("qc-demo-fronten"
        ∉ links (destroyCmd "qemu-compose.yaml" (Parsed doc_bridged) []
                   w_bridged).2).
Proof.
  destruct (destroy_all_forgets_networks "qemu-compose.yaml" (Parsed doc_bridged)
              config_bridged w_bridged
              {[ "frontend" := net_meta "172.16.0.0/24" ]}
              ltac:(by vm_compute) eq_refl
              ltac:(intros vmName [vm Hvm];
                    unfold config_bridged in Hvm; cbn [VMs] in Hvm;
                    apply lookup_singleton_Some in Hvm as [<- _];
                    reflexivity)
              eq_refl)
    as ((m1 & Hload & Hm1) & _ & Hgone).
  split.
  - exists m1. split; [exact Hload |]. by rewrite Hm1.
  - apply (Hgone ltac:(by vm_compute) "frontend"). by eexists.
Defined.

(** One turn of the loop of [stop]. *)
Lemma stopOne_frame (hasError : bool) (w : World) (vmName : string) (vm : VM) :
  files (stopOne (hasError, w) (vmName, vm)).2 = files w
  /\ links (stopOne (hasError, w) (vmName, vm)).2 ⊆ links w
  /\ cwd (stopOne (hasError, w) (vmName, vm)).2 = cwd w
  /\ run (stopOne (hasError, w) (vmName, vm)).2 = run w
  /\ ((isVMRunning vmName w).1 = false ->
      (stopOne (hasError, w) (vmName, vm)).1 = hasError
      /\ links (stopOne (hasError, w) (vmName, vm)).2 = links w).
Proof.
  unfold stopOne.
  destruct (isVMRunning_frame vmName (print ("VM: " +:+ vmName) w))
    as (Hf & Hl & Hc & Hr & _).
  pose proof (isVMRunning_host vmName w (print ("VM: " +:+ vmName) w)
                eq_refl eq_refl) as Hsame.
  destruct (isVMRunning vmName (print ("VM: " +:+ vmName) w)) as [running w1].
  cbn [fst snd] in *. rewrite <- Hsame.
  destruct running; cbn [negb].
  - destruct (stopVM_frame vmName vm w1) as (Hf2 & Hl2 & Hc2 & Hr2 & _).
    destruct (stopVM vmName vm w1) as [[[]|e] w2];
      cbn [fst snd files links cwd run print emit] in *;
      (split_and!; [ by rewrite Hf2 | by rewrite <- Hl | by rewrite Hc2
                   | by rewrite Hr2 | intros [=] ]).
  - cbn [fst snd files links cwd run print emit] in *.
    split_and!; [done | by rewrite Hl | done | done | done].
Qed.

Lemma stopAll_frame (entries : list (string * VM)) (hasError : bool) (w : World) :
  files (foldl stopOne (hasError, w) entries).2 = files w
  /\ links (foldl stopOne (hasError, w) entries).2 ⊆ links w
  /\ (Forall (fun entry => (isVMRunning entry.1 w).1 = false) entries ->
      (foldl stopOne (hasError, w) entries).1 = hasError
      /\ links (foldl stopOne (hasError, w) entries).2 = links w).
Proof.
  revert hasError w.
  induction entries as [|[vmName vm] entries IH]; intros hasError w; [done |].
  cbn [foldl].
  destruct (stopOne_frame hasError w vmName vm) as (Hf & Hl & Hc & Hr & Hidle).
  destruct (stopOne (hasError, w) (vmName, vm)) as [hasError' w1].
  cbn [fst snd] in *.
  destruct (IH hasError' w1) as (Hf' & Hl' & Hidle').
  split_and!; [congruence | by etrans |].
  intros Hall. inversion_clear Hall as [|? ? Hone Hrest]. cbn [fst] in Hone.
  destruct (Hidle Hone) as [-> Hl1]. rewrite <- Hl1. apply Hidle'.
  eapply Forall_impl; [exact Hrest |]. intros [name vm'] Hname. cbn [fst] in *.
  by rewrite (isVMRunning_host name w w1 Hc Hr).
Qed.

(** X24. [stop] never touches the workspace: whatever the compose file
    and the names given, every file is as before, so each VM keeps its
    overlay disk and its recorded SSH port, and no network interface is
    added.  When systemd reports none of the selected VMs as active,
    [stop] exits with status 0 and leaves the interfaces as they are
    too. *)
Theorem stop_keeps_workspace (composeFile : string) (f : ComposeFile)
    (args : list string) (w : World) :
  files (stopCmd composeFile f args w).2 = files w
  /\ links (stopCmd composeFile f args w).2 ⊆ links w
  /\ (forall vmName,
        vmInstanceExists vmName (stopCmd composeFile f args w).2
        = vmInstanceExists vmName w
        /\ getSSHPort vmName (stopCmd composeFile f args w).2
           = getSSHPort vmName w)
  /\ (forall config vms,
        loadComposeFile f = Ok config ->
        filterVMs config args = Ok vms ->
        (forall vmName, is_Some (vms !! vmName) ->
           (isVMRunning vmName w).1 = false) ->
        (stopCmd composeFile f args w).1 = 0
        /\ links (stopCmd composeFile f args w).2 = links w).
Proof.
  assert (files (stopCmd composeFile f args w).2 = files w
          /\ links (stopCmd composeFile f args w).2 ⊆ links w
          /\ (forall config vms,
                loadComposeFile f = Ok config ->
                filterVMs config args = Ok vms ->
                (forall vmName, is_Some (vms !! vmName) ->
                   (isVMRunning vmName w).1 = false) ->
                (stopCmd composeFile f args w).1 = 0
                /\ links (stopCmd composeFile f args w).2 = links w))
    as (Hfiles & Hlinks & Hidle).
  { unfold stopCmd.
    destruct (loadComposeFile f) as [config|e]; [| by split_and!].
    destruct (filterVMs config args) as [vms|e] eqn:Hfilter;
      [| split_and!; [done | done | intros ? ? [= <-]; congruence]].
    set (w0 := print _ (print _ (print _ w))).
    destruct (stopAll_frame (map_to_list vms) false w0) as (Hf & Hl & Hidle).
    destruct (foldl stopOne (false, w0) (map_to_list vms)) as [hasError w1].
    cbn [fst snd] in *.
    split_and!.
    - by destruct hasError.
    - by destruct hasError.
    - intros config' vms' Hc Hv Hnone. simplify_eq.
      rewrite Hfilter in Hv. simplify_eq.
      destruct Hidle as [-> Hl1]; [| by split].
      apply Forall_forall. intros [name vm] Hin%elem_of_map_to_list. cbn [fst].
      rewrite (isVMRunning_host name w w0 eq_refl eq_refl).
      apply Hnone. by eexists. }
  split_and!; try done.
  intros vmName. unfold vmInstanceExists, stat, getSSHPort, loadPortMetadata.
  by rewrite Hfiles.
Qed.

Lemma stop_keeps_workspace_witness :
  (stopCmd "qemu-compose.yaml" (Parsed doc_bridged) [] w_failed_unit).1 = 0
  /\ links (stopCmd "qemu-compose.yaml" (Parsed doc_bridged) [] w_failed_unit).2
     = links w_failed_unit.
Proof.
  destruct (stop_keeps_workspace "qemu-compose.yaml" (Parsed doc_bridged) []
              w_failed_unit) as (_ & _ & _ & Hidle).
  apply (Hidle config_bridged {[ "web" := bridged_vm ]}).
  - by vm_compute.
  - by vm_compute.
  - intros vmName [vm Hvm]. apply lookup_singleton_Some in Hvm as [<- _].
    by vm_compute.
Defined.

End commands.

(** ** The mounts in the QEMU command line and in the seed *)

Section seed_mounts.

Example indexToLetter_first : indexToLetter 0 = "b".
Proof. by vm_compute. Qed.

Example indexToLetter_last_letter : indexToLetter 24 = "z".
Proof. by vm_compute. Qed.

Example indexToLetter_past_z : indexToLetter 25 = "{".
Proof. by vm_compute. Qed.

Example mountLines_named :
  mountLines [data_volume] 0 0
  = ["  - [/dev/vdb, /var/lib/db, ext4, " +:+ dquote +:+ "defaults" +:+ dquote
       +:+ ", " +:+ dquote +:+ "0" +:+ dquote +:+ ", " +:+ dquote +:+ "2"
       +:+ dquote +:+ "]"].
Proof. by vm_compute. Qed.

Lemma volumeArgs_app (pre post : list VMVolumeMount) (i : Z) :
  volumeArgs (pre ++ post) i = volumeArgs pre i ++ volumeArgs post (i + bound pre).
Proof.
  revert i. induction pre as [|m pre IH]; intros i.
  - cbn. by rewrite Z.add_0_r.
  - cbn [app volumeArgs bound countMounts]. fold (bound pre).
    destruct (IsBindMount m); rewrite IH; cbn [app].
    + by rewrite Z.add_assoc.
    + by rewrite Z.add_0_l.
Qed.

Lemma mountLines_app (pre post : list VMVolumeMount) (n b : Z) :
  mountLines (pre ++ post) n b
  = mountLines pre n b ++ mountLines post (n + named pre) (b + automounted pre).
Proof.
  revert n b. induction pre as [|m pre IH]; intros n b.
  - cbn. by rewrite !Z.add_0_r.
  - cbn [app mountLines named automounted countMounts].
    fold (named pre) (automounted pre).
    destruct (IsBindMount m), (Mount_Automount m); cbn [andb negb];
      rewrite IH; cbn [app]; by rewrite ?Z.add_assoc, ?Z.add_0_l, ?Z.add_0_r.
Qed.

Lemma automounted_le_bound (mounts : list VMVolumeMount) :
  0 <= automounted mounts <= bound mounts.
Proof.
  unfold automounted, bound. induction mounts as [|m mounts IH]; cbn; [lia |].
  destruct (IsBindMount m), (Mount_Automount m); cbn; lia.
Qed.

Lemma automounted_eq_bound (mounts : list VMVolumeMount) :
  automounted mounts = bound mounts
  <-> Forall (fun x => IsBindMount x = true -> Mount_Automount x = true) mounts.
Proof.
  induction mounts as [|m mounts IH].
  - split; [by constructor | done].
  - pose proof (automounted_le_bound mounts) as Hle.
    unfold automounted, bound in *. cbn [countMounts]. rewrite Forall_cons.
    destruct (IsBindMount m), (Mount_Automount m); cbn [andb].
    + rewrite <- IH. split; [intros; split; [done | lia] | intros [_ ?]; lia].
    + split; [lia | intros [Hm _]; by specialize (Hm eq_refl)].
    + rewrite <- IH. split; [intros; split; [done | lia] | intros [_ ?]; lia].
    + rewrite <- IH. split; [intros; split; [done | lia] | intros [_ ?]; lia].
Qed.

Lemma itoa_inj (i j : Z) : Go.itoa i = Go.itoa j -> i = j.
Proof. unfold Go.itoa. apply (inj pretty). Qed.

Lemma append_inj_l (p s t : string) : p +:+ s = p +:+ t -> s = t.
Proof. induction p as [|c p IH]; cbn; [done |]. intros [= H]. by apply IH. Qed.

(** X25. The 9p tag of a bind mount is counted in two ways.  In the
    QEMU command line the bind mount that follows [pre] is exported under
    the tag [mount<b>], [b] the number of bind mounts in [pre]; in the
    [mounts:] section of the seed the same bind mount is mounted from the
    tag [mount<a>], [a] the number of bind mounts in [pre] that are
    mounted automatically.  The two tags are the same exactly when every
    bind mount before it is mounted automatically. *)
Theorem bind_mount_tags (pre post : list VMVolumeMount) (mount : VMVolumeMount) :
  IsBindMount mount = true ->
  Mount_Automount mount = true ->
  volumeArgs (pre ++ mount :: post) 0
  = volumeArgs pre 0
      ++ ["-virtfs";
          "local,path=" +:+ HostPath mount +:+ ",mount_tag="
            +:+ ("mount" +:+ Go.itoa (bound pre))
            +:+ ",security_model=passthrough,id="
            +:+ ("mount" +:+ Go.itoa (bound pre))]
      ++ volumeArgs post (bound pre + 1)
  /\ mountLines (pre ++ mount :: post) 0 0
     = mountLines pre 0 0
         ++ [bindMountLine ("mount" +:+ Go.itoa (automounted pre)) mount]
         ++ mountLines post (named pre) (automounted pre + 1)
  /\ ("mount" +:+ Go.itoa (automounted pre) = "mount" +:+ Go.itoa (bound pre)
      <-> Forall (fun x => IsBindMount x = true -> Mount_Automount x = true) pre).
Proof.
  intros Hbind Hauto. split_and!.
  - rewrite volumeArgs_app. cbn [volumeArgs]. rewrite Hbind.
    by rewrite Z.add_0_l.
  - rewrite mountLines_app. cbn [mountLines]. rewrite Hbind, Hauto.
    by rewrite !Z.add_0_l.
  - rewrite <- automounted_eq_bound. split; [| by intros ->].
    by intros ?%append_inj_l%itoa_inj.
Qed.

Lemma bind_mount_tags_witness :
  volumeArgs [manual_bind; auto_bind] 0
  = ["-virtfs";
     "local,path=/srv/app/secrets,mount_tag=mount0,security_model=passthrough,id=mount0";
     "-virtfs";
     "local,path=/srv/app/cfg,mount_tag=mount1,security_model=passthrough,id=mount1"]
  /\ mountLines [manual_bind; auto_bind] 0 0 = [bindMountLine "mount0" auto_bind].
Proof.
  destruct (bind_mount_tags [manual_bind] [] auto_bind eq_refl eq_refl)
    as (Hargs & Hlines & _).
  split; [exact Hargs | exact Hlines].
Defined.

Lemma volumeArgs_withReadOnly (f : VMVolumeMount -> bool)
    (mounts : list VMVolumeMount) (i : Z) :
  volumeArgs (map (fun mount => withReadOnly (f mount) mount) mounts) i
  = volumeArgs mounts i.
Proof.
  revert i. induction mounts as [|m mounts IH]; intros i; [done |].
  cbn [map volumeArgs withReadOnly IsBindMount HostPath Mount_DiskPath].
  by rewrite !IH.
Qed.

(** X26. The read-only flag of a mount never reaches QEMU: the volume
    arguments of the command line are the same whatever the flags are.
    It reaches the guest through the mount options written to the seed,
    and there a bind mount with [mount_options] of its own is written
    with exactly those options, so its read-only flag has no effect at
    all; without [mount_options] the flag adds [,ro]. *)
Theorem read_only_in_the_seed (mounts : list VMVolumeMount)
    (f : VMVolumeMount -> bool) (i : Z) (tag : string)
    (mount : VMVolumeMount) (ro : bool) :
  volumeArgs (map (fun mount => withReadOnly (f mount) mount) mounts) i
  = volumeArgs mounts i
  /\ (Mount_Options mount <> "" ->
      bindMountLine tag (withReadOnly ro mount) = bindMountLine tag mount)
  /\ (Mount_Options mount = "" ->
      bindMountLine tag (withReadOnly ro mount)
      = "  - [" +:+ tag +:+ ", " +:+ MountPath mount +:+ ", 9p, " +:+ dquote
          +:+ ("trans=virtio,version=9p2000.L" +:+ (if ro then ",ro" else ""))
          +:+ dquote +:+ ", " +:+ dquote +:+ "0" +:+ dquote
          +:+ ", " +:+ dquote +:+ "0" +:+ dquote +:+ "]").
Proof.
  split_and!.
  - apply volumeArgs_withReadOnly.
  - intros Hopts%String.eqb_neq. unfold bindMountLine.
    cbn [withReadOnly Mount_Options MountPath Mount_ReadOnly].
    by rewrite Hopts.
  - intros Hopts. unfold bindMountLine.
    cbn [withReadOnly Mount_Options MountPath Mount_ReadOnly].
    by rewrite Hopts.
Qed.

Lemma read_only_in_the_seed_witness :
  bindMountLine "mount0" (withReadOnly false auto_bind)
  = bindMountLine "mount0" auto_bind.
Proof.
  apply (proj1 (proj2 (read_only_in_the_seed [] (fun _ => false) 0 "mount0"
                         auto_bind false))).
  discriminate.
Defined.

Lemma driveArgs_volumeArgs_length (mounts : list VMVolumeMount) (i : Z) :
  Z.of_nat (length (driveArgs (volumeArgs mounts i))) = named mounts.
Proof.
  unfold named. revert i. induction mounts as [|m mounts IH]; intros i; [done |].
  cbn [volumeArgs countMounts]. destruct (IsBindMount m); cbn [negb app].
  - rewrite <- (IH (i + 1)). done.
  - rewrite <- (IH i). cbn [driveArgs String.eqb Ascii.eqb Bool.eqb length].
    lia.
Qed.

Lemma indexToLetter_letters :
  forallb (fun k => String.eqb (indexToLetter k)
                      (String (Ascii.ascii_of_N (Z.to_N (98 + k))) EmptyString))
    (seqZ 0 25) = true.
Proof. by vm_compute. Qed.

(** X27. Named volumes are counted alike on both sides.  The named
    volume that follows [pre] is the [-drive] number [k] among the volume
    arguments of the QEMU command line, [k] the number of named volumes
    in [pre], and the [mounts:] section of the seed mounts the device
    [/dev/vd] followed by [indexToLetter k].  For [k] up to 24 that is
    the single letter [b], [c], ... [z], the letter [a] being the overlay
    disk that precedes the volumes on the command line. *)
Theorem named_volume_devices (pre post : list VMVolumeMount)
    (mount : VMVolumeMount) :
  IsBindMount mount = false ->
  volumeArgs (pre ++ mount :: post) 0
  = volumeArgs pre 0
      ++ ["-drive"; "file=" +:+ Mount_DiskPath mount +:+ ",format=qcow2,if=virtio"]
      ++ volumeArgs post (bound pre)
  /\ Z.of_nat (length (driveArgs (volumeArgs pre 0))) = named pre
  /\ mountLines (pre ++ mount :: post) 0 0
     = mountLines pre 0 0
         ++ [namedMountLine (named pre) mount]
         ++ mountLines post (named pre + 1) (automounted pre)
  /\ (named pre <= 24 ->
      indexToLetter (named pre)
      = String (Ascii.ascii_of_N (Z.to_N (98 + named pre))) EmptyString
      /\ 98 <= 98 + named pre <= 122).
Proof.
  intros Hnamed. split_and!.
  - rewrite volumeArgs_app. cbn [volumeArgs]. rewrite Hnamed.
    by rewrite Z.add_0_l.
  - apply driveArgs_volumeArgs_length.
  - rewrite mountLines_app. cbn [mountLines]. rewrite Hnamed.
    by rewrite !Z.add_0_l.
  - intros Hle.
    assert (0 <= named pre) as Hge.
    { unfold named. clear. induction pre as [|m pre IH]; cbn; [lia |].
      destruct (negb (IsBindMount m)); lia. }
    split; [| lia].
    pose proof indexToLetter_letters as Hall. rewrite forallb_forall in Hall.
    apply String.eqb_eq, Hall, list_elem_of_In, elem_of_seqZ. lia.
Qed.

Lemma named_volume_devices_witness :
  mountLines [auto_bind; data_volume] 0 0
  = [bindMountLine "mount0" auto_bind; namedMountLine 0 data_volume]
  /\ indexToLetter 0 = "b".
Proof.
  destruct (named_volume_devices [auto_bind] [] data_volume eq_refl)
    as (_ & _ & Hlines & Hletter).
  split; [exact Hlines |]. apply (Hletter ltac:(by vm_compute)).
Defined.

End seed_mounts.

Section volume_failure.

(** X28. When [mkfs.ext4] fails, [createNamedVolume] returns an error
    after the disk image has been made: the image is left behind
    unformatted, [volumes.json] is not written, so the volume still has
    no record, and the network block device has been disconnected, as
    the deferred call of [formatVolumeDisk] asks. *)
Theorem createNamedVolume_format_failure (volumeName size : string) (w : World)
    (m : gmap string VolumeMetadata) (out1 out2 : string) :
  loadVolumeMetadata w = Ok m ->
  m !! volumeName = None ->
  run w ["qemu-img"; "create"; "-f"; "qcow2";
         abs w ["volumes"; volumeName; "volume.qcow2"]; size] = Some out1 ->
  run w ["sudo"; "qemu-nbd"; "--connect"; "/dev/nbd0";
         abs w ["volumes"; volumeName; "volume.qcow2"]] = Some out2 ->
  run w ["sudo"; "mkfs.ext4"; "-F"; "/dev/nbd0"] = None ->
  (createNamedVolume volumeName size w).1
  = Err "failed to format volume: failed to format volume with ext4"
  /\ files (createNamedVolume volumeName size w).2
       !! ["volumes"; volumeName; "volume.qcow2"]
     = Some (Qcow2 "" size false)
  /\ loadVolumeMetadata (createNamedVolume volumeName size w).2 = Ok m
  /\ last (trace (createNamedVolume volumeName size w).2)
     = Some (Ran ["sudo"; "qemu-nbd"; "--disconnect"; "/dev/nbd0"]).
Proof.
  intros Hload Hnone Hcreate Hconnect Hmkfs.
  set (disk := ["volumes"; volumeName; "volume.qcow2"]) in *.
  assert (createNamedVolume volumeName size w
          = (Err "failed to format volume: failed to format volume with ext4",
             emit (Ran ["sudo"; "qemu-nbd"; "--disconnect"; "/dev/nbd0"])
               (emit (Ran ["sudo"; "mkfs.ext4"; "-F"; "/dev/nbd0"])
                  (emit (Ran ["sudo"; "qemu-nbd"; "--connect"; "/dev/nbd0";
                              abs w disk])
                     (emit (Ran ["sudo"; "modprobe"; "nbd"; "max_part=8"])
                        (writeFile disk (Qcow2 "" size false)
                           (emit (Ran ["qemu-img"; "create"; "-f"; "qcow2";
                                       abs w disk; size]) w)))))))
    as ->.
  { unfold createNamedVolume. rewrite Hload, Hnone. fold disk.
    unfold exec at 1. rewrite Hcreate.
    unfold formatVolumeDisk, exec. cbn [fst snd run emit writeFile set_files].
    change (abs _ disk) with (abs w disk).
    by rewrite Hconnect, Hmkfs. }
  cbn [fst snd files trace emit writeFile set_files].
  split_and!.
  - done.
  - by rewrite lookup_insert_eq.
  - unfold loadVolumeMetadata in *. cbn [files emit writeFile set_files].
    rewrite lookup_insert_ne; [done |]. by intros [= ?].
  - by rewrite last_snoc.
Qed.

Lemma createNamedVolume_format_failure_witness :
  (createNamedVolume "data" "5G" w_no_mkfs).1
  = Err "failed to format volume: failed to format volume with ext4"
  /\ loadVolumeMetadata (createNamedVolume "data" "5G" w_no_mkfs).2 = Ok ∅.
Proof.
  destruct (createNamedVolume_format_failure "data" "5G" w_no_mkfs ∅ "" ""
              eq_refl eq_refl eq_refl eq_refl eq_refl)
    as (Herr & _ & Hmeta & _).
  split; [exact Herr | exact Hmeta].
Defined.

End volume_failure.

(** ** [formatBytes] *)

Section sizes.

Example formatBytes_bytes : formatBytes 1023 = Some "1023 B".
Proof. by vm_compute. Qed.

Example formatBytes_kib : formatBytes 1536 = Some "1.5 KB".
Proof. by vm_compute. Qed.

Example formatBytes_tie_to_even :
  formatBytes 1280 = Some "1.2 KB" /\ formatBytes 1792 = Some "1.8 KB".
Proof. by vm_compute. Qed.

Example formatBytes_below_mib : formatBytes 1048575 = Some "1024.0 KB".
Proof. by vm_compute. Qed.

Example formatBytes_beyond_53_bits :
  formatBytes 9223372036854775807 = Some "8.0 EB".
Proof. by vm_compute. Qed.

Lemma unitLoop_spec (fuel : nat) (n div exp : Z) :
  1 <= n < 1024 ^ Z.of_nat fuel ->
  exists e : Z,
    0 <= e < Z.of_nat fuel
    /\ unitLoop fuel n div exp = Some (div * 1024 ^ e, exp + e)
    /\ 1024 ^ e <= n < 1024 ^ (e + 1).
Proof.
  revert n div exp. induction fuel as [|fuel IH]; intros n div exp Hn.
  - cbn in Hn. lia.
  - cbn [unitLoop]. rewrite Nat2Z.inj_succ, Z.pow_succ_r in Hn by lia.
    destruct (Z.geb_spec n 1024) as [Hbig | Hsmall].
    + rewrite Z.quot_div_nonneg by lia.
      destruct (IH (n / 1024) (div * 1024) (exp + 1)) as (e & He & Hloop & Hrange).
      { split; [apply Z.div_le_lower_bound; lia |].
        apply Z.div_lt_upper_bound; lia. }
      exists (e + 1). split; [lia |]. split.
      * rewrite Hloop. rewrite Z.pow_add_r by lia. f_equal. f_equal; lia.
      * rewrite !Z.pow_add_r in * by lia. change (1024 ^ 1) with 1024 in *.
        pose proof (Z.div_mod n 1024 ltac:(lia)) as Hdiv.
        pose proof (Z.mod_pos_bound n 1024 ltac:(lia)) as Hmod.
        lia.
    + exists 0. split; [lia |]. split.
      * by rewrite Z.mul_1_r, Z.add_0_r.
      * change (1024 ^ 0) with 1. change (1024 ^ (0 + 1)) with 1024. lia.
Qed.

Lemma unit_letter (e : Z) :
  0 <= e <= 5 -> exists c, String.get (Z.to_nat e) "KMGTPE" = Some c.
Proof.
  intros He.
  assert (e = 0 \/ e = 1 \/ e = 2 \/ e = 3 \/ e = 4 \/ e = 5) as Hcases by lia.
  decompose [or] Hcases; subst e; by eexists.
Qed.

(** X29. [formatBytes] never indexes outside of its six unit letters:
    for every 64-bit byte count below 1024, the negative ones included,
    it prints the count followed by [B]; for every other one the loop
    stops with the divisor [1024^(e+1)] for the one [e] between 0 and 5
    with [1024^(e+1) <= bytes < 1024^(e+2)], and the result is the
    quotient with one decimal followed by the letter number [e] of
    [KMGTPE] and [B]. *)
Theorem formatBytes_units (bytes : Z) :
  - 2 ^ 63 <= bytes < 2 ^ 63 ->
  (bytes < 1024 -> formatBytes bytes = Some (Go.itoa bytes +:+ " B"))
  /\ (1024 <= bytes ->
      exists (e : Z) (unit : ascii),
        0 <= e <= 5
        /\ 1024 ^ (e + 1) <= bytes < 1024 ^ (e + 2)
        /\ String.get (Z.to_nat e) "KMGTPE" = Some unit
        /\ formatBytes bytes
           = Some (fixed1 (round53 bytes) (1024 ^ (e + 1)) +:+ " "
                     +:+ String unit (String "B" EmptyString))).
Proof.
  intros Hrange. unfold formatBytes. split.
  - intros Hsmall. by rewrite (proj2 (Z.ltb_lt bytes 1024) Hsmall).
  - intros Hbig. rewrite (proj2 (Z.ltb_ge bytes 1024) Hbig).
    rewrite Z.quot_div_nonneg by lia.
    pose proof (Z.div_mod bytes 1024 ltac:(lia)) as Hdiv.
    pose proof (Z.mod_pos_bound bytes 1024 ltac:(lia)) as Hmod.
    destruct (unitLoop_spec 64 (bytes / 1024) 1024 0) as (e & He & Hloop & Hn).
    { split; [lia |]. apply Z.div_lt_upper_bound; [lia |].
      change (1024 ^ Z.of_nat 64) with (2 ^ 640). 
      assert (2 ^ 63 < 1024 * 2 ^ 640) by (by vm_compute). lia. }
    assert (1024 ^ (e + 1) <= bytes < 1024 ^ (e + 2)) as Hbytes.
    { replace (e + 2) with (e + 1 + 1) by lia.
      rewrite !Z.pow_add_r in * by lia. change (1024 ^ 1) with 1024 in *. lia. }
    assert (e <= 5) as He5.
    { destruct (Z.le_gt_cases e 5) as [|Hgt]; [done |].
      assert (1024 ^ 7 <= 1024 ^ (e + 1)) by (apply Z.pow_le_mono_r; lia).
      assert (2 ^ 63 < 1024 ^ 7) by (by vm_compute). lia. }
    destruct (unit_letter e ltac:(lia)) as [unit Hunit].
    exists e, unit. split; [lia |]. split; [done |]. split; [done |].
    rewrite Hloop, Z.add_0_l, Hunit.
    replace (1024 * 1024 ^ e) with (1024 ^ (e + 1)); [done |].
    rewrite Z.pow_add_r by lia. change (1024 ^ 1) with 1024. lia.
Qed.

Lemma formatBytes_units_witness :
  exists (e : Z) (unit : ascii),
    0 <= e <= 5
    /\ 1024 ^ (e + 1) <= 1048575 < 1024 ^ (e + 2)
    /\ String.get (Z.to_nat e) "KMGTPE" = Some unit
    /\ formatBytes 1048575
       = Some (fixed1 (round53 1048575) (1024 ^ (e + 1)) +:+ " "
                 +:+ String unit (String "B" EmptyString)).
Proof.
  apply (proj2 (formatBytes_units 1048575 ltac:(lia))). lia.
Defined.

End sizes.
